(** * Vulkan render targets and render passes of PPSSPP

    A shallow embedding of [Common/GPU/Vulkan/VulkanFramebuffer.h] and
    [Common/GPU/Vulkan/VulkanFramebuffer.cpp]: the render-pass type tags
    and their predicates, the render-target image factory, the render-pass
    construction and cache, and the framebuffer with its lazily filled
    cache of framebuffer objects, its debug labels and its teardown.

    GPU objects are handles (64-bit values, [0] being [VK_NULL_HANDLE]).
    Every call into the Vulkan driver, the allocator, the logger, the
    debug-name facility and the deferred-deletion queue is recorded, with
    its arguments, in a trace; what the driver answers to a creation call
    is an input of the model. *)

From Stdlib Require Import ZArith Lia List.
From stdpp Require Import list strings pretty.

Open Scope Z_scope.

(** ** Handles, result codes, formats and flag bits (Vulkan headers) *)

Definition Handle := Z.
Definition VK_NULL_HANDLE : Handle := 0.

Definition VkResult := Z.
Definition VK_SUCCESS : VkResult := 0.

Definition VkFormat := Z.
Definition VK_FORMAT_UNDEFINED : VkFormat := 0.
Definition VK_FORMAT_R8G8B8A8_UNORM : VkFormat := 37.

Definition VK_SAMPLE_COUNT_1_BIT : Z := 1.

Definition VK_IMAGE_USAGE_TRANSFER_SRC_BIT : Z := 1.
Definition VK_IMAGE_USAGE_TRANSFER_DST_BIT : Z := 2.
Definition VK_IMAGE_USAGE_SAMPLED_BIT : Z := 4.
Definition VK_IMAGE_USAGE_COLOR_ATTACHMENT_BIT : Z := 16.
Definition VK_IMAGE_USAGE_DEPTH_STENCIL_ATTACHMENT_BIT : Z := 32.
Definition VK_IMAGE_USAGE_INPUT_ATTACHMENT_BIT : Z := 128.

Definition VK_IMAGE_ASPECT_COLOR_BIT : Z := 1.
Definition VK_IMAGE_ASPECT_DEPTH_BIT : Z := 2.
Definition VK_IMAGE_ASPECT_STENCIL_BIT : Z := 4.

Definition VK_ACCESS_INPUT_ATTACHMENT_READ_BIT : Z := 16.
Definition VK_ACCESS_COLOR_ATTACHMENT_READ_BIT : Z := 128.
Definition VK_ACCESS_COLOR_ATTACHMENT_WRITE_BIT : Z := 256.
Definition VK_ACCESS_DEPTH_STENCIL_ATTACHMENT_WRITE_BIT : Z := 1024.
Definition VK_ACCESS_TRANSFER_WRITE_BIT : Z := 4096.

Definition VK_PIPELINE_STAGE_TOP_OF_PIPE_BIT : Z := 1.
Definition VK_PIPELINE_STAGE_FRAGMENT_SHADER_BIT : Z := 128.
Definition VK_PIPELINE_STAGE_EARLY_FRAGMENT_TESTS_BIT : Z := 256.
Definition VK_PIPELINE_STAGE_LATE_FRAGMENT_TESTS_BIT : Z := 512.
Definition VK_PIPELINE_STAGE_COLOR_ATTACHMENT_OUTPUT_BIT : Z := 1024.
Definition VK_PIPELINE_STAGE_TRANSFER_BIT : Z := 4096.

Definition VK_DEPENDENCY_BY_REGION_BIT : Z := 1.
(* [~0U] *)
Definition VK_SUBPASS_EXTERNAL : Z := 4294967295.

(** Conversion of an [int] to the [uint32_t] field it is stored in. *)
Definition to_u32 (z : Z) : Z := z mod 2 ^ 32.

Inductive VkImageLayout :=
| VK_IMAGE_LAYOUT_UNDEFINED
| VK_IMAGE_LAYOUT_GENERAL
| VK_IMAGE_LAYOUT_COLOR_ATTACHMENT_OPTIMAL
| VK_IMAGE_LAYOUT_DEPTH_STENCIL_ATTACHMENT_OPTIMAL
| VK_IMAGE_LAYOUT_DEPTH_STENCIL_READ_ONLY_OPTIMAL
| VK_IMAGE_LAYOUT_SHADER_READ_ONLY_OPTIMAL
| VK_IMAGE_LAYOUT_TRANSFER_SRC_OPTIMAL
| VK_IMAGE_LAYOUT_TRANSFER_DST_OPTIMAL
| VK_IMAGE_LAYOUT_PREINITIALIZED
| VK_IMAGE_LAYOUT_PRESENT_SRC_KHR.

Inductive VkAttachmentLoadOp :=
| VK_ATTACHMENT_LOAD_OP_LOAD
| VK_ATTACHMENT_LOAD_OP_CLEAR
| VK_ATTACHMENT_LOAD_OP_DONT_CARE.

Inductive VkAttachmentStoreOp :=
| VK_ATTACHMENT_STORE_OP_STORE
| VK_ATTACHMENT_STORE_OP_DONT_CARE.

Inductive VkImageViewType :=
| VK_IMAGE_VIEW_TYPE_1D
| VK_IMAGE_VIEW_TYPE_2D
| VK_IMAGE_VIEW_TYPE_3D
| VK_IMAGE_VIEW_TYPE_CUBE
| VK_IMAGE_VIEW_TYPE_1D_ARRAY
| VK_IMAGE_VIEW_TYPE_2D_ARRAY
| VK_IMAGE_VIEW_TYPE_CUBE_ARRAY.

Inductive VkImageType := VK_IMAGE_TYPE_1D | VK_IMAGE_TYPE_2D | VK_IMAGE_TYPE_3D.
Inductive VkImageTiling := VK_IMAGE_TILING_OPTIMAL | VK_IMAGE_TILING_LINEAR.
Inductive VkComponentSwizzle := VK_COMPONENT_SWIZZLE_IDENTITY.
Inductive VkPipelineBindPoint := VK_PIPELINE_BIND_POINT_GRAPHICS | VK_PIPELINE_BIND_POINT_COMPUTE.
Inductive VmaMemoryUsage := VMA_MEMORY_USAGE_UNKNOWN | VMA_MEMORY_USAGE_GPU_ONLY.

Inductive VkObjectType :=
| VK_OBJECT_TYPE_IMAGE
| VK_OBJECT_TYPE_IMAGE_VIEW
| VK_OBJECT_TYPE_FRAMEBUFFER.

(** ** RenderPassType

    [enum class RenderPassType] is an [int]-backed tag; its values are
    combined bitwise, so the tag is modelled by its integer value. *)

Definition RenderPassType := Z.

Definition DEFAULT : RenderPassType := 0.
Definition HAS_DEPTH : RenderPassType := 1.
Definition COLOR_INPUT : RenderPassType := 2.
Definition MULTIVIEW : RenderPassType := 4.
Definition BACKBUFFER : RenderPassType := 8.
Definition TYPE_COUNT : RenderPassType := BACKBUFFER + 1.

(** Modelled from the spec: the macro [ENUM_CLASS_BITOPS] (Common/Common.h)
    is not part of the sources at hand. It gives the enum an [operator|]
    on the integer values and an [operator&] that tests whether the two
    tags share a bit ("the facet bit is set"). *)
Definition rp_or (lhs rhs : RenderPassType) : RenderPassType := Z.lor lhs rhs.
Definition rp_and (lhs rhs : RenderPassType) : bool := negb (Z.land lhs rhs =? 0).

(** [bool != 0] after the integral promotion of the [bool]. *)
Definition bool_ne_0 (b : bool) : bool := negb (Z.b2z b =? 0).

Definition RenderPassTypeHasDepth (type : RenderPassType) : bool :=
  rp_and type HAS_DEPTH || (type =? BACKBUFFER).

Definition RenderPassTypeHasInput (type : RenderPassType) : bool :=
  bool_ne_0 (rp_and type COLOR_INPUT).

Definition RenderPassTypeHasMultiView (type : RenderPassType) : bool :=
  bool_ne_0 (rp_and type MULTIVIEW).

(** The tags that index the fixed-size caches: [0 .. TYPE_COUNT - 1]. *)
Definition rp_valid (type : RenderPassType) : Prop := 0 <= type < TYPE_COUNT.

(** ** Render-pass keys *)

Inductive VKRRenderPassLoadAction := LA_KEEP | LA_CLEAR | LA_DONT_CARE.
Inductive VKRRenderPassStoreAction := SA_STORE | SA_DONT_CARE.

Record RPKey := {
  colorLoadAction : VKRRenderPassLoadAction;
  depthLoadAction : VKRRenderPassLoadAction;
  stencilLoadAction : VKRRenderPassLoadAction;
  colorStoreAction : VKRRenderPassStoreAction;
  depthStoreAction : VKRRenderPassStoreAction;
  stencilStoreAction : VKRRenderPassStoreAction
}.

Definition ConvertLoadAction (action : VKRRenderPassLoadAction) : VkAttachmentLoadOp :=
  match action with
  | LA_CLEAR => VK_ATTACHMENT_LOAD_OP_CLEAR
  | LA_KEEP => VK_ATTACHMENT_LOAD_OP_LOAD
  | LA_DONT_CARE => VK_ATTACHMENT_LOAD_OP_DONT_CARE
  end.

Definition ConvertStoreAction (action : VKRRenderPassStoreAction) : VkAttachmentStoreOp :=
  match action with
  | SA_STORE => VK_ATTACHMENT_STORE_OP_STORE
  | SA_DONT_CARE => VK_ATTACHMENT_STORE_OP_DONT_CARE
  end.

(** ** Structures handed to the driver

    Only the fields the code assigns are kept; the others stay at the
    zero the C++ value-initialisation gives them. A pointer to a single
    object is an [option] ([None] is [nullptr]); a pointer to a local
    array is the array. *)

Record VkExtent3D := { ext_width : Z; ext_height : Z; ext_depth : Z }.

Record VkImageCreateInfo := {
  ici_imageType : VkImageType;
  ici_format : VkFormat;
  ici_extent : VkExtent3D;
  ici_mipLevels : Z;
  ici_arrayLayers : Z;
  ici_samples : Z;
  ici_tiling : VkImageTiling;
  ici_usage : Z;
  ici_initialLayout : VkImageLayout
}.

Record VmaAllocationCreateInfo := { aci_usage : VmaMemoryUsage }.

Record VkImageSubresourceRange := {
  aspectMask : Z;
  baseMipLevel : Z;
  levelCount : Z;
  baseArrayLayer : Z;
  layerCount : Z
}.

Record VkImageViewCreateInfo := {
  ivci_image : Handle;
  ivci_viewType : VkImageViewType;
  ivci_format : VkFormat;
  ivci_components : list VkComponentSwizzle;
  ivci_subresourceRange : VkImageSubresourceRange
}.

Record VkAttachmentDescription := {
  att_flags : Z;
  att_format : VkFormat;
  att_samples : Z;
  att_loadOp : VkAttachmentLoadOp;
  att_storeOp : VkAttachmentStoreOp;
  att_stencilLoadOp : VkAttachmentLoadOp;
  att_stencilStoreOp : VkAttachmentStoreOp;
  att_initialLayout : VkImageLayout;
  att_finalLayout : VkImageLayout
}.

Record VkAttachmentReference := {
  ref_attachment : Z;
  ref_layout : VkImageLayout
}.

Record VkSubpassDescription := {
  sp_flags : Z;
  sp_pipelineBindPoint : VkPipelineBindPoint;
  sp_inputAttachmentCount : Z;
  sp_pInputAttachments : option VkAttachmentReference;
  sp_colorAttachmentCount : Z;
  sp_pColorAttachments : option VkAttachmentReference;
  sp_pResolveAttachments : option VkAttachmentReference;
  sp_pDepthStencilAttachment : option VkAttachmentReference;
  sp_preserveAttachmentCount : Z;
  sp_pPreserveAttachments : option Z
}.

Record VkSubpassDependency := {
  srcSubpass : Z;
  dstSubpass : Z;
  srcStageMask : Z;
  dstStageMask : Z;
  srcAccessMask : Z;
  dstAccessMask : Z;
  dependencyFlags : Z
}.

Record VkRenderPassMultiviewCreateInfoKHR := {
  mv_subpassCount : Z;
  mv_pViewMasks : option Z;
  mv_dependencyCount : Z;
  mv_pViewOffsets : option Z;
  mv_correlationMaskCount : Z;
  mv_pCorrelationMasks : option Z
}.

Record VkRenderPassCreateInfo := {
  rp_pNext : option VkRenderPassMultiviewCreateInfoKHR;
  rp_attachmentCount : Z;
  rp_pAttachments : list VkAttachmentDescription;
  rp_subpassCount : Z;
  rp_pSubpasses : option VkSubpassDescription;
  rp_dependencyCount : Z;
  rp_pDependencies : option (list VkSubpassDependency)
}.

Record VkFramebufferCreateInfo := {
  fbci_renderPass : Handle;
  fbci_attachmentCount : Z;
  fbci_pAttachments : list Handle;
  fbci_width : Z;
  fbci_height : Z;
  fbci_layers : Z
}.

(** ** The world outside: driver, logger, debug names, deletion queue *)

(** What the driver (or the allocator) answers to a creation call: the
    result code and what it stores through the out-pointers. *)
Record NativeReply := {
  reply_res : VkResult;
  reply_handle : Handle;
  reply_alloc : Handle
}.

(** The part of [VulkanContext] this code consults. [vk_driver n] is the
    answer to the [n]-th creation call made through the context. *)
Record VulkanContext := {
  vk_device : Handle;
  vk_allocator : Handle;
  vk_swapchainFormat : VkFormat;
  vk_preferredDepthStencilFormat : VkFormat;
  vk_EXT_debug_utils : bool;
  vk_DebugLayerEnabled : bool;
  vk_driver : nat -> NativeReply
}.

Inductive LogArg := LogPtr (p : Handle) | LogInt (i : Z) | LogStr (s : string).

Inductive Event :=
| E_WARN_LOG (fmt : string) (args : list LogArg)
| E_SetDebugName (h : Handle) (ty : VkObjectType) (name : option string)
| E_vmaCreateImage (allocator : Handle) (ici : VkImageCreateInfo)
    (aci : VmaAllocationCreateInfo) (r : NativeReply)
| E_vkCreateImageView (device : Handle) (ivci : VkImageViewCreateInfo) (r : NativeReply)
| E_TransitionImageLayout2 (cmd image : Handle) (baseMip numMipLevels numLayers : Z)
    (aspects : Z) (oldLayout newLayout : VkImageLayout)
    (srcStage dstStage srcAccess dstAccess : Z)
| E_vkCreateRenderPass (device : Handle) (rp : VkRenderPassCreateInfo) (r : NativeReply)
| E_vkCreateFramebuffer (device : Handle) (fbci : VkFramebufferCreateInfo) (r : NativeReply)
| E_QueueDeleteImageView (h : Handle)
| E_QueueDeleteImageAllocation (image allocation : Handle)
| E_QueueDeleteFramebuffer (h : Handle)
| E_QueueDeleteRenderPass (h : Handle).

Record World := {
  native_calls : nat;
  trace : list Event
}.

(** A call returns, aborts the process, or has no defined behaviour
    (an access outside an array, a [std::string] built from [nullptr]). *)
Inductive Outcome (A : Type) :=
| Done (a : A) (w : World)
| Aborted (w : World)
| Undefined.
Arguments Done {A} a w.
Arguments Aborted {A} w.
Arguments Undefined {A}.

Definition M (A : Type) : Type := World -> Outcome A.

Definition ret {A} (a : A) : M A := fun w => Done a w.

Definition bind {A B} (m : M A) (k : A -> M B) : M B :=
  fun w =>
    match m w with
    | Done a w' => k a w'
    | Aborted w' => Aborted w'
    | Undefined => Undefined
    end.

Declare Scope vk_scope.
Delimit Scope vk_scope with vk.
Notation "x <- m ;; k" := (bind m (fun x => k))
  (at level 100, m at next level, right associativity) : vk_scope.
Notation "m ;; k" := (bind m (fun _ => k))
  (at level 100, right associativity) : vk_scope.
Open Scope vk_scope.

Definition emit (e : Event) : M unit :=
  fun w => Done tt {| native_calls := native_calls w; trace := trace w ++ [e] |}.

Definition native (vulkan : VulkanContext) (ev : NativeReply -> Event) : M NativeReply :=
  fun w =>
    let r := vk_driver vulkan (native_calls w) in
    Done r {| native_calls := S (native_calls w); trace := trace w ++ [ev r] |}.

Definition undefined_behaviour {A} : M A := fun _ => Undefined.

(** Modelled from the spec: [Crash] and the assertion macros [_assert_]
    and [_dbg_assert_] are not part of the sources at hand. The
    specification has a failed check and an unsupported request abort
    the process, so [Crash] and a failed [_assert_] abort.
    [_dbg_assert_], a debug-build assertion by its name, is [_assert_]
    when [debug_build] holds and does nothing otherwise; the properties
    below are proved for both values of [debug_build]. *)
Definition Crash {A} : M A := fun w => Aborted w.

Definition _assert_ (cond : bool) : M unit :=
  if cond then ret tt else Crash.

Definition _dbg_assert_ (debug_build : bool) (cond : bool) : M unit :=
  if debug_build then _assert_ cond else ret tt.

Definition when (cond : bool) (m : M unit) : M unit :=
  if cond then m else ret tt.

Definition is_null (h : Handle) : bool := h =? VK_NULL_HANDLE.

(** The calls into the collaborators. *)
Definition WARN_LOG (fmt : string) (args : list LogArg) : M unit :=
  emit (E_WARN_LOG fmt args).
Definition SetDebugName (h : Handle) (ty : VkObjectType) (name : option string) : M unit :=
  emit (E_SetDebugName h ty name).
Definition vmaCreateImage (vulkan : VulkanContext) (ici : VkImageCreateInfo)
    (aci : VmaAllocationCreateInfo) : M NativeReply :=
  native vulkan (E_vmaCreateImage (vk_allocator vulkan) ici aci).
Definition vkCreateImageView (vulkan : VulkanContext) (ivci : VkImageViewCreateInfo)
    : M NativeReply :=
  native vulkan (E_vkCreateImageView (vk_device vulkan) ivci).
Definition vkCreateRenderPass (vulkan : VulkanContext) (rp : VkRenderPassCreateInfo)
    : M NativeReply :=
  native vulkan (E_vkCreateRenderPass (vk_device vulkan) rp).
Definition vkCreateFramebuffer (vulkan : VulkanContext) (fbci : VkFramebufferCreateInfo)
    : M NativeReply :=
  native vulkan (E_vkCreateFramebuffer (vk_device vulkan) fbci).
Definition QueueDeleteImageView (h : Handle) : M unit := emit (E_QueueDeleteImageView h).
Definition QueueDeleteImageAllocation (image allocation : Handle) : M unit :=
  emit (E_QueueDeleteImageAllocation image allocation).
Definition QueueDeleteFramebuffer (h : Handle) : M unit := emit (E_QueueDeleteFramebuffer h).

(** [snprintf] into [char name[128]]: at most 127 characters are kept. *)
Definition snprintf128 (s : string) : string := String.substring 0 127 s.

Definition TransitionImageLayout2 (cmd image : Handle) (baseMip numMipLevels numLayers : Z)
    (aspects : Z) (oldLayout newLayout : VkImageLayout)
    (srcStage dstStage srcAccess dstAccess : Z) : M unit :=
  emit (E_TransitionImageLayout2 cmd image baseMip numMipLevels numLayers aspects
          oldLayout newLayout srcStage dstStage srcAccess dstAccess).

(** ** VKRImage: one render-target image and its views *)

Record VKRImage := {
  img_image : Handle;
  img_rtView : Handle;
  img_texAllLayersView : Handle;
  img_texLayerViews : list Handle;  (* VkImageView texLayerViews[2] *)
  img_alloc : Handle;
  img_format : VkFormat;
  img_layout : VkImageLayout;
  img_numLayers : Z;
  img_tag : string
}.

(** [VKRImage img{}] *)
Definition VKRImage_zero : VKRImage := {|
  img_image := VK_NULL_HANDLE;
  img_rtView := VK_NULL_HANDLE;
  img_texAllLayersView := VK_NULL_HANDLE;
  img_texLayerViews := [VK_NULL_HANDLE; VK_NULL_HANDLE];
  img_alloc := VK_NULL_HANDLE;
  img_format := VK_FORMAT_UNDEFINED;
  img_layout := VK_IMAGE_LAYOUT_UNDEFINED;
  img_numLayers := 0;
  img_tag := ""
|}.

Definition set_image_alloc (img : VKRImage) (image allocation : Handle) : VKRImage := {|
  img_image := image;
  img_rtView := img_rtView img;
  img_texAllLayersView := img_texAllLayersView img;
  img_texLayerViews := img_texLayerViews img;
  img_alloc := allocation;
  img_format := img_format img;
  img_layout := img_layout img;
  img_numLayers := img_numLayers img;
  img_tag := img_tag img
|}.

Definition set_rtView (img : VKRImage) (view : Handle) : VKRImage := {|
  img_image := img_image img;
  img_rtView := view;
  img_texAllLayersView := img_texAllLayersView img;
  img_texLayerViews := img_texLayerViews img;
  img_alloc := img_alloc img;
  img_format := img_format img;
  img_layout := img_layout img;
  img_numLayers := img_numLayers img;
  img_tag := img_tag img
|}.

Definition set_texAllLayersView (img : VKRImage) (view : Handle) : VKRImage := {|
  img_image := img_image img;
  img_rtView := img_rtView img;
  img_texAllLayersView := view;
  img_texLayerViews := img_texLayerViews img;
  img_alloc := img_alloc img;
  img_format := img_format img;
  img_layout := img_layout img;
  img_numLayers := img_numLayers img;
  img_tag := img_tag img
|}.

Definition set_texLayerView (img : VKRImage) (i : nat) (view : Handle) : VKRImage := {|
  img_image := img_image img;
  img_rtView := img_rtView img;
  img_texAllLayersView := img_texAllLayersView img;
  img_texLayerViews := <[i := view]> (img_texLayerViews img);
  img_alloc := img_alloc img;
  img_format := img_format img;
  img_layout := img_layout img;
  img_numLayers := img_numLayers img;
  img_tag := img_tag img
|}.

Definition set_bookkeeping (img : VKRImage) (layout : VkImageLayout) (format : VkFormat)
    (tag : string) (numLayers : Z) : VKRImage := {|
  img_image := img_image img;
  img_rtView := img_rtView img;
  img_texAllLayersView := img_texAllLayersView img;
  img_texLayerViews := img_texLayerViews img;
  img_alloc := img_alloc img;
  img_format := format;
  img_layout := layout;
  img_numLayers := numLayers;
  img_tag := tag
|}.

Definition set_viewType (ivci : VkImageViewCreateInfo) (ty : VkImageViewType)
    : VkImageViewCreateInfo := {|
  ivci_image := ivci_image ivci;
  ivci_viewType := ty;
  ivci_format := ivci_format ivci;
  ivci_components := ivci_components ivci;
  ivci_subresourceRange := ivci_subresourceRange ivci
|}.

Definition set_subresourceRange (ivci : VkImageViewCreateInfo) (r : VkImageSubresourceRange)
    : VkImageViewCreateInfo := {|
  ivci_image := ivci_image ivci;
  ivci_viewType := ivci_viewType ivci;
  ivci_format := ivci_format ivci;
  ivci_components := ivci_components ivci;
  ivci_subresourceRange := r
|}.

Definition set_aspectMask (ivci : VkImageViewCreateInfo) (aspects : Z) : VkImageViewCreateInfo :=
  let r := ivci_subresourceRange ivci in
  set_subresourceRange ivci {|
    aspectMask := aspects;
    baseMipLevel := baseMipLevel r;
    levelCount := levelCount r;
    baseArrayLayer := baseArrayLayer r;
    layerCount := layerCount r
  |}.

Definition set_layer (ivci : VkImageViewCreateInfo) (base count : Z) : VkImageViewCreateInfo :=
  let r := ivci_subresourceRange ivci in
  set_subresourceRange ivci {|
    aspectMask := aspectMask r;
    baseMipLevel := baseMipLevel r;
    levelCount := levelCount r;
    baseArrayLayer := base;
    layerCount := count
  |}.

Section ImageFactory.

(** Whether the program is a debug build, where [_dbg_assert_] is live. *)
Variable debug_build : bool.

(** The body of [for (int i = 0; i < numLayers; i++)] in [CreateImage],
    run [n] more times from index [i]. The view handle is stored through
    [&img.texLayerViews[i]], an array of two. *)
Fixpoint CreateImage_layers (vulkan : VulkanContext) (tag : option string)
    (n : nat) (i : Z) (ivci : VkImageViewCreateInfo) (img : VKRImage) : M VKRImage :=
  match n with
  | O => ret img
  | S n' =>
    let ivci := set_viewType ivci VK_IMAGE_VIEW_TYPE_2D in
    let ivci := set_layer ivci (to_u32 i) 1 in
    if (0 <=? i) && (i <? 2) then
      res <- vkCreateImageView vulkan ivci ;;
      let img := set_texLayerView img (Z.to_nat i) (reply_handle res) in
      when (vk_DebugLayerEnabled vulkan)
        (match tag with
         | Some t =>
           let temp := snprintf128 (t +:+ "_layer" +:+ pretty i) in
           SetDebugName (reply_handle res) VK_OBJECT_TYPE_IMAGE_VIEW (Some temp)
         | None => undefined_behaviour  (* "%s" of a null pointer *)
         end) ;;
      _dbg_assert_ debug_build (reply_res res =? VK_SUCCESS) ;;
      CreateImage_layers vulkan tag n' (i + 1) ivci img
    else undefined_behaviour
  end.

(** The [switch (initialLayout)]: the access mask and the pipeline stage
    of the first transition, [None] standing for the [default:] case. *)
Definition initial_transition_masks (initialLayout : VkImageLayout) : option (Z * Z) :=
  match initialLayout with
  | VK_IMAGE_LAYOUT_COLOR_ATTACHMENT_OPTIMAL =>
    Some (VK_ACCESS_COLOR_ATTACHMENT_WRITE_BIT, VK_PIPELINE_STAGE_COLOR_ATTACHMENT_OUTPUT_BIT)
  | VK_IMAGE_LAYOUT_TRANSFER_DST_OPTIMAL =>
    Some (VK_ACCESS_TRANSFER_WRITE_BIT, VK_PIPELINE_STAGE_TRANSFER_BIT)
  | VK_IMAGE_LAYOUT_DEPTH_STENCIL_ATTACHMENT_OPTIMAL =>
    Some (VK_ACCESS_DEPTH_STENCIL_ATTACHMENT_WRITE_BIT,
          Z.lor VK_PIPELINE_STAGE_EARLY_FRAGMENT_TESTS_BIT
                VK_PIPELINE_STAGE_LATE_FRAGMENT_TESTS_BIT)
  | _ => None
  end.

(** The end of [CreateImage]: the [switch], the recorded transition and
    the bookkeeping fields. *)
Definition CreateImage_transition (cmd : Handle) (img : VKRImage) (numLayers aspects : Z)
    (format : VkFormat) (initialLayout : VkImageLayout) (tag : option string) : M VKRImage :=
  match initial_transition_masks initialLayout with
  | None => Crash  (* default: Crash(); return; *)
  | Some (dstAccessMask, dstStage) =>
    TransitionImageLayout2 cmd (img_image img) 0 1 numLayers aspects
      VK_IMAGE_LAYOUT_UNDEFINED initialLayout
      VK_PIPELINE_STAGE_TOP_OF_PIPE_BIT dstStage
      0 dstAccessMask ;;
    ret (set_bookkeeping img initialLayout format
           (match tag with Some t => t | None => "N/A" end) numLayers)
  end.

Definition CreateImage (vulkan : VulkanContext) (cmd : Handle) (img : VKRImage)
    (width height numLayers : Z) (format : VkFormat) (initialLayout : VkImageLayout)
    (color : bool) (tag : option string) : M VKRImage :=
  _dbg_assert_ debug_build ((numLayers =? 1) || (numLayers =? 2)) ;;
  let ici := {|
    ici_arrayLayers := to_u32 numLayers;
    ici_mipLevels := 1;
    ici_extent := {| ext_width := to_u32 width; ext_height := to_u32 height; ext_depth := 1 |};
    ici_initialLayout := VK_IMAGE_LAYOUT_UNDEFINED;
    ici_imageType := VK_IMAGE_TYPE_2D;
    ici_samples := VK_SAMPLE_COUNT_1_BIT;
    ici_tiling := VK_IMAGE_TILING_OPTIMAL;
    ici_format := format;
    ici_usage :=
      Z.lor (Z.lor (Z.lor VK_IMAGE_USAGE_SAMPLED_BIT VK_IMAGE_USAGE_TRANSFER_DST_BIT)
                   VK_IMAGE_USAGE_TRANSFER_SRC_BIT)
            (if color
             then Z.lor VK_IMAGE_USAGE_COLOR_ATTACHMENT_BIT VK_IMAGE_USAGE_INPUT_ATTACHMENT_BIT
             else VK_IMAGE_USAGE_DEPTH_STENCIL_ATTACHMENT_BIT)
  |} in
  let allocCreateInfo := {| aci_usage := VMA_MEMORY_USAGE_GPU_ONLY |} in
  res <- vmaCreateImage vulkan ici allocCreateInfo ;;
  let img := set_image_alloc img (reply_handle res) (reply_alloc res) in
  _dbg_assert_ debug_build (reply_res res =? VK_SUCCESS) ;;
  let aspects :=
    if color then VK_IMAGE_ASPECT_COLOR_BIT
    else Z.lor VK_IMAGE_ASPECT_DEPTH_BIT VK_IMAGE_ASPECT_STENCIL_BIT in
  let ivci := {|
    ivci_components := [VK_COMPONENT_SWIZZLE_IDENTITY; VK_COMPONENT_SWIZZLE_IDENTITY;
                        VK_COMPONENT_SWIZZLE_IDENTITY; VK_COMPONENT_SWIZZLE_IDENTITY];
    ivci_format := ici_format ici;
    ivci_image := img_image img;
    ivci_viewType :=
      if numLayers =? 1 then VK_IMAGE_VIEW_TYPE_2D else VK_IMAGE_VIEW_TYPE_2D_ARRAY;
    ivci_subresourceRange := {|
      aspectMask := aspects;
      baseMipLevel := 0;
      levelCount := 1;
      baseArrayLayer := 0;
      layerCount := to_u32 numLayers
    |}
  |} in
  res <- vkCreateImageView vulkan ivci ;;
  let img := set_rtView img (reply_handle res) in
  SetDebugName (img_rtView img) VK_OBJECT_TYPE_IMAGE_VIEW tag ;;
  _dbg_assert_ debug_build (reply_res res =? VK_SUCCESS) ;;
  (* Separate view for texture sampling all layers together. *)
  let ivci := if negb color then set_aspectMask ivci VK_IMAGE_ASPECT_DEPTH_BIT else ivci in
  let ivci := set_viewType ivci VK_IMAGE_VIEW_TYPE_2D_ARRAY in
  res <- vkCreateImageView vulkan ivci ;;
  let img := set_texAllLayersView img (reply_handle res) in
  SetDebugName (img_texAllLayersView img) VK_OBJECT_TYPE_IMAGE_VIEW tag ;;
  (* Create 2D views for both layers. *)
  img <- CreateImage_layers vulkan tag (Z.to_nat numLayers) 0 ivci img ;;
  CreateImage_transition cmd img numLayers aspects format initialLayout tag.

End ImageFactory.

(** ** Render-pass construction *)

(** [VkAttachmentDescription attachments[2] = {}], [VkSubpassDependency deps[2]{}] *)
Definition VkAttachmentDescription_zero : VkAttachmentDescription := {|
  att_flags := 0;
  att_format := VK_FORMAT_UNDEFINED;
  att_samples := 0;
  att_loadOp := VK_ATTACHMENT_LOAD_OP_LOAD;
  att_storeOp := VK_ATTACHMENT_STORE_OP_STORE;
  att_stencilLoadOp := VK_ATTACHMENT_LOAD_OP_LOAD;
  att_stencilStoreOp := VK_ATTACHMENT_STORE_OP_STORE;
  att_initialLayout := VK_IMAGE_LAYOUT_UNDEFINED;
  att_finalLayout := VK_IMAGE_LAYOUT_UNDEFINED
|}.

Definition VkSubpassDependency_zero : VkSubpassDependency := {|
  srcSubpass := 0;
  dstSubpass := 0;
  srcStageMask := 0;
  dstStageMask := 0;
  srcAccessMask := 0;
  dstAccessMask := 0;
  dependencyFlags := 0
|}.

(** The [VkRenderPassCreateInfo] that [CreateRenderPass] hands to
    [vkCreateRenderPass], with everything it points to. *)
Definition RenderPassCreateInfo (vulkan : VulkanContext) (key : RPKey)
    (rpType : RenderPassType) : VkRenderPassCreateInfo :=
  let selfDependency := RenderPassTypeHasInput rpType in
  let isBackbuffer := rpType =? BACKBUFFER in
  let hasDepth := RenderPassTypeHasDepth rpType in
  let multiview := RenderPassTypeHasMultiView rpType in
  let attachments0 := {|
    att_format := if isBackbuffer then vk_swapchainFormat vulkan else VK_FORMAT_R8G8B8A8_UNORM;
    att_samples := VK_SAMPLE_COUNT_1_BIT;
    att_loadOp := ConvertLoadAction (colorLoadAction key);
    att_storeOp := ConvertStoreAction (colorStoreAction key);
    att_stencilLoadOp := VK_ATTACHMENT_LOAD_OP_DONT_CARE;
    att_stencilStoreOp := VK_ATTACHMENT_STORE_OP_DONT_CARE;
    att_initialLayout :=
      if isBackbuffer then VK_IMAGE_LAYOUT_UNDEFINED
      else VK_IMAGE_LAYOUT_COLOR_ATTACHMENT_OPTIMAL;
    att_finalLayout :=
      if isBackbuffer then VK_IMAGE_LAYOUT_PRESENT_SRC_KHR
      else VK_IMAGE_LAYOUT_COLOR_ATTACHMENT_OPTIMAL;
    att_flags := 0
  |} in
  let attachments1 :=
    if hasDepth then {|
      att_format := vk_preferredDepthStencilFormat vulkan;
      att_samples := VK_SAMPLE_COUNT_1_BIT;
      att_loadOp := ConvertLoadAction (depthLoadAction key);
      att_storeOp := ConvertStoreAction (depthStoreAction key);
      att_stencilLoadOp := ConvertLoadAction (stencilLoadAction key);
      att_stencilStoreOp := ConvertStoreAction (stencilStoreAction key);
      att_initialLayout := VK_IMAGE_LAYOUT_DEPTH_STENCIL_ATTACHMENT_OPTIMAL;
      att_finalLayout := VK_IMAGE_LAYOUT_DEPTH_STENCIL_ATTACHMENT_OPTIMAL;
      att_flags := 0
    |} else VkAttachmentDescription_zero in
  let color_reference := {|
    ref_attachment := 0;
    ref_layout :=
      if selfDependency then VK_IMAGE_LAYOUT_GENERAL
      else VK_IMAGE_LAYOUT_COLOR_ATTACHMENT_OPTIMAL
  |} in
  let depth_reference := {|
    ref_attachment := 1;
    ref_layout := VK_IMAGE_LAYOUT_DEPTH_STENCIL_ATTACHMENT_OPTIMAL
  |} in
  let subpass := {|
    sp_pipelineBindPoint := VK_PIPELINE_BIND_POINT_GRAPHICS;
    sp_flags := 0;
    sp_inputAttachmentCount := if selfDependency then 1 else 0;
    sp_pInputAttachments := if selfDependency then Some color_reference else None;
    sp_colorAttachmentCount := 1;
    sp_pColorAttachments := Some color_reference;
    sp_pResolveAttachments := None;
    sp_pDepthStencilAttachment := if hasDepth then Some depth_reference else None;
    sp_preserveAttachmentCount := 0;
    sp_pPreserveAttachments := None
  |} in
  let viewMask := 3 in
  let viewOffset := 0 in
  let mv := {|
    mv_subpassCount := 1;
    mv_pViewMasks := Some viewMask;
    mv_dependencyCount := 0;
    mv_pCorrelationMasks := Some viewMask;
    mv_correlationMaskCount := 1;
    mv_pViewOffsets := Some viewOffset
  |} in
  (* [deps[numDeps]] is filled in and [numDeps] incremented, twice. *)
  let deps := [VkSubpassDependency_zero; VkSubpassDependency_zero] in
  let numDeps := 0%nat in
  let deps :=
    if isBackbuffer then
      <[numDeps := {|
          srcSubpass := VK_SUBPASS_EXTERNAL;
          dstSubpass := 0;
          srcStageMask := VK_PIPELINE_STAGE_COLOR_ATTACHMENT_OUTPUT_BIT;
          dstStageMask := VK_PIPELINE_STAGE_COLOR_ATTACHMENT_OUTPUT_BIT;
          srcAccessMask := 0;
          dstAccessMask :=
            Z.lor VK_ACCESS_COLOR_ATTACHMENT_READ_BIT VK_ACCESS_COLOR_ATTACHMENT_WRITE_BIT;
          dependencyFlags := 0
        |}]> deps
    else deps in
  let numDeps := if isBackbuffer then S numDeps else numDeps in
  let deps :=
    if selfDependency then
      <[numDeps := {|
          dependencyFlags := VK_DEPENDENCY_BY_REGION_BIT;
          srcAccessMask := VK_ACCESS_COLOR_ATTACHMENT_WRITE_BIT;
          dstAccessMask := VK_ACCESS_INPUT_ATTACHMENT_READ_BIT;
          srcStageMask := VK_PIPELINE_STAGE_COLOR_ATTACHMENT_OUTPUT_BIT;
          dstStageMask := VK_PIPELINE_STAGE_FRAGMENT_SHADER_BIT;
          srcSubpass := 0;
          dstSubpass := 0
        |}]> deps
    else deps in
  let numDeps := if selfDependency then S numDeps else numDeps in
  {|
    rp_attachmentCount := if hasDepth then 2 else 1;
    rp_pAttachments := [attachments0; attachments1];
    rp_subpassCount := 1;
    rp_pSubpasses := Some subpass;
    rp_pNext := if multiview then Some mv else None;
    rp_dependencyCount := if (0 <? numDeps)%nat then Z.of_nat numDeps else 0;
    rp_pDependencies := if (0 <? numDeps)%nat then Some deps else None
  |}.

Definition CreateRenderPass (vulkan : VulkanContext) (key : RPKey)
    (rpType : RenderPassType) : M Handle :=
  let rp := RenderPassCreateInfo vulkan key rpType in
  res <- vkCreateRenderPass vulkan rp ;;
  let pass := reply_handle res in
  _assert_ (reply_res res =? VK_SUCCESS) ;;
  _assert_ (negb (pass =? VK_NULL_HANDLE)) ;;
  ret pass.

(** ** VKRRenderPass: the per-key cache of render passes *)

Record VKRRenderPass := {
  pass : list Handle;  (* VkRenderPass pass[TYPE_COUNT]{} *)
  key_ : RPKey
}.

Definition VKRRenderPass_new (key : RPKey) : VKRRenderPass :=
  {| pass := replicate (Z.to_nat TYPE_COUNT) VK_NULL_HANDLE; key_ := key |}.

(** Reading [arr[(int)rpType]]: outside the array there is no defined value. *)
Definition slot (arr : list Handle) (rpType : RenderPassType) : option Handle :=
  if (0 <=? rpType) && (rpType <? Z.of_nat (length arr))
  then arr !! Z.to_nat rpType else None.

Definition VKRRenderPass_Get (self : VKRRenderPass) (vulkan : VulkanContext)
    (rpType : RenderPassType) : M (Handle * VKRRenderPass) :=
  match slot (pass self) rpType with
  | None => undefined_behaviour
  | Some cached =>
    if is_null cached then
      created <- CreateRenderPass vulkan (key_ self) rpType ;;
      ret (created,
           {| pass := <[Z.to_nat rpType := created]> (pass self); key_ := key_ self |})
    else ret (cached, self)
  end.

Definition QueueDeleteRenderPass (h : Handle) : M unit := emit (E_QueueDeleteRenderPass h).

Fixpoint Destroy_passes (slots : list Handle) : M unit :=
  match slots with
  | [] => ret tt
  | p :: rest =>
    when (negb (is_null p)) (QueueDeleteRenderPass p) ;;
    Destroy_passes rest
  end.

Definition VKRRenderPass_Destroy (self : VKRRenderPass) (vulkan : VulkanContext) : M unit :=
  Destroy_passes (pass self).

(** ** VKRFramebuffer *)

Record VKRFramebuffer := {
  vulkan_ : VulkanContext;
  width : Z;
  height : Z;
  numLayers : Z;
  color : VKRImage;
  depth : VKRImage;
  framebuf : list Handle;  (* VkFramebuffer framebuf[TYPE_COUNT]{} *)
  tag_ : string
}.

Definition set_framebuf (fb : VKRFramebuffer) (arr : list Handle) : VKRFramebuffer := {|
  vulkan_ := vulkan_ fb;
  width := width fb;
  height := height fb;
  numLayers := numLayers fb;
  color := color fb;
  depth := depth fb;
  framebuf := arr;
  tag_ := tag_ fb
|}.

Definition set_color (fb : VKRFramebuffer) (img : VKRImage) : VKRFramebuffer := {|
  vulkan_ := vulkan_ fb;
  width := width fb;
  height := height fb;
  numLayers := numLayers fb;
  color := img;
  depth := depth fb;
  framebuf := framebuf fb;
  tag_ := tag_ fb
|}.

Definition set_depth (fb : VKRFramebuffer) (img : VKRImage) : VKRFramebuffer := {|
  vulkan_ := vulkan_ fb;
  width := width fb;
  height := height fb;
  numLayers := numLayers fb;
  color := color fb;
  depth := img;
  framebuf := framebuf fb;
  tag_ := tag_ fb
|}.

Definition HasDepth (fb : VKRFramebuffer) : bool :=
  negb (img_image (depth fb) =? VK_NULL_HANDLE).

(** The loop of [UpdateTag] over the cache slots. *)
Fixpoint UpdateTag_framebufs (tag : string) (slots : list Handle) : M unit :=
  match slots with
  | [] => ret tt
  | h :: rest =>
    when (negb (is_null h))
      (let name := snprintf128 ("fb_" +:+ tag) in
       SetDebugName h VK_OBJECT_TYPE_FRAMEBUFFER (Some name)) ;;
    UpdateTag_framebufs tag rest
  end.

(** [newTag] is not read: every label is formatted from [tag_], and
    [tag_] is not assigned. The object is left as it was. *)
Definition UpdateTag (self : VKRFramebuffer) (newTag : option string) : M unit :=
  let name := snprintf128 ("fb_color_" +:+ tag_ self) in
  SetDebugName (img_image (color self)) VK_OBJECT_TYPE_IMAGE (Some name) ;;
  SetDebugName (img_rtView (color self)) VK_OBJECT_TYPE_IMAGE_VIEW (Some name) ;;
  when (negb (is_null (img_image (depth self))))
    (let name := snprintf128 ("fb_depth_" +:+ tag_ self) in
     SetDebugName (img_image (depth self)) VK_OBJECT_TYPE_IMAGE (Some name) ;;
     SetDebugName (img_rtView (depth self)) VK_OBJECT_TYPE_IMAGE_VIEW (Some name)) ;;
  UpdateTag_framebufs (tag_ self) (framebuf self).

Definition Get (self : VKRFramebuffer) (compatibleRenderPass : VKRRenderPass)
    (rpType : RenderPassType) : M (Handle * VKRFramebuffer * VKRRenderPass) :=
  let multiview := RenderPassTypeHasMultiView rpType in  (* not used *)
  match slot (framebuf self) rpType with
  | None => undefined_behaviour
  | Some cached =>
    if negb (is_null cached) then ret (cached, self, compatibleRenderPass)
    else
      let hasDepth := RenderPassTypeHasDepth rpType in
      let views0 := img_rtView (color self) in
      when (hasDepth && is_null (img_rtView (depth self)))
        (WARN_LOG "depth render type to non-depth fb: %p %p fmt=%d (%s %dx%d)"
           [LogPtr (img_image (depth self)); LogPtr (img_texAllLayersView (depth self));
            LogInt (img_format (depth self)); LogStr (tag_ self);
            LogInt (width self); LogInt (height self)]) ;;
      let views1 := if hasDepth then img_rtView (depth self) else VK_NULL_HANDLE in
      got <- VKRRenderPass_Get compatibleRenderPass (vulkan_ self) rpType ;;
      let '(renderPass, compatibleRenderPass) := got in
      let fbci := {|
        fbci_renderPass := renderPass;
        fbci_attachmentCount := if hasDepth then 2 else 1;
        fbci_pAttachments := [views0; views1];
        fbci_width := to_u32 (width self);
        fbci_height := to_u32 (height self);
        fbci_layers := 1
      |} in
      res <- vkCreateFramebuffer (vulkan_ self) fbci ;;
      let self := set_framebuf self (<[Z.to_nat rpType := reply_handle res]> (framebuf self)) in
      _assert_ (reply_res res =? VK_SUCCESS) ;;
      when (negb (String.eqb (tag_ self) "") && vk_EXT_debug_utils (vulkan_ self))
        (SetDebugName (reply_handle res) VK_OBJECT_TYPE_FRAMEBUFFER
           (Some ("fb_" +:+ tag_ self))) ;;
      ret (reply_handle res, self, compatibleRenderPass)
  end.

(** The destructor. *)
Fixpoint destroy_layer_views (colorViews depthViews : list Handle) : M unit :=
  match colorViews, depthViews with
  | c :: cs, d :: ds =>
    when (negb (is_null c)) (QueueDeleteImageView c) ;;
    when (negb (is_null d)) (QueueDeleteImageView d) ;;
    destroy_layer_views cs ds
  | _, _ => ret tt
  end.

Fixpoint destroy_framebufs (slots : list Handle) : M unit :=
  match slots with
  | [] => ret tt
  | fb :: rest =>
    when (negb (is_null fb)) (QueueDeleteFramebuffer fb) ;;
    destroy_framebufs rest
  end.

Section Framebuffer.

Variable debug_build : bool.

Definition VKRFramebuffer_destroy (self : VKRFramebuffer) : M unit :=
  let color := color self in
  let depth := depth self in
  when (negb (is_null (img_rtView color))) (QueueDeleteImageView (img_rtView color)) ;;
  when (negb (is_null (img_rtView depth))) (QueueDeleteImageView (img_rtView depth)) ;;
  when (negb (is_null (img_texAllLayersView color)))
    (QueueDeleteImageView (img_texAllLayersView color)) ;;
  when (negb (is_null (img_texAllLayersView depth)))
    (QueueDeleteImageView (img_texAllLayersView depth)) ;;
  destroy_layer_views (img_texLayerViews color) (img_texLayerViews depth) ;;
  when (negb (is_null (img_image color)))
    (_dbg_assert_ debug_build (negb (is_null (img_alloc color))) ;;
     QueueDeleteImageAllocation (img_image color) (img_alloc color)) ;;
  when (negb (is_null (img_image depth)))
    (_dbg_assert_ debug_build (negb (is_null (img_alloc depth))) ;;
     QueueDeleteImageAllocation (img_image depth) (img_alloc depth)) ;;
  destroy_framebufs (framebuf self).

(** The constructor. The member initialiser [tag_(tag)] builds a
    [std::string] from [tag] before the body runs. *)
Definition VKRFramebuffer_new (vk : VulkanContext) (initCmd : Handle)
    (compatibleRenderPass : VKRRenderPass) (_width _height _numLayers : Z)
    (createDepthStencilBuffer : bool) (tag : option string) : M VKRFramebuffer :=
  match tag with
  | None => undefined_behaviour
  | Some t =>
    let self := {|
      vulkan_ := vk;
      tag_ := t;
      width := _width;
      height := _height;
      numLayers := _numLayers;
      color := VKRImage_zero;
      depth := VKRImage_zero;
      framebuf := replicate (Z.to_nat TYPE_COUNT) VK_NULL_HANDLE
    |} in
    _dbg_assert_ debug_build true ;;
    img <- CreateImage debug_build (vulkan_ self) initCmd (color self)
             (width self) (height self) (numLayers self)
             VK_FORMAT_R8G8B8A8_UNORM VK_IMAGE_LAYOUT_COLOR_ATTACHMENT_OPTIMAL true tag ;;
    let self := set_color self img in
    self <-
      (if createDepthStencilBuffer then
         img <- CreateImage debug_build (vulkan_ self) initCmd (depth self)
                  (width self) (height self) (numLayers self)
                  (vk_preferredDepthStencilFormat (vulkan_ self))
                  VK_IMAGE_LAYOUT_DEPTH_STENCIL_ATTACHMENT_OPTIMAL false tag ;;
         ret (set_depth self img)
       else ret self) ;;
    UpdateTag self tag ;;
    ret self
  end.

End Framebuffer.

(** ** Reading what was handed to the driver *)

(** The world a call leaves behind, when it has one. *)
Definition final_world {A} (o : Outcome A) : option World :=
  match o with
  | Done _ w => Some w
  | Aborted w => Some w
  | Undefined => None
  end.

(** The array elements a count/pointer pair of a Vulkan structure denotes. *)
Definition input_attachments (sp : VkSubpassDescription) : list VkAttachmentReference :=
  take (Z.to_nat (sp_inputAttachmentCount sp)) (option_list (sp_pInputAttachments sp)).

Definition color_attachments (sp : VkSubpassDescription) : list VkAttachmentReference :=
  take (Z.to_nat (sp_colorAttachmentCount sp)) (option_list (sp_pColorAttachments sp)).

Definition attachments (rp : VkRenderPassCreateInfo) : list VkAttachmentDescription :=
  take (Z.to_nat (rp_attachmentCount rp)) (rp_pAttachments rp).

Definition dependencies (rp : VkRenderPassCreateInfo) : list VkSubpassDependency :=
  take (Z.to_nat (rp_dependencyCount rp)) (default [] (rp_pDependencies rp)).

(** A dependency of a subpass on itself. *)
Definition is_self_dependency (d : VkSubpassDependency) : bool :=
  srcSubpass d =? dstSubpass d.

(** The two dependencies the specification describes. *)
Definition backbuffer_dependency : VkSubpassDependency := {|
  srcSubpass := VK_SUBPASS_EXTERNAL;
  dstSubpass := 0;
  srcStageMask := VK_PIPELINE_STAGE_COLOR_ATTACHMENT_OUTPUT_BIT;
  dstStageMask := VK_PIPELINE_STAGE_COLOR_ATTACHMENT_OUTPUT_BIT;
  srcAccessMask := 0;
  dstAccessMask := Z.lor VK_ACCESS_COLOR_ATTACHMENT_READ_BIT VK_ACCESS_COLOR_ATTACHMENT_WRITE_BIT;
  dependencyFlags := 0
|}.

Definition self_dependency : VkSubpassDependency := {|
  srcSubpass := 0;
  dstSubpass := 0;
  srcStageMask := VK_PIPELINE_STAGE_COLOR_ATTACHMENT_OUTPUT_BIT;
  dstStageMask := VK_PIPELINE_STAGE_FRAGMENT_SHADER_BIT;
  srcAccessMask := VK_ACCESS_COLOR_ATTACHMENT_WRITE_BIT;
  dstAccessMask := VK_ACCESS_INPUT_ATTACHMENT_READ_BIT;
  dependencyFlags := VK_DEPENDENCY_BY_REGION_BIT
|}.

(** A key with other stencil actions, and an attachment description with
    other stencil operations. *)
Definition with_stencil_actions (key : RPKey) (load : VKRRenderPassLoadAction)
    (store : VKRRenderPassStoreAction) : RPKey := {|
  colorLoadAction := colorLoadAction key;
  depthLoadAction := depthLoadAction key;
  stencilLoadAction := load;
  colorStoreAction := colorStoreAction key;
  depthStoreAction := depthStoreAction key;
  stencilStoreAction := store
|}.

Definition with_stencil_ops (a : VkAttachmentDescription) (load : VkAttachmentLoadOp)
    (store : VkAttachmentStoreOp) : VkAttachmentDescription := {|
  att_flags := att_flags a;
  att_format := att_format a;
  att_samples := att_samples a;
  att_loadOp := att_loadOp a;
  att_storeOp := att_storeOp a;
  att_stencilLoadOp := load;
  att_stencilStoreOp := store;
  att_initialLayout := att_initialLayout a;
  att_finalLayout := att_finalLayout a
|}.

Definition with_attachments (rp : VkRenderPassCreateInfo)
    (atts : list VkAttachmentDescription) : VkRenderPassCreateInfo := {|
  rp_pNext := rp_pNext rp;
  rp_attachmentCount := rp_attachmentCount rp;
  rp_pAttachments := atts;
  rp_subpassCount := rp_subpassCount rp;
  rp_pSubpasses := rp_pSubpasses rp;
  rp_dependencyCount := rp_dependencyCount rp;
  rp_pDependencies := rp_pDependencies rp
|}.

Definition color_att_of (rp : VkRenderPassCreateInfo) : VkAttachmentDescription :=
  default VkAttachmentDescription_zero (rp_pAttachments rp !! 0%nat).

(** The framebuffer objects requested from the driver in a run of events. *)
Definition framebuffer_requests (evs : list Event) : list VkFramebufferCreateInfo :=
  omap (fun e => match e with E_vkCreateFramebuffer _ fbci _ => Some fbci | _ => None end) evs.

(** The world after [n] more creation calls and the events [evs]. *)
Definition extend (w : World) (n : nat) (evs : list Event) : World :=
  {| native_calls := n + native_calls w; trace := trace w ++ evs |}.

(** ** Assumptions on the driver *)

(** The Vulkan contract: a creation call that reports success has stored
    a handle that is not null. *)
Definition driver_conformant (vulkan : VulkanContext) : Prop :=
  forall n, reply_res (vk_driver vulkan n) = VK_SUCCESS ->
            reply_handle (vk_driver vulkan n) <> VK_NULL_HANDLE.

(** Every creation call succeeds. *)
Definition driver_succeeds (vulkan : VulkanContext) : Prop :=
  forall n, reply_res (vk_driver vulkan n) = VK_SUCCESS.

(** The arrays of the caches and of the per-layer views have their
    declared sizes. *)
Definition image_wf (img : VKRImage) : Prop := length (img_texLayerViews img) = 2%nat.

Definition framebuffer_wf (fb : VKRFramebuffer) : Prop :=
  length (framebuf fb) = Z.to_nat TYPE_COUNT /\ image_wf (color fb) /\ image_wf (depth fb).

Definition render_pass_wf (rp : VKRRenderPass) : Prop :=
  length (pass rp) = Z.to_nat TYPE_COUNT.

(** The image views requested from the driver, and the layout
    transitions recorded, in a run of events. *)
Definition image_view_requests (evs : list Event) : list VkImageViewCreateInfo :=
  omap (fun e => match e with E_vkCreateImageView _ ivci _ => Some ivci | _ => None end) evs.

Definition is_transition (e : Event) : bool :=
  match e with
  | E_TransitionImageLayout2 _ _ _ _ _ _ _ _ _ _ _ _ => true
  | _ => false
  end.

Definition recorded_transitions (evs : list Event) : list Event :=
  List.filter is_transition evs.

(** An image view of [image] as the factory requests them: identity
    swizzle, mip level 0 only. *)
Definition image_view (image : Handle) (format : VkFormat) (ty : VkImageViewType)
    (aspects base count : Z) : VkImageViewCreateInfo := {|
  ivci_image := image;
  ivci_viewType := ty;
  ivci_format := format;
  ivci_components := [VK_COMPONENT_SWIZZLE_IDENTITY; VK_COMPONENT_SWIZZLE_IDENTITY;
                      VK_COMPONENT_SWIZZLE_IDENTITY; VK_COMPONENT_SWIZZLE_IDENTITY];
  ivci_subresourceRange := {|
    aspectMask := aspects;
    baseMipLevel := 0;
    levelCount := 1;
    baseArrayLayer := base;
    layerCount := count
  |}
|}.

(** The per-layer view array after the factory has run from world [w]:
    slot [i] holds the handle answered to the creation call number
    [3 + i] counted from [w], for each layer [i]. *)
Definition stored_layer_views (vulkan : VulkanContext) (w : World)
    (views : list Handle) (numLayers : Z) : list Handle :=
  foldl (fun arr i => <[i := reply_handle (vk_driver vulkan (3 + i + native_calls w))]> arr)
        views (seq 0 (Z.to_nat numLayers)).

(** ** What a framebuffer owns *)

Definition nonnull (h : Handle) : bool := negb (is_null h).

(** The view slots of an image: primary, all-layers, one per layer. *)
Definition image_views (img : VKRImage) : list Handle :=
  [img_rtView img; img_texAllLayersView img] ++ img_texLayerViews img.

Definition owned_views (fb : VKRFramebuffer) : list Handle :=
  List.filter nonnull (image_views (color fb) ++ image_views (depth fb)).

Definition owned_images (fb : VKRFramebuffer) : list (Handle * Handle) :=
  List.filter (fun p => nonnull (fst p))
    [(img_image (color fb), img_alloc (color fb));
     (img_image (depth fb), img_alloc (depth fb))].

Definition owned_framebuffers (fb : VKRFramebuffer) : list Handle :=
  List.filter nonnull (framebuf fb).

(** An image that exists has its allocation. *)
Definition allocation_present (img : VKRImage) : Prop :=
  img_image img <> VK_NULL_HANDLE -> img_alloc img <> VK_NULL_HANDLE.

Definition is_queued_deletion (e : Event) : bool :=
  match e with
  | E_QueueDeleteImageView _ | E_QueueDeleteImageAllocation _ _
  | E_QueueDeleteFramebuffer _ | E_QueueDeleteRenderPass _ => true
  | _ => false
  end.

(** ** A concrete context and two concrete framebuffers *)

Definition example_driver (n : nat) : NativeReply := {|
  reply_res := VK_SUCCESS;
  reply_handle := 100 + Z.of_nat n;
  reply_alloc := 500 + Z.of_nat n
|}.

Definition example_vulkan : VulkanContext := {|
  vk_device := 1;
  vk_allocator := 2;
  vk_swapchainFormat := 44;
  vk_preferredDepthStencilFormat := 129;
  vk_EXT_debug_utils := true;
  vk_DebugLayerEnabled := true;
  vk_driver := example_driver
|}.

Definition example_key : RPKey := {|
  colorLoadAction := LA_CLEAR;
  depthLoadAction := LA_CLEAR;
  stencilLoadAction := LA_KEEP;
  colorStoreAction := SA_STORE;
  depthStoreAction := SA_DONT_CARE;
  stencilStoreAction := SA_STORE
|}.

Definition start : World := {| native_calls := 0; trace := [] |}.

(** What [VKRFramebuffer_new] builds at 1920x1080, one layer, no
    depth/stencil buffer, tag "old". *)
Definition example_fb_nodepth : VKRFramebuffer := {|
  vulkan_ := example_vulkan;
  width := 1920;
  height := 1080;
  numLayers := 1;
  color := {|
    img_image := 100;
    img_rtView := 101;
    img_texAllLayersView := 102;
    img_texLayerViews := [103; 0];
    img_alloc := 500;
    img_format := VK_FORMAT_R8G8B8A8_UNORM;
    img_layout := VK_IMAGE_LAYOUT_COLOR_ATTACHMENT_OPTIMAL;
    img_numLayers := 1;
    img_tag := "old"
  |};
  depth := VKRImage_zero;
  framebuf := [0; 0; 0; 0; 0; 0; 0; 0; 0];
  tag_ := "old"
|}.

(** What it builds with two layers and a depth/stencil buffer. *)
Definition example_fb_depth : VKRFramebuffer := {|
  vulkan_ := example_vulkan;
  width := 1920;
  height := 1080;
  numLayers := 2;
  color := {|
    img_image := 100;
    img_rtView := 101;
    img_texAllLayersView := 102;
    img_texLayerViews := [103; 104];
    img_alloc := 500;
    img_format := VK_FORMAT_R8G8B8A8_UNORM;
    img_layout := VK_IMAGE_LAYOUT_COLOR_ATTACHMENT_OPTIMAL;
    img_numLayers := 2;
    img_tag := "old"
  |};
  depth := {|
    img_image := 105;
    img_rtView := 106;
    img_texAllLayersView := 107;
    img_texLayerViews := [108; 109];
    img_alloc := 505;
    img_format := 129;
    img_layout := VK_IMAGE_LAYOUT_DEPTH_STENCIL_ATTACHMENT_OPTIMAL;
    img_numLayers := 2;
    img_tag := "old"
  |};
  framebuf := [0; 0; 0; 0; 0; 0; 0; 0; 0];
  tag_ := "old"
|}.

(** [example_fb_depth] after [Get] has built the framebuffer object of
    the type [HAS_DEPTH] (creation calls 10 and 11 of [example_driver]),
    and the pass cache that call leaves. *)
Definition example_fb_cached : VKRFramebuffer :=
  set_framebuf example_fb_depth [0; 111; 0; 0; 0; 0; 0; 0; 0].

Definition example_pass_cached : VKRRenderPass :=
  {| pass := [0; 110; 0; 0; 0; 0; 0; 0; 0]; key_ := example_key |}.

(** ** Further observations on events and structures *)

(** The images and views the driver was asked for, and what it answered. *)
Definition image_requests (evs : list Event)
    : list (VkImageCreateInfo * VmaAllocationCreateInfo) :=
  omap (fun e => match e with E_vmaCreateImage _ ici aci _ => Some (ici, aci) | _ => None end)
       evs.

Definition created_images (evs : list Event) : list (Handle * Handle) :=
  omap (fun e => match e with
                 | E_vmaCreateImage _ _ _ r => Some (reply_handle r, reply_alloc r)
                 | _ => None
                 end) evs.

Definition created_views (evs : list Event) : list Handle :=
  omap (fun e => match e with E_vkCreateImageView _ _ r => Some (reply_handle r) | _ => None end)
       evs.

Definition render_pass_requests (evs : list Event) : list VkRenderPassCreateInfo :=
  omap (fun e => match e with E_vkCreateRenderPass _ rp _ => Some rp | _ => None end) evs.

Definition is_warning (e : Event) : bool :=
  match e with E_WARN_LOG _ _ => true | _ => false end.

Definition warnings (evs : list Event) : list Event := List.filter is_warning evs.

(** The name an event gives to an object, if it is a debug-name call
    with a name. *)
Definition debug_names (evs : list Event) : list string :=
  omap (fun e => match e with E_SetDebugName _ _ (Some name) => Some name | _ => None end) evs.

(** The debug-name calls in a run of events, each with the object it
    labels, the object type it states and the name it gives. *)
Definition debug_name_calls (evs : list Event)
    : list (Handle * VkObjectType * option string) :=
  omap (fun e => match e with
                 | E_SetDebugName h ty name => Some (h, ty, name)
                 | _ => None
                 end) evs.

(** The replies of the driver to the framebuffer requests in a run of
    events. *)
Definition framebuffer_replies (evs : list Event) : list NativeReply :=
  omap (fun e => match e with E_vkCreateFramebuffer _ _ r => Some r | _ => None end) evs.


(** A render-pass description with the load and store operations of its
    attachments blanked: what is left is what Vulkan compares when it
    decides whether two passes are compatible. *)
Definition erase_ops (a : VkAttachmentDescription) : VkAttachmentDescription := {|
  att_flags := att_flags a;
  att_format := att_format a;
  att_samples := att_samples a;
  att_loadOp := VK_ATTACHMENT_LOAD_OP_DONT_CARE;
  att_storeOp := VK_ATTACHMENT_STORE_OP_DONT_CARE;
  att_stencilLoadOp := VK_ATTACHMENT_LOAD_OP_DONT_CARE;
  att_stencilStoreOp := VK_ATTACHMENT_STORE_OP_DONT_CARE;
  att_initialLayout := att_initialLayout a;
  att_finalLayout := att_finalLayout a
|}.

Definition erase_pass_ops (rp : VkRenderPassCreateInfo) : VkRenderPassCreateInfo :=
  with_attachments rp (map erase_ops (rp_pAttachments rp)).

(** The driver stores an allocation with every image it creates. *)
Definition driver_allocates (vulkan : VulkanContext) : Prop :=
  forall n, reply_res (vk_driver vulkan n) = VK_SUCCESS ->
            reply_alloc (vk_driver vulkan n) <> VK_NULL_HANDLE.

(** The three kinds of deferred-deletion requests. *)
Definition is_view_deletion (e : Event) : bool :=
  match e with E_QueueDeleteImageView _ => true | _ => false end.

Definition is_image_deletion (e : Event) : bool :=
  match e with E_QueueDeleteImageAllocation _ _ => true | _ => false end.

Definition is_framebuffer_deletion (e : Event) : bool :=
  match e with E_QueueDeleteFramebuffer _ => true | _ => false end.

(** Whether a flag word has a flag bit. *)
Definition has_flag (flags bit : Z) : bool := negb (Z.land flags bit =? 0).

(** The three layouts the image factory can transition to. *)
Definition supported_initial_layout (layout : VkImageLayout) : Prop :=
  layout = VK_IMAGE_LAYOUT_COLOR_ATTACHMENT_OPTIMAL \/
  layout = VK_IMAGE_LAYOUT_TRANSFER_DST_OPTIMAL \/
  layout = VK_IMAGE_LAYOUT_DEPTH_STENCIL_ATTACHMENT_OPTIMAL.

(** Every creation call succeeds, except perhaps call number [k]. *)
Definition succeeds_except (vulkan : VulkanContext) (k : nat) : Prop :=
  forall n, n <> k -> reply_res (vk_driver vulkan n) = VK_SUCCESS.

(** A driver that fails exactly the creation call number 2. *)
Definition example_driver_failing_third (n : nat) : NativeReply := {|
  reply_res := if (n =? 2)%nat then -1 else VK_SUCCESS;
  reply_handle := 100 + Z.of_nat n;
  reply_alloc := 500 + Z.of_nat n
|}.

Definition example_vulkan_failing_third : VulkanContext := {|
  vk_device := 1;
  vk_allocator := 2;
  vk_swapchainFormat := 44;
  vk_preferredDepthStencilFormat := 129;
  vk_EXT_debug_utils := true;
  vk_DebugLayerEnabled := true;
  vk_driver := example_driver_failing_third
|}.

(** A driver that fails every creation call. *)
Definition example_vulkan_failing : VulkanContext := {|
  vk_device := 1;
  vk_allocator := 2;
  vk_swapchainFormat := 44;
  vk_preferredDepthStencilFormat := 129;
  vk_EXT_debug_utils := true;
  vk_DebugLayerEnabled := true;
  vk_driver := fun n => {| reply_res := -1; reply_handle := 0; reply_alloc := 0 |}
|}.

(** [example_fb_nodepth] in a context whose driver fails every call. *)
Definition example_fb_failing : VKRFramebuffer := {|
  vulkan_ := example_vulkan_failing;
  width := width example_fb_nodepth;
  height := height example_fb_nodepth;
  numLayers := numLayers example_fb_nodepth;
  color := color example_fb_nodepth;
  depth := depth example_fb_nodepth;
  framebuf := framebuf example_fb_nodepth;
  tag_ := tag_ example_fb_nodepth
|}.

(* ================================================================= *)
(** * Properties *)

(** ** Facet predicates *)

Lemma land_pow2_testbit (a n : Z) :
  0 <= n -> (Z.land a (2 ^ n) =? 0) = negb (Z.testbit a n).
Proof.
  intros Hn. destruct (Z.testbit a n) eqn:Hb; simpl.
  - apply Z.eqb_neq. intros H0.
    assert (Hc : Z.testbit (Z.land a (2 ^ n)) n = true).
    { rewrite Z.land_spec, Hb, Z.pow2_bits_true by lia. reflexivity. }
    rewrite H0, Z.bits_0 in Hc. discriminate.
  - apply Z.eqb_eq. apply Z.bits_inj'. intros m Hm.
    rewrite Z.land_spec, Z.bits_0, Z.pow2_bits_eqb by lia.
    destruct (Z.eqb_spec n m) as [->|_].
    + rewrite Hb. reflexivity.
    + apply andb_false_r.
Qed.

Lemma rp_and_bit (type : RenderPassType) (n : Z) :
  0 <= n -> rp_and type (2 ^ n) = Z.testbit type n.
Proof.
  intros Hn. unfold rp_and. rewrite land_pow2_testbit by lia.
  apply negb_involutive.
Qed.

Lemma bool_ne_0_id (b : bool) : bool_ne_0 b = b.
Proof. destruct b; reflexivity. Qed.

(** C4. For every render-pass type tag, [RenderPassTypeHasDepth] holds
    exactly when the depth facet bit (bit 0) is set or the tag is the
    backbuffer tag; [RenderPassTypeHasInput] holds exactly when the
    color-input bit (bit 1) is set; [RenderPassTypeHasMultiView] holds
    exactly when the multiview bit (bit 2) is set. The three predicates
    are functions of the tag value and of nothing else. *)
Theorem facet_predicates_by_bit (type : RenderPassType) :
  (RenderPassTypeHasDepth type = true <->
     Z.testbit type 0 = true \/ type = BACKBUFFER) /\
  (RenderPassTypeHasInput type = true <-> Z.testbit type 1 = true) /\
  (RenderPassTypeHasMultiView type = true <-> Z.testbit type 2 = true).
Proof.
  unfold RenderPassTypeHasDepth, RenderPassTypeHasInput, RenderPassTypeHasMultiView.
  rewrite !bool_ne_0_id.
  change HAS_DEPTH with (2 ^ 0). change COLOR_INPUT with (2 ^ 1).
  change MULTIVIEW with (2 ^ 2).
  rewrite !rp_and_bit by lia.
  repeat split; try tauto.
  - intros H. apply orb_true_iff in H. destruct H as [H|H]; [now left|right].
    now apply Z.eqb_eq.
  - intros [H|H]; apply orb_true_iff; [now left|right]. now apply Z.eqb_eq.
Qed.

(** ** Running the state-and-abort monad *)

Lemma extend_nil w : extend w 0 [] = w.
Proof. destruct w. unfold extend. simpl. now rewrite app_nil_r. Qed.

Lemma extend_extend w n1 evs1 n2 evs2 :
  extend (extend w n1 evs1) n2 evs2 = extend w (n2 + n1) (evs1 ++ evs2).
Proof. unfold extend. simpl. f_equal; [lia | now rewrite app_assoc]. Qed.

Lemma bind_Done {A B} (m : M A) (k : A -> M B) w b w' :
  bind m k w = Done b w' -> exists a w1, m w = Done a w1 /\ k a w1 = Done b w'.
Proof. unfold bind. destruct (m w); [eauto | discriminate | discriminate]. Qed.

Lemma bind_run {A B} (m : M A) (k : A -> M B) w a w1 :
  m w = Done a w1 -> bind m k w = k a w1.
Proof. unfold bind. now intros ->. Qed.

Lemma assert_Done cond w u w' : _assert_ cond w = Done u w' -> cond = true /\ w' = w.
Proof. destruct cond; simpl; [|discriminate]. unfold ret. now intros [= <-]. Qed.

Lemma emit_run e w : emit e w = Done tt (extend w 0 [e]).
Proof. reflexivity. Qed.

Lemma native_run vulkan ev w :
  native vulkan ev w =
  Done (vk_driver vulkan (native_calls w)) (extend w 1 [ev (vk_driver vulkan (native_calls w))]).
Proof. reflexivity. Qed.

Lemma when_emit2_run cond e1 e2 w :
  when cond (emit e1 ;; emit e2) w = Done tt (extend w 0 (if cond then [e1; e2] else [])).
Proof.
  destruct cond; simpl.
  - unfold bind, emit, extend. simpl. now rewrite <- app_assoc.
  - unfold ret. now rewrite extend_nil.
Qed.

Lemma when_emit_run cond e w :
  when cond (emit e) w = Done tt (extend w 0 (if cond then [e] else [])).
Proof. destruct cond; simpl; [reflexivity|]. unfold ret. now rewrite extend_nil. Qed.

Ltac step lem := erewrite bind_run by apply lem.

(** ** Cache slots *)

Lemma slot_bounds arr rpType h :
  slot arr rpType = Some h -> (Z.to_nat rpType < length arr)%nat.
Proof.
  unfold slot. destruct (0 <=? rpType) eqn:H0, (rpType <? Z.of_nat (length arr)) eqn:H1;
    simpl; try discriminate. lia.
Qed.

Lemma slot_insert arr rpType h h' :
  slot arr rpType = Some h -> slot (<[Z.to_nat rpType := h']> arr) rpType = Some h'.
Proof.
  intros Hs. pose proof (slot_bounds _ _ _ Hs) as Hb. revert Hs.
  unfold slot. rewrite length_insert.
  destruct ((0 <=? rpType) && (rpType <? Z.of_nat (length arr))); [|discriminate].
  intros _. now apply list_lookup_insert_eq.
Qed.

Lemma slot_valid arr rpType :
  length arr = Z.to_nat TYPE_COUNT -> rp_valid rpType -> exists h, slot arr rpType = Some h.
Proof.
  intros Hlen [H0 H1]. unfold slot. rewrite Hlen.
  replace (0 <=? rpType) with true by (symmetry; apply Z.leb_le; lia).
  replace (rpType <? Z.of_nat (Z.to_nat TYPE_COUNT)) with true
    by (symmetry; apply Z.ltb_lt; unfold TYPE_COUNT, BACKBUFFER in *; lia).
  simpl. apply lookup_lt_is_Some_2. rewrite Hlen.
  unfold TYPE_COUNT, BACKBUFFER in *. lia.
Qed.

(** ** What a render pass declares *)

Lemma CreateRenderPass_request vulkan key rpType w :
  exists r w',
    final_world (CreateRenderPass vulkan key rpType w) = Some w' /\
    trace w' = trace w ++
      [E_vkCreateRenderPass (vk_device vulkan) (RenderPassCreateInfo vulkan key rpType) r].
Proof.
  exists (vk_driver vulkan (native_calls w)).
  unfold CreateRenderPass, vkCreateRenderPass, native, bind, _assert_, Crash, ret.
  destruct (reply_res _ =? VK_SUCCESS); [destruct (negb _)|]; simpl; eauto.
Qed.

(** C5. A render pass created for a type with the color-input facet
    declares exactly one input attachment, the color attachment in the
    general layout, which is also the layout of its color reference, and
    exactly one self-dependency, from subpass 0 to subpass 0, by region,
    from color-attachment-output/color-attachment-write to
    fragment-shader/input-attachment-read, after the external dependency
    of the backbuffer if there is one. Without the facet it declares no
    input attachment and no self-dependency, and references the color
    attachment in the color-attachment-optimal layout. The count fields
    of the request are stated as they are written: inputAttachmentCount
    is 1 with the facet and 0 with a null pointer without it,
    colorAttachmentCount is 1, and dependencyCount is the number of
    dependencies declared, with a null pDependencies when it is 0 and
    exactly the declared dependencies in the first dependencyCount
    entries of the array otherwise. *)
Theorem self_input_wiring (vulkan : VulkanContext) (key : RPKey)
    (rpType : RenderPassType) (w : World) :
  let rp := RenderPassCreateInfo vulkan key rpType in
  let declared :=
    (if rpType =? BACKBUFFER then [backbuffer_dependency] else []) ++
    (if RenderPassTypeHasInput rpType then [self_dependency] else []) in
  (exists r w',
      final_world (CreateRenderPass vulkan key rpType w) = Some w' /\
      trace w' = trace w ++ [E_vkCreateRenderPass (vk_device vulkan) rp r]) /\
  rp_subpassCount rp = 1 /\
  (exists subpass,
    rp_pSubpasses rp = Some subpass /\
    dependencies rp = declared /\
    (if RenderPassTypeHasInput rpType then
      input_attachments subpass =
        [{| ref_attachment := 0; ref_layout := VK_IMAGE_LAYOUT_GENERAL |}] /\
      color_attachments subpass =
        [{| ref_attachment := 0; ref_layout := VK_IMAGE_LAYOUT_GENERAL |}] /\
      List.filter is_self_dependency (dependencies rp) = [self_dependency]
    else
      input_attachments subpass = [] /\
      color_attachments subpass =
        [{| ref_attachment := 0; ref_layout := VK_IMAGE_LAYOUT_COLOR_ATTACHMENT_OPTIMAL |}] /\
      List.filter is_self_dependency (dependencies rp) = []) /\
    sp_inputAttachmentCount subpass =
      (if RenderPassTypeHasInput rpType then 1 else 0) /\
    sp_pInputAttachments subpass =
      (if RenderPassTypeHasInput rpType
       then Some {| ref_attachment := 0; ref_layout := VK_IMAGE_LAYOUT_GENERAL |}
       else None) /\
    sp_colorAttachmentCount subpass = 1 /\
    sp_pColorAttachments subpass =
      Some {| ref_attachment := 0;
              ref_layout := if RenderPassTypeHasInput rpType
                            then VK_IMAGE_LAYOUT_GENERAL
                            else VK_IMAGE_LAYOUT_COLOR_ATTACHMENT_OPTIMAL |}) /\
  rp_dependencyCount rp =
    (if rpType =? BACKBUFFER then 1 else 0) +
    (if RenderPassTypeHasInput rpType then 1 else 0) /\
  rp_dependencyCount rp = Z.of_nat (length declared) /\
  match rp_pDependencies rp with
  | None => rp_dependencyCount rp = 0
  | Some deps =>
      0 < rp_dependencyCount rp /\
      (Z.to_nat (rp_dependencyCount rp) <= length deps)%nat /\
      take (Z.to_nat (rp_dependencyCount rp)) deps = declared
  end.
Proof.
  intros rp declared. split; [apply CreateRenderPass_request|].
  split; [reflexivity|].
  subst rp declared.
  unfold dependencies, input_attachments, color_attachments, RenderPassCreateInfo.
  destruct (RenderPassTypeHasInput rpType), (rpType =? BACKBUFFER);
    simpl; (split; [eexists; repeat split; reflexivity|]);
    repeat split; simpl; try reflexivity; lia.
Qed.

(** C9. A render pass created for a type with the multiview facet
    carries the multiview structure: one subpass with view mask [0b11],
    one correlation mask [0b11], no dependency and a view offset of zero.
    Without the facet the [pNext] chain is empty. *)
Theorem multiview_configuration (vulkan : VulkanContext) (key : RPKey)
    (rpType : RenderPassType) (w : World) :
  let rp := RenderPassCreateInfo vulkan key rpType in
  (exists r w',
      final_world (CreateRenderPass vulkan key rpType w) = Some w' /\
      trace w' = trace w ++ [E_vkCreateRenderPass (vk_device vulkan) rp r]) /\
  rp_pNext rp =
    if RenderPassTypeHasMultiView rpType then
      Some {| mv_subpassCount := 1;
              mv_pViewMasks := Some 3;
              mv_dependencyCount := 0;
              mv_pViewOffsets := Some 0;
              mv_correlationMaskCount := 1;
              mv_pCorrelationMasks := Some 3 |}
    else None.
Proof.
  intros rp. split; [apply CreateRenderPass_request|].
  subst rp. unfold RenderPassCreateInfo.
  destruct (RenderPassTypeHasMultiView rpType); reflexivity.
Qed.

(** C10. Whatever the key and the type, attachment 0 of a created render
    pass has both stencil operations set to DONT_CARE. Replacing the
    stencil load and store actions of the key changes nothing when the
    type has no depth, and otherwise changes only the two stencil
    operations of attachment 1, which are the converted actions. *)
Theorem stencil_actions_reach_depth_attachment_only (vulkan : VulkanContext)
    (key : RPKey) (rpType : RenderPassType)
    (load : VKRRenderPassLoadAction) (store : VKRRenderPassStoreAction) (w : World) :
  let rp := RenderPassCreateInfo vulkan key rpType in
  let rp' := RenderPassCreateInfo vulkan (with_stencil_actions key load store) rpType in
  (exists r w',
      final_world (CreateRenderPass vulkan key rpType w) = Some w' /\
      trace w' = trace w ++ [E_vkCreateRenderPass (vk_device vulkan) rp r]) /\
  (exists color_att,
      rp_pAttachments rp !! 0%nat = Some color_att /\
      att_stencilLoadOp color_att = VK_ATTACHMENT_LOAD_OP_DONT_CARE /\
      att_stencilStoreOp color_att = VK_ATTACHMENT_STORE_OP_DONT_CARE) /\
  rp_pAttachments rp' !! 0%nat = rp_pAttachments rp !! 0%nat /\
  if RenderPassTypeHasDepth rpType then
    exists depth_att,
      rp_pAttachments rp !! 1%nat = Some depth_att /\
      att_stencilLoadOp depth_att = ConvertLoadAction (stencilLoadAction key) /\
      att_stencilStoreOp depth_att = ConvertStoreAction (stencilStoreAction key) /\
      rp' = with_attachments rp
              [color_att_of rp;
               with_stencil_ops depth_att (ConvertLoadAction load) (ConvertStoreAction store)]
  else rp' = rp.
Proof.
  intros rp rp'. split; [apply CreateRenderPass_request|].
  subst rp rp'. unfold RenderPassCreateInfo.
  destruct (RenderPassTypeHasDepth rpType); simpl.
  - split; [eexists; repeat split; reflexivity|]. split; [reflexivity|].
    eexists. repeat split; reflexivity.
  - split; [eexists; repeat split; reflexivity|]. split; reflexivity.
Qed.

(** ** The two caches *)

Lemma CreateRenderPass_Done vulkan key rpType w p w' :
  CreateRenderPass vulkan key rpType w = Done p w' -> p <> VK_NULL_HANDLE.
Proof.
  unfold CreateRenderPass. intros H.
  apply bind_Done in H as (r & w1 & _ & H).
  apply bind_Done in H as (? & w2 & _ & H).
  apply bind_Done in H as (? & w3 & Hnn & H).
  apply assert_Done in Hnn as [Hnn _].
  unfold ret in H. injection H as <- _.
  apply negb_true_iff, Z.eqb_neq in Hnn. exact Hnn.
Qed.

Lemma VKRRenderPass_Get_Done self vulkan rpType w p self' w' :
  VKRRenderPass_Get self vulkan rpType w = Done (p, self') w' ->
  slot (pass self') rpType = Some p /\ p <> VK_NULL_HANDLE /\ key_ self' = key_ self.
Proof.
  unfold VKRRenderPass_Get.
  destruct (slot (pass self) rpType) as [cached|] eqn:Hslot; [|discriminate].
  destruct (is_null cached) eqn:Hnull.
  - intros H. apply bind_Done in H as (created & w1 & Hc & H).
    unfold ret in H. injection H as <- <- _. simpl.
    split; [eapply slot_insert; eassumption|].
    split; [eapply CreateRenderPass_Done; eassumption | reflexivity].
  - unfold ret. intros [= <- <- _]. split; [assumption|].
    split; [|reflexivity]. now apply Z.eqb_neq in Hnull.
Qed.

Lemma VKRRenderPass_Get_hit self vulkan rpType w p :
  slot (pass self) rpType = Some p -> p <> VK_NULL_HANDLE ->
  VKRRenderPass_Get self vulkan rpType w = Done (p, self) w.
Proof.
  intros Hs Hp. unfold VKRRenderPass_Get. rewrite Hs.
  apply Z.eqb_neq in Hp. unfold is_null. now rewrite Hp.
Qed.

Lemma Get_Done self rp rpType w h self' rp' w' :
  driver_conformant (vulkan_ self) ->
  Get self rp rpType w = Done (h, self', rp') w' ->
  slot (framebuf self') rpType = Some h /\ h <> VK_NULL_HANDLE.
Proof.
  intros Hconf. unfold Get.
  destruct (slot (framebuf self) rpType) as [cached|] eqn:Hslot; [|discriminate].
  destruct (is_null cached) eqn:Hnull; simpl.
  - intros H.
    apply bind_Done in H as (? & w1 & _ & H).
    apply bind_Done in H as ([renderPass rp1] & w2 & _ & H).
    apply bind_Done in H as (r & w3 & Hr & H).
    apply bind_Done in H as (? & w4 & Hok & H).
    apply bind_Done in H as (? & w5 & _ & H).
    unfold ret in H. injection H as <- <- _ _. simpl.
    split; [eapply slot_insert; eassumption|].
    apply assert_Done in Hok as [Hok _]. apply Z.eqb_eq in Hok.
    unfold vkCreateFramebuffer in Hr. rewrite native_run in Hr.
    injection Hr as <- _. now apply Hconf.
  - unfold ret. intros [= <- <- _ _]. split; [assumption|].
    now apply Z.eqb_neq in Hnull.
Qed.

Lemma Get_hit self rp rpType w h :
  slot (framebuf self) rpType = Some h -> h <> VK_NULL_HANDLE ->
  Get self rp rpType w = Done (h, self, rp) w.
Proof.
  intros Hs Hh. unfold Get. rewrite Hs.
  apply Z.eqb_neq in Hh. unfold is_null. now rewrite Hh.
Qed.

(** C3. When [Get] has returned a handle for a type, calling it again
    for the same type, on the objects and in the world the first call
    left, returns the same handle and changes nothing: no creation call,
    no event, the same framebuffer and the same pass cache. The same
    holds for the render-pass cache, whose key no call changes (the
    second call may even come with another context). The driver is
    assumed to honour the Vulkan contract that a successful creation
    stores a non-null handle. *)
Theorem cached_handles_are_reused :
  (forall self rp rpType w h self' rp' w',
      driver_conformant (vulkan_ self) ->
      Get self rp rpType w = Done (h, self', rp') w' ->
      Get self' rp' rpType w' = Done (h, self', rp') w') /\
  (forall cache vulkan vulkan' rpType w p cache' w',
      VKRRenderPass_Get cache vulkan rpType w = Done (p, cache') w' ->
      VKRRenderPass_Get cache' vulkan' rpType w' = Done (p, cache') w' /\
      key_ cache' = key_ cache).
Proof.
  split.
  - intros self rp rpType w h self' rp' w' Hconf H.
    apply Get_Done in H as [Hs Hh]; [|assumption].
    now apply Get_hit.
  - intros cache vulkan vulkan' rpType w p cache' w' H.
    apply VKRRenderPass_Get_Done in H as (Hs & Hp & Hk).
    split; [now apply VKRRenderPass_Get_hit | assumption].
Qed.

(** ** The concrete framebuffers are what the constructor builds *)

Lemma example_fb_nodepth_constructed :
  exists w,
    VKRFramebuffer_new true example_vulkan 7 (VKRRenderPass_new example_key)
      1920 1080 1 false (Some "old") start = Done example_fb_nodepth w /\
    native_calls w = 4%nat.
Proof. eexists. split; vm_compute; reflexivity. Qed.

Lemma example_fb_depth_constructed :
  exists w,
    VKRFramebuffer_new true example_vulkan 7 (VKRRenderPass_new example_key)
      1920 1080 2 true (Some "old") start = Done example_fb_depth w /\
    native_calls w = 10%nat.
Proof. eexists. split; vm_compute; reflexivity. Qed.

Lemma example_driver_succeeds : driver_succeeds example_vulkan.
Proof. intros n. reflexivity. Qed.

Lemma example_driver_conformant : driver_conformant example_vulkan.
Proof. intros n _. simpl. unfold VK_NULL_HANDLE. lia. Qed.

(** A framebuffer built without a depth/stencil buffer has no depth view
    and an empty cache. *)
Lemma new_without_depth debug_build vk initCmd rp w h n tag w0 self w1 :
  VKRFramebuffer_new debug_build vk initCmd rp w h n false tag w0 = Done self w1 ->
  depth self = VKRImage_zero /\
  framebuf self = replicate (Z.to_nat TYPE_COUNT) VK_NULL_HANDLE.
Proof.
  unfold VKRFramebuffer_new. destruct tag as [t|]; [|discriminate].
  intros H.
  apply bind_Done in H as (? & w2 & _ & H).
  apply bind_Done in H as (img & w3 & _ & H).
  apply bind_Done in H as (self' & w4 & Hself & H).
  apply bind_Done in H as (? & w5 & _ & H).
  unfold ret in *. injection H as <- _. injection Hself as <- _.
  split; reflexivity.
Qed.

(** ** A depth pass type on a framebuffer without depth *)

Lemma VKRRenderPass_Get_runs cache vulkan rpType w :
  driver_succeeds vulkan -> driver_conformant vulkan ->
  render_pass_wf cache -> rp_valid rpType ->
  exists p cache' n evs,
    VKRRenderPass_Get cache vulkan rpType w = Done (p, cache') (extend w n evs) /\
    framebuffer_requests evs = [].
Proof.
  intros Hok Hconf Hwf Hv.
  destruct (slot_valid _ _ Hwf Hv) as [cached Hslot].
  unfold VKRRenderPass_Get. rewrite Hslot.
  destruct (is_null cached).
  - specialize (Hok (native_calls w)). specialize (Hconf (native_calls w) Hok).
    apply Z.eqb_neq in Hconf.
    unfold CreateRenderPass, vkCreateRenderPass, bind, native, _assert_.
    rewrite Hok, Hconf. simpl. unfold ret.
    eexists _, _, 1%nat, [_]. split; reflexivity.
  - exists cached, cache, 0%nat, []. unfold ret. now rewrite extend_nil.
Qed.

(** C2. On a framebuffer without a depth view, a request for a type
    that has depth, whose cache slot is still empty, logs the
    "depth render type to non-depth fb" warning first, then creates the
    framebuffer object with two attachments, the color view and a null
    depth view, one layer, caches it and returns its handle: the call
    returns, it does not abort. The driver is assumed to answer the
    creation calls with success. *)
Theorem depth_type_on_depthless_framebuffer (self : VKRFramebuffer)
    (compatibleRenderPass : VKRRenderPass) (rpType : RenderPassType) (w : World) :
  rp_valid rpType ->
  RenderPassTypeHasDepth rpType = true ->
  img_rtView (depth self) = VK_NULL_HANDLE ->
  slot (framebuf self) rpType = Some VK_NULL_HANDLE ->
  render_pass_wf compatibleRenderPass ->
  driver_succeeds (vulkan_ self) ->
  driver_conformant (vulkan_ self) ->
  exists h self' rp' w' pre fbci r post,
    Get self compatibleRenderPass rpType w = Done (h, self', rp') w' /\
    trace w' = trace w ++
      E_WARN_LOG "depth render type to non-depth fb: %p %p fmt=%d (%s %dx%d)"
        [LogPtr (img_image (depth self)); LogPtr (img_texAllLayersView (depth self));
         LogInt (img_format (depth self)); LogStr (tag_ self);
         LogInt (width self); LogInt (height self)] ::
      pre ++ E_vkCreateFramebuffer (vk_device (vulkan_ self)) fbci r :: post /\
    framebuffer_requests pre = [] /\
    framebuffer_requests post = [] /\
    fbci_attachmentCount fbci = 2 /\
    fbci_pAttachments fbci = [img_rtView (color self); VK_NULL_HANDLE] /\
    fbci_layers fbci = 1 /\
    reply_handle r = h /\
    h <> VK_NULL_HANDLE /\
    slot (framebuf self') rpType = Some h /\
    depth self' = depth self.
Proof.
  intros Hv Hd Hview Hslot Hwf Hok Hconf.
  destruct (VKRRenderPass_Get_runs compatibleRenderPass (vulkan_ self) rpType
              (extend w 0 [E_WARN_LOG "depth render type to non-depth fb: %p %p fmt=%d (%s %dx%d)"
                 [LogPtr (img_image (depth self)); LogPtr (img_texAllLayersView (depth self));
                  LogInt (img_format (depth self)); LogStr (tag_ self);
                  LogInt (width self); LogInt (height self)]])
              Hok Hconf Hwf Hv) as (p & rp' & n & evs & Hrp & Hreq).
  unfold Get. rewrite Hslot. simpl. rewrite Hd, Hview. simpl.
  unfold WARN_LOG. erewrite bind_run by apply emit_run.
  erewrite bind_run by exact Hrp.
  unfold vkCreateFramebuffer. erewrite bind_run by apply native_run.
  pose proof (Hok (n + native_calls w)%nat) as Hres.
  pose proof (Hconf (n + native_calls w)%nat Hres) as Hh.
  simpl. rewrite Hres. simpl. unfold SetDebugName.
  erewrite bind_run by reflexivity.
  erewrite bind_run by apply when_emit_run.
  unfold ret.
  eexists _, _, _, _, evs, _, _,
    (if negb (tag_ self =? "")%string && vk_EXT_debug_utils (vulkan_ self)
     then [_] else []).
  split; [reflexivity|]. simpl.
  split; [rewrite <- !app_assoc; reflexivity|].
  split; [exact Hreq|].
  split; [destruct (negb _ && _); reflexivity|].
  do 4 (split; [reflexivity|]).
  split; [exact Hh|]. split; [|reflexivity].
  eapply slot_insert; eassumption.
Qed.

(** ** Teardown *)

Lemma filter_cons_singleton {A} (f : A -> bool) x l :
  List.filter f (x :: l) = (if f x then [x] else []) ++ List.filter f l.
Proof. simpl. destruct (f x); reflexivity. Qed.

Lemma map_if_singleton {A B} (g : A -> B) (b : bool) x :
  map g (if b then [x] else []) = if b then [g x] else [].
Proof. destruct b; reflexivity. Qed.

Lemma destroy_framebufs_run slots w :
  destroy_framebufs slots w =
  Done tt (extend w 0 (map E_QueueDeleteFramebuffer (List.filter nonnull slots))).
Proof.
  revert w. induction slots as [|fb rest IH]; intros w.
  - simpl. unfold ret. now rewrite extend_nil.
  - cbn [destroy_framebufs]. unfold QueueDeleteFramebuffer.
    erewrite bind_run by apply when_emit_run.
    rewrite IH, extend_extend, filter_cons_singleton, map_app, map_if_singleton.
    reflexivity.
Qed.

Lemma image_deletion_run debug_build img w :
  allocation_present img ->
  when (negb (is_null (img_image img)))
    (_dbg_assert_ debug_build (negb (is_null (img_alloc img))) ;;
     QueueDeleteImageAllocation (img_image img) (img_alloc img)) w =
  Done tt (extend w 0
    (if nonnull (img_image img)
     then [E_QueueDeleteImageAllocation (img_image img) (img_alloc img)] else [])).
Proof.
  intros Halloc. unfold nonnull, is_null in *.
  destruct (Z.eqb_spec (img_image img) VK_NULL_HANDLE) as [_|Hne]; simpl.
  - unfold ret. now rewrite extend_nil.
  - apply Halloc, Z.eqb_neq in Hne. rewrite Hne.
    destruct debug_build; reflexivity.
Qed.

Lemma queued_requests_NoDup (views : list Handle) (images : list (Handle * Handle))
    (fbs : list Handle) :
  NoDup views -> NoDup images -> NoDup fbs ->
  NoDup (map E_QueueDeleteImageView views ++
         map (fun p => E_QueueDeleteImageAllocation (fst p) (snd p)) images ++
         map E_QueueDeleteFramebuffer fbs).
Proof.
  intros Hv Hi Hf.
  apply NoDup_app. split; [|split; [|apply NoDup_app; split; [|split]]].
  - assert (Inj (=) (=) E_QueueDeleteImageView) by (intros x y [= ->]; reflexivity).
    now apply (NoDup_fmap_2 E_QueueDeleteImageView).
  - intros e He Hin.
    apply list_elem_of_In, in_map_iff in He as (h & <- & _).
    apply elem_of_app in Hin as [Hin|Hin];
      apply list_elem_of_In, in_map_iff in Hin as (? & Heq & _); discriminate Heq.
  - assert (Inj (=) (=) (fun p : Handle * Handle =>
                           E_QueueDeleteImageAllocation (fst p) (snd p)))
      by (intros [x1 x2] [y1 y2] [= -> ->]; reflexivity).
    now apply (NoDup_fmap_2 (fun p => E_QueueDeleteImageAllocation (fst p) (snd p))).
  - intros e He Hin.
    apply list_elem_of_In, in_map_iff in He as (h & <- & _).
    apply list_elem_of_In, in_map_iff in Hin as (? & Heq & _). discriminate Heq.
  - assert (Inj (=) (=) E_QueueDeleteFramebuffer) by (intros x y [= ->]; reflexivity).
    now apply (NoDup_fmap_2 E_QueueDeleteFramebuffer).
Qed.

(** C6. Destroying a framebuffer hands to the deferred-deletion queue,
    and does nothing else: the queued requests are, up to their order,
    one image-view request for each view slot that is not null (primary,
    all-layers and per-layer views of the color and of the depth image),
    one image-and-allocation request for each image that exists, and one
    framebuffer request for each cache slot that is filled. When the
    owned handles are pairwise distinct, no request is queued twice. No
    creation or destruction call reaches the driver. *)
Theorem destroy_enqueues_each_owned_handle_once (debug_build : bool)
    (self : VKRFramebuffer) (w : World) :
  framebuffer_wf self ->
  allocation_present (color self) ->
  allocation_present (depth self) ->
  exists evs,
    VKRFramebuffer_destroy debug_build self w = Done tt (extend w 0 evs) /\
    evs ≡ₚ map E_QueueDeleteImageView (owned_views self) ++
           map (fun p => E_QueueDeleteImageAllocation (fst p) (snd p)) (owned_images self) ++
           map E_QueueDeleteFramebuffer (owned_framebuffers self) /\
    forallb is_queued_deletion evs = true /\
    (NoDup (owned_views self) -> NoDup (owned_images self) ->
     NoDup (owned_framebuffers self) -> NoDup evs).
Proof.
  intros (Hlen & Hc & Hd) Hac Had.
  unfold image_wf in Hc, Hd.
  unfold VKRFramebuffer_destroy, owned_views, owned_images, owned_framebuffers, image_views.
  destruct (img_texLayerViews (color self)) as [|c0 [|c1 [|? ?]]]; try discriminate.
  destruct (img_texLayerViews (depth self)) as [|d0 [|d1 [|? ?]]]; try discriminate.
  cbn [destroy_layer_views]. unfold QueueDeleteImageView.
  do 4 (erewrite bind_run by apply when_emit_run).
  erewrite bind_run.
  2:{ do 4 (erewrite bind_run by apply when_emit_run). reflexivity. }
  erewrite bind_run by (apply image_deletion_run; assumption).
  erewrite bind_run by (apply image_deletion_run; assumption).
  rewrite destroy_framebufs_run, !extend_extend.
  eexists. split; [reflexivity|].
  match goal with |- ?evs ≡ₚ ?owned /\ _ => assert (Hperm : evs ≡ₚ owned) end.
  { cbn [app fst snd]. rewrite !filter_cons_singleton. cbn [List.filter].
    rewrite !map_app, !map_if_singleton. cbn [map fst snd app].
    rewrite !app_nil_r. unfold nonnull. solve_Permutation. }
  split; [exact Hperm|]. split.
  - apply forallb_forall. intros e He.
    apply list_elem_of_In in He. rewrite Hperm in He.
    repeat (apply elem_of_app in He as [He|He]);
      apply list_elem_of_In, in_map_iff in He as (h & <- & _); reflexivity.
  - intros Hviews Himages Hfbs. rewrite Hperm.
    apply queued_requests_NoDup; assumption.
Qed.

(** ** The image factory *)

Lemma layer_label_run (vulkan : VulkanContext) (tag : option string) (i : Z) (h : Handle)
    (w : World) :
  (tag = None -> vk_DebugLayerEnabled vulkan = false) ->
  when (vk_DebugLayerEnabled vulkan)
    (match tag with
     | Some t =>
       SetDebugName h VK_OBJECT_TYPE_IMAGE_VIEW
         (Some (snprintf128 (t +:+ "_layer" +:+ pretty i)))
     | None => undefined_behaviour
     end) w =
  Done tt (extend w 0
    (match tag with
     | Some t =>
       if vk_DebugLayerEnabled vulkan
       then [E_SetDebugName h VK_OBJECT_TYPE_IMAGE_VIEW
               (Some (snprintf128 (t +:+ "_layer" +:+ pretty i)))]
       else []
     | None => []
     end)).
Proof.
  intros Htag. destruct tag as [t|].
  - apply when_emit_run.
  - rewrite (Htag eq_refl). unfold when, ret. now rewrite extend_nil.
Qed.

Lemma CreateImage_views_run (debug_build : bool) (vulkan : VulkanContext) (cmd : Handle)
    (img : VKRImage) (width height numLayers : Z) (format : VkFormat)
    (initialLayout : VkImageLayout) (color : bool) (tag : option string) (w : World) :
  numLayers = 1 \/ numLayers = 2 ->
  driver_succeeds vulkan ->
  (tag = None -> vk_DebugLayerEnabled vulkan = false) ->
  let image := reply_handle (vk_driver vulkan (native_calls w)) in
  let aspects :=
    if color then VK_IMAGE_ASPECT_COLOR_BIT
    else Z.lor VK_IMAGE_ASPECT_DEPTH_BIT VK_IMAGE_ASPECT_STENCIL_BIT in
  let sampled := if color then VK_IMAGE_ASPECT_COLOR_BIT else VK_IMAGE_ASPECT_DEPTH_BIT in
  exists img1 evs,
    CreateImage debug_build vulkan cmd img width height numLayers format initialLayout
      color tag w =
    CreateImage_transition cmd img1 numLayers aspects format initialLayout tag
      (extend w (Z.to_nat numLayers + 3) evs) /\
    img_image img1 = image /\
    img_texAllLayersView img1 = reply_handle (vk_driver vulkan (2 + native_calls w)) /\
    img_texLayerViews img1 = stored_layer_views vulkan w (img_texLayerViews img) numLayers /\
    recorded_transitions evs = [] /\
    image_view_requests evs =
      image_view image format
        (if numLayers =? 1 then VK_IMAGE_VIEW_TYPE_2D else VK_IMAGE_VIEW_TYPE_2D_ARRAY)
        aspects 0 numLayers ::
      image_view image format VK_IMAGE_VIEW_TYPE_2D_ARRAY sampled 0 numLayers ::
      map (fun i => image_view image format VK_IMAGE_VIEW_TYPE_2D sampled i 1)
          (seqZ 0 numLayers).
Proof.
  intros Hn Hok Htag image aspects sampled. subst image aspects sampled.
  assert (Hassert : forall n w0,
             _dbg_assert_ debug_build (reply_res (vk_driver vulkan n) =? VK_SUCCESS) w0
             = Done tt w0).
  { intros n w0. rewrite Hok. destruct debug_build; reflexivity. }
  unfold CreateImage, vmaCreateImage, vkCreateImageView, SetDebugName. cbv zeta.
  erewrite bind_run
    by (destruct Hn as [-> | ->]; destruct debug_build; reflexivity).
  step native_run. step Hassert.
  step native_run. step emit_run. step Hassert.
  step native_run. step emit_run.
  destruct Hn as [-> | ->];
    [change (Z.to_nat 1) with 1%nat | change (Z.to_nat 2) with 2%nat];
    cbn [CreateImage_layers Nat.add];
    cbn [Z.leb Z.ltb Z.compare Pos.compare Pos.compare_cont andb Z.add Pos.add Pos.succ];
    unfold vkCreateImageView.
  - erewrite bind_run.
    2:{ step native_run. erewrite bind_run by (apply layer_label_run; exact Htag). step Hassert. reflexivity. }
    rewrite !extend_extend. eexists _, _. split; [reflexivity|].
    destruct color, tag, (vk_DebugLayerEnabled vulkan); repeat split; reflexivity.
  - erewrite bind_run.
    2:{ step native_run. erewrite bind_run by (apply layer_label_run; exact Htag). step Hassert.
        change (0 + 1) with 1. cbn [Z.leb Z.ltb Z.compare Pos.compare Pos.compare_cont andb].
        step native_run. erewrite bind_run by (apply layer_label_run; exact Htag). step Hassert. reflexivity. }
    rewrite !extend_extend. eexists _, _. split; [reflexivity|].
    destruct color, tag, (vk_DebugLayerEnabled vulkan); repeat split; reflexivity.
Qed.

Lemma CreateImage_transition_world cmd img numLayers aspects format initialLayout tag w :
  exists w' evs,
    final_world (CreateImage_transition cmd img numLayers aspects format initialLayout tag w)
      = Some w' /\
    w' = extend w 0 evs /\
    image_view_requests evs = [].
Proof.
  unfold CreateImage_transition.
  destruct (initial_transition_masks initialLayout) as [[dstAccessMask dstStage]|].
  - eexists _, [_]. split; [reflexivity|]. split; reflexivity.
  - exists w, []. split; [reflexivity|]. now rewrite extend_nil.
Qed.

Lemma CreateImage_transition_Done cmd img numLayers aspects format initialLayout tag w img' w' :
  CreateImage_transition cmd img numLayers aspects format initialLayout tag w = Done img' w' ->
  img_texAllLayersView img' = img_texAllLayersView img /\
  img_texLayerViews img' = img_texLayerViews img.
Proof.
  unfold CreateImage_transition.
  destruct (initial_transition_masks initialLayout) as [[dstAccessMask dstStage]|];
    [|discriminate].
  unfold TransitionImageLayout2. erewrite bind_run by apply emit_run.
  unfold ret. intros [= <- _]. split; reflexivity.
Qed.

Lemma image_view_requests_app evs1 evs2 :
  image_view_requests (evs1 ++ evs2) = image_view_requests evs1 ++ image_view_requests evs2.
Proof. apply omap_app. Qed.

(** C7. For one or two layers, color or depth/stencil, the factory
    requests, after the primary view, exactly one all-layers sampling
    view, of type 2D array over all the layers (and for a depth target
    with the depth aspect alone), and then exactly one 2D sampling view
    per layer, each over the single array slice of its layer; no other
    view is requested. When the factory returns, the image holds the
    handles the driver answered for these views. The driver is assumed
    to answer the creation calls with success, and the tag to be a
    string whenever the debug layer formats it into a label. *)
Theorem sampling_views_of_an_image (debug_build : bool) (vulkan : VulkanContext)
    (cmd : Handle) (img : VKRImage) (width height numLayers : Z) (format : VkFormat)
    (initialLayout : VkImageLayout) (color : bool) (tag : option string) (w : World) :
  numLayers = 1 \/ numLayers = 2 ->
  driver_succeeds vulkan ->
  (tag = None -> vk_DebugLayerEnabled vulkan = false) ->
  let run := CreateImage debug_build vulkan cmd img width height numLayers format
               initialLayout color tag w in
  let image := reply_handle (vk_driver vulkan (native_calls w)) in
  let sampled := if color then VK_IMAGE_ASPECT_COLOR_BIT else VK_IMAGE_ASPECT_DEPTH_BIT in
  (exists w' evs primary,
      final_world run = Some w' /\
      trace w' = trace w ++ evs /\
      image_view_requests evs =
        primary ::
        image_view image format VK_IMAGE_VIEW_TYPE_2D_ARRAY sampled 0 numLayers ::
        map (fun i => image_view image format VK_IMAGE_VIEW_TYPE_2D sampled i 1)
            (seqZ 0 numLayers)) /\
  (forall img' w',
      run = Done img' w' ->
      img_texAllLayersView img' = reply_handle (vk_driver vulkan (2 + native_calls w)) /\
      img_texLayerViews img' = stored_layer_views vulkan w (img_texLayerViews img) numLayers).
Proof.
  intros Hn Hok Htag run image sampled. subst run image sampled.
  destruct (CreateImage_views_run debug_build vulkan cmd img width height numLayers format
              initialLayout color tag w Hn Hok Htag)
    as (img1 & evs & Hrun & _ & Hall & Hlayers & _ & Hviews).
  rewrite Hrun. split.
  - destruct (CreateImage_transition_world cmd img1 numLayers
                (if color then VK_IMAGE_ASPECT_COLOR_BIT
                 else Z.lor VK_IMAGE_ASPECT_DEPTH_BIT VK_IMAGE_ASPECT_STENCIL_BIT)
                format initialLayout tag (extend w (Z.to_nat numLayers + 3) evs))
      as (w' & evs' & Hfinal & -> & Hnone).
    eexists _, (evs ++ evs'), _. split; [exact Hfinal|].
    split; [simpl; now rewrite app_assoc|].
    rewrite image_view_requests_app, Hnone, app_nil_r. exact Hviews.
  - intros img' w' Hdone. apply CreateImage_transition_Done in Hdone as [-> ->].
    split; assumption.
Qed.

(** C8. The transition the factory records goes from the undefined
    layout to the requested one, from the top of the pipe and no access,
    to: color-attachment output and color-attachment write for the
    color-attachment layout; transfer and transfer write for the
    transfer-destination layout; early and late fragment tests and
    depth-stencil-attachment write for the depth-stencil-attachment
    layout. It is the only transition recorded, and the factory then
    returns the image in that layout. For every other layout the process
    aborts and no transition is recorded. The factory is called with one
    or two layers; the driver is assumed to answer the creation calls
    with success, and the tag to be a string whenever the debug layer
    formats it into a label. *)
Theorem initial_layout_transition (debug_build : bool) (vulkan : VulkanContext)
    (cmd : Handle) (img : VKRImage) (width height numLayers : Z) (format : VkFormat)
    (initialLayout : VkImageLayout) (color : bool) (tag : option string) (w : World) :
  numLayers = 1 \/ numLayers = 2 ->
  driver_succeeds vulkan ->
  (tag = None -> vk_DebugLayerEnabled vulkan = false) ->
  let run := CreateImage debug_build vulkan cmd img width height numLayers format
               initialLayout color tag w in
  let image := reply_handle (vk_driver vulkan (native_calls w)) in
  let aspects :=
    if color then VK_IMAGE_ASPECT_COLOR_BIT
    else Z.lor VK_IMAGE_ASPECT_DEPTH_BIT VK_IMAGE_ASPECT_STENCIL_BIT in
  let transition dstStage dstAccessMask :=
    E_TransitionImageLayout2 cmd image 0 1 numLayers aspects
      VK_IMAGE_LAYOUT_UNDEFINED initialLayout
      VK_PIPELINE_STAGE_TOP_OF_PIPE_BIT dstStage 0 dstAccessMask in
  let returns_after e :=
    exists img' w' evs,
      run = Done img' w' /\ trace w' = trace w ++ evs /\
      recorded_transitions evs = [e] /\ img_layout img' = initialLayout in
  let aborts :=
    exists w' evs,
      run = Aborted w' /\ trace w' = trace w ++ evs /\ recorded_transitions evs = [] in
  match initialLayout with
  | VK_IMAGE_LAYOUT_COLOR_ATTACHMENT_OPTIMAL =>
    returns_after (transition VK_PIPELINE_STAGE_COLOR_ATTACHMENT_OUTPUT_BIT
                              VK_ACCESS_COLOR_ATTACHMENT_WRITE_BIT)
  | VK_IMAGE_LAYOUT_TRANSFER_DST_OPTIMAL =>
    returns_after (transition VK_PIPELINE_STAGE_TRANSFER_BIT VK_ACCESS_TRANSFER_WRITE_BIT)
  | VK_IMAGE_LAYOUT_DEPTH_STENCIL_ATTACHMENT_OPTIMAL =>
    returns_after (transition (Z.lor VK_PIPELINE_STAGE_EARLY_FRAGMENT_TESTS_BIT
                                     VK_PIPELINE_STAGE_LATE_FRAGMENT_TESTS_BIT)
                              VK_ACCESS_DEPTH_STENCIL_ATTACHMENT_WRITE_BIT)
  | _ => aborts
  end.
Proof.
  intros Hn Hok Htag run image aspects transition returns_after aborts.
  subst run image aspects transition returns_after aborts.
  destruct (CreateImage_views_run debug_build vulkan cmd img width height numLayers format
              initialLayout color tag w Hn Hok Htag)
    as (img1 & evs & Hrun & Himage & _ & _ & Hnone & _).
  rewrite Hrun. unfold CreateImage_transition, recorded_transitions in *.
  destruct initialLayout; cbn [initial_transition_masks];
    try (exists (extend w (Z.to_nat numLayers + 3) evs), evs;
         split; [reflexivity|]; split; [reflexivity | exact Hnone]);
    unfold TransitionImageLayout2; erewrite bind_run by apply emit_run;
    unfold ret; rewrite extend_extend, Himage;
    eexists _, _, _; (split; [reflexivity|]); (split; [reflexivity|]);
    rewrite List.filter_app, Hnone; split; reflexivity.
Qed.

(** ** Debug labels *)

Lemma UpdateTag_framebufs_run tag slots w :
  UpdateTag_framebufs tag slots w =
  Done tt (extend w 0
    (map (fun h => E_SetDebugName h VK_OBJECT_TYPE_FRAMEBUFFER (Some (snprintf128 ("fb_" +:+ tag))))
         (List.filter nonnull slots))).
Proof.
  revert w. induction slots as [|h rest IH]; intros w.
  - simpl. unfold ret. now rewrite extend_nil.
  - cbn [UpdateTag_framebufs]. unfold SetDebugName.
    erewrite bind_run by apply when_emit_run.
    rewrite IH, extend_extend, filter_cons_singleton, map_app, map_if_singleton.
    reflexivity.
Qed.

(** What [UpdateTag] does, whatever [newTag] is: it labels the color
    image and view, the depth image and view when there is a depth
    image, and the filled cache slots, all from the tag the framebuffer
    already has. It makes no creation call and leaves the object alone. *)
Lemma UpdateTag_run self newTag w :
  UpdateTag self newTag w =
  Done tt (extend w 0
    ([E_SetDebugName (img_image (color self)) VK_OBJECT_TYPE_IMAGE
        (Some (snprintf128 ("fb_color_" +:+ tag_ self)));
      E_SetDebugName (img_rtView (color self)) VK_OBJECT_TYPE_IMAGE_VIEW
        (Some (snprintf128 ("fb_color_" +:+ tag_ self)))] ++
     (if nonnull (img_image (depth self)) then
        [E_SetDebugName (img_image (depth self)) VK_OBJECT_TYPE_IMAGE
           (Some (snprintf128 ("fb_depth_" +:+ tag_ self)));
         E_SetDebugName (img_rtView (depth self)) VK_OBJECT_TYPE_IMAGE_VIEW
           (Some (snprintf128 ("fb_depth_" +:+ tag_ self)))]
      else []) ++
     map (fun h => E_SetDebugName h VK_OBJECT_TYPE_FRAMEBUFFER
                     (Some (snprintf128 ("fb_" +:+ tag_ self))))
         (List.filter nonnull (framebuf self)))).
Proof.
  unfold UpdateTag, SetDebugName, nonnull.
  step emit_run. step emit_run.
  step when_emit2_run.
  rewrite UpdateTag_framebufs_run, !extend_extend. reflexivity.
Qed.

Lemma UpdateTag_ignores_newTag self newTag newTag' :
  UpdateTag self newTag = UpdateTag self newTag'.
Proof. reflexivity. Qed.

Lemma example_fb_cached_reached :
  exists w,
    Get example_fb_depth (VKRRenderPass_new example_key) HAS_DEPTH (extend start 10 []) =
    Done (111, example_fb_cached, example_pass_cached) w.
Proof. eexists. vm_compute. reflexivity. Qed.

(** C1 (the code departs from the specification). On the framebuffer
    tagged "old", with a depth image and one framebuffer object in its
    cache, [UpdateTag] called with the new tag "new" labels the five
    objects "fb_color_old", "fb_depth_old" and "fb_old": the new tag
    appears in no label, and the stored tag is still "old". The
    specification asks for labels made from the new tag. *)
Theorem UpdateTag_labels_from_old_tag :
  UpdateTag example_fb_cached (Some "new") start =
  Done tt {| native_calls := 0;
             trace := [E_SetDebugName 100 VK_OBJECT_TYPE_IMAGE (Some "fb_color_old");
                       E_SetDebugName 101 VK_OBJECT_TYPE_IMAGE_VIEW (Some "fb_color_old");
                       E_SetDebugName 105 VK_OBJECT_TYPE_IMAGE (Some "fb_depth_old");
                       E_SetDebugName 106 VK_OBJECT_TYPE_IMAGE_VIEW (Some "fb_depth_old");
                       E_SetDebugName 111 VK_OBJECT_TYPE_FRAMEBUFFER (Some "fb_old")] |} /\
  tag_ example_fb_cached = "old".
Proof. split; vm_compute; reflexivity. Qed.

(** ** The theorems at concrete inputs *)

Lemma depth_type_on_depthless_framebuffer_witness :
  exists h self' rp' w' pre fbci r post,
    Get example_fb_nodepth (VKRRenderPass_new example_key) HAS_DEPTH (extend start 4 []) =
      Done (h, self', rp') w' /\
    trace w' = trace (extend start 4 []) ++
      E_WARN_LOG "depth render type to non-depth fb: %p %p fmt=%d (%s %dx%d)"
        [LogPtr 0; LogPtr 0; LogInt 0; LogStr "old"; LogInt 1920; LogInt 1080] ::
      pre ++ E_vkCreateFramebuffer 1 fbci r :: post /\
    framebuffer_requests pre = [] /\
    framebuffer_requests post = [] /\
    fbci_attachmentCount fbci = 2 /\
    fbci_pAttachments fbci = [101; VK_NULL_HANDLE] /\
    fbci_layers fbci = 1 /\
    reply_handle r = h /\
    h <> VK_NULL_HANDLE /\
    slot (framebuf self') HAS_DEPTH = Some h /\
    depth self' = depth example_fb_nodepth.
Proof.
  apply (depth_type_on_depthless_framebuffer example_fb_nodepth
           (VKRRenderPass_new example_key) HAS_DEPTH (extend start 4 [])).
  - unfold rp_valid, HAS_DEPTH, TYPE_COUNT, BACKBUFFER. lia.
  - reflexivity.
  - reflexivity.
  - reflexivity.
  - reflexivity.
  - intros n. reflexivity.
  - intros n _. simpl. unfold VK_NULL_HANDLE. lia.
Defined.

Lemma cached_handles_are_reused_witness :
  exists w1 w2,
    Get example_fb_depth (VKRRenderPass_new example_key) HAS_DEPTH (extend start 10 []) =
      Done (111, example_fb_cached, example_pass_cached) w1 /\
    Get example_fb_cached example_pass_cached HAS_DEPTH w1 =
      Done (111, example_fb_cached, example_pass_cached) w1 /\
    VKRRenderPass_Get (VKRRenderPass_new example_key) example_vulkan HAS_DEPTH
      (extend start 10 []) = Done (110, example_pass_cached) w2 /\
    VKRRenderPass_Get example_pass_cached example_vulkan HAS_DEPTH w2 =
      Done (110, example_pass_cached) w2 /\
    key_ example_pass_cached = key_ (VKRRenderPass_new example_key).
Proof.
  eexists _, _.
  split; [vm_compute; reflexivity|].
  split.
  - apply (proj1 cached_handles_are_reused example_fb_depth (VKRRenderPass_new example_key)
             HAS_DEPTH (extend start 10 [])).
    + intros n _. simpl. unfold VK_NULL_HANDLE. lia.
    + reflexivity.
  - split; [vm_compute; reflexivity|].
    apply (proj2 cached_handles_are_reused (VKRRenderPass_new example_key) example_vulkan
             example_vulkan HAS_DEPTH (extend start 10 [])).
    reflexivity.
Defined.

Lemma destroy_enqueues_each_owned_handle_once_witness :
  exists evs,
    VKRFramebuffer_destroy true example_fb_cached start = Done tt (extend start 0 evs) /\
    evs ≡ₚ map E_QueueDeleteImageView [101; 102; 103; 104; 106; 107; 108; 109] ++
           [E_QueueDeleteImageAllocation 100 500; E_QueueDeleteImageAllocation 105 505] ++
           [E_QueueDeleteFramebuffer 111] /\
    forallb is_queued_deletion evs = true /\
    (NoDup (owned_views example_fb_cached) -> NoDup (owned_images example_fb_cached) ->
     NoDup (owned_framebuffers example_fb_cached) -> NoDup evs).
Proof.
  apply (destroy_enqueues_each_owned_handle_once true example_fb_cached start).
  - repeat split; reflexivity.
  - intros _ H. discriminate H.
  - intros _ H. discriminate H.
Defined.

Lemma sampling_views_of_an_image_witness :
  (exists w' evs primary,
      final_world (CreateImage true example_vulkan 7 VKRImage_zero 1920 1080 2 129
                     VK_IMAGE_LAYOUT_DEPTH_STENCIL_ATTACHMENT_OPTIMAL false (Some "old") start)
        = Some w' /\
      trace w' = trace start ++ evs /\
      image_view_requests evs =
        [primary;
         image_view 100 129 VK_IMAGE_VIEW_TYPE_2D_ARRAY VK_IMAGE_ASPECT_DEPTH_BIT 0 2;
         image_view 100 129 VK_IMAGE_VIEW_TYPE_2D VK_IMAGE_ASPECT_DEPTH_BIT 0 1;
         image_view 100 129 VK_IMAGE_VIEW_TYPE_2D VK_IMAGE_ASPECT_DEPTH_BIT 1 1]) /\
  (forall img' w',
      CreateImage true example_vulkan 7 VKRImage_zero 1920 1080 2 129
        VK_IMAGE_LAYOUT_DEPTH_STENCIL_ATTACHMENT_OPTIMAL false (Some "old") start
        = Done img' w' ->
      img_texAllLayersView img' = 102 /\
      img_texLayerViews img' = [103; 104]).
Proof.
  apply (sampling_views_of_an_image true example_vulkan 7 VKRImage_zero 1920 1080 2 129
           VK_IMAGE_LAYOUT_DEPTH_STENCIL_ATTACHMENT_OPTIMAL false (Some "old") start).
  - right. reflexivity.
  - intros n. reflexivity.
  - intros H. discriminate H.
Defined.

Lemma initial_layout_transition_witness :
  exists img' w' evs,
    CreateImage true example_vulkan 7 VKRImage_zero 1920 1080 2 129
      VK_IMAGE_LAYOUT_DEPTH_STENCIL_ATTACHMENT_OPTIMAL false (Some "old") start
      = Done img' w' /\
    trace w' = trace start ++ evs /\
    recorded_transitions evs =
      [E_TransitionImageLayout2 7 100 0 1 2 6
         VK_IMAGE_LAYOUT_UNDEFINED VK_IMAGE_LAYOUT_DEPTH_STENCIL_ATTACHMENT_OPTIMAL
         1 768 0 1024] /\
    img_layout img' = VK_IMAGE_LAYOUT_DEPTH_STENCIL_ATTACHMENT_OPTIMAL.
Proof.
  apply (initial_layout_transition true example_vulkan 7 VKRImage_zero 1920 1080 2 129
           VK_IMAGE_LAYOUT_DEPTH_STENCIL_ATTACHMENT_OPTIMAL false (Some "old") start).
  - right. reflexivity.
  - intros n. reflexivity.
  - intros H. discriminate H.
Defined.

(* ================================================================= *)
(** * Further properties of the code *)

(** ** Render-pass construction: outcome, attachments, keys *)

(** X1. [CreateRenderPass] makes exactly one creation call. It returns
    exactly when the driver reports success and stores a non-null
    handle, and then returns that handle; in every other case the
    process aborts. It never returns [VK_NULL_HANDLE]. *)
Theorem CreateRenderPass_outcome (vulkan : VulkanContext) (key : RPKey)
    (rpType : RenderPassType) (w : World) :
  let r := vk_driver vulkan (native_calls w) in
  let w' := extend w 1 [E_vkCreateRenderPass (vk_device vulkan)
                          (RenderPassCreateInfo vulkan key rpType) r] in
  CreateRenderPass vulkan key rpType w =
    (if (reply_res r =? VK_SUCCESS) && negb (reply_handle r =? VK_NULL_HANDLE)
     then Done (reply_handle r) w' else Aborted w') /\
  (forall p w'', CreateRenderPass vulkan key rpType w = Done p w'' -> p <> VK_NULL_HANDLE).
Proof.
  intros r w'. split.
  - unfold CreateRenderPass, vkCreateRenderPass. step native_run.
    fold r. fold w'. unfold _assert_.
    destruct (reply_res r =? VK_SUCCESS); [|reflexivity].
    destruct (reply_handle r =? VK_NULL_HANDLE); reflexivity.
  - intros p w''. apply CreateRenderPass_Done.
Qed.


(** The color attachment of a render pass has one sample and takes
    its load and store operations from the key. For the backbuffer type
    it has the swapchain format and goes from the undefined layout to the
    present layout; for every other type it has the RGBA8 format and is
    in the color-attachment layout before and after. The depth/stencil
    attachment, when the type has depth, has the preferred depth/stencil
    format of the device, one sample, the depth operations of the key and
    the depth-stencil-attachment layout before and after. *)
Lemma render_pass_attachment_descriptions (vulkan : VulkanContext) (key : RPKey)
    (rpType : RenderPassType) :
  attachments (RenderPassCreateInfo vulkan key rpType) =
    {| att_flags := 0;
       att_format := if rpType =? BACKBUFFER then vk_swapchainFormat vulkan
                     else VK_FORMAT_R8G8B8A8_UNORM;
       att_samples := VK_SAMPLE_COUNT_1_BIT;
       att_loadOp := ConvertLoadAction (colorLoadAction key);
       att_storeOp := ConvertStoreAction (colorStoreAction key);
       att_stencilLoadOp := VK_ATTACHMENT_LOAD_OP_DONT_CARE;
       att_stencilStoreOp := VK_ATTACHMENT_STORE_OP_DONT_CARE;
       att_initialLayout := if rpType =? BACKBUFFER then VK_IMAGE_LAYOUT_UNDEFINED
                            else VK_IMAGE_LAYOUT_COLOR_ATTACHMENT_OPTIMAL;
       att_finalLayout := if rpType =? BACKBUFFER then VK_IMAGE_LAYOUT_PRESENT_SRC_KHR
                          else VK_IMAGE_LAYOUT_COLOR_ATTACHMENT_OPTIMAL |} ::
    (if RenderPassTypeHasDepth rpType then
       [{| att_flags := 0;
           att_format := vk_preferredDepthStencilFormat vulkan;
           att_samples := VK_SAMPLE_COUNT_1_BIT;
           att_loadOp := ConvertLoadAction (depthLoadAction key);
           att_storeOp := ConvertStoreAction (depthStoreAction key);
           att_stencilLoadOp := ConvertLoadAction (stencilLoadAction key);
           att_stencilStoreOp := ConvertStoreAction (stencilStoreAction key);
           att_initialLayout := VK_IMAGE_LAYOUT_DEPTH_STENCIL_ATTACHMENT_OPTIMAL;
           att_finalLayout := VK_IMAGE_LAYOUT_DEPTH_STENCIL_ATTACHMENT_OPTIMAL |}]
     else []).
Proof.
  unfold attachments, RenderPassCreateInfo.
  destruct (RenderPassTypeHasDepth rpType); reflexivity.
Qed.




(** X4. Render passes built for one type from two different keys are
    compatible: once the load and store operations of the attachments
    are blanked, the two descriptions are the same (formats, sample
    counts, layouts, subpass, dependencies and multiview data). *)
Theorem render_passes_of_a_type_are_compatible (vulkan : VulkanContext)
    (key key' : RPKey) (rpType : RenderPassType) :
  erase_pass_ops (RenderPassCreateInfo vulkan key rpType) =
  erase_pass_ops (RenderPassCreateInfo vulkan key' rpType).
Proof.
  unfold erase_pass_ops, with_attachments, RenderPassCreateInfo.
  destruct (RenderPassTypeHasDepth rpType); reflexivity.
Qed.

(** X5. Among the nine valid type tags, the three facet predicates tell
    the tags apart, with one exception: the backbuffer tag answers like
    the plain depth tag (depth, no input, no multiview). *)
Theorem valid_tags_by_their_facets (t1 t2 : RenderPassType) :
  rp_valid t1 -> rp_valid t2 ->
  RenderPassTypeHasDepth t1 = RenderPassTypeHasDepth t2 ->
  RenderPassTypeHasInput t1 = RenderPassTypeHasInput t2 ->
  RenderPassTypeHasMultiView t1 = RenderPassTypeHasMultiView t2 ->
  t1 = t2 \/
  (t1 = HAS_DEPTH /\ t2 = BACKBUFFER) \/
  (t1 = BACKBUFFER /\ t2 = HAS_DEPTH).
Proof.
  unfold rp_valid, TYPE_COUNT, BACKBUFFER, HAS_DEPTH. intros H1 H2.
  assert (E1 : t1 = 0 \/ t1 = 1 \/ t1 = 2 \/ t1 = 3 \/ t1 = 4 \/ t1 = 5 \/ t1 = 6 \/
               t1 = 7 \/ t1 = 8) by lia.
  assert (E2 : t2 = 0 \/ t2 = 1 \/ t2 = 2 \/ t2 = 3 \/ t2 = 4 \/ t2 = 5 \/ t2 = 6 \/
               t2 = 7 \/ t2 = 8) by lia.
  clear H1 H2.
  repeat (destruct E1 as [E1|E1]); repeat (destruct E2 as [E2|E2]); subst t1 t2;
    vm_compute; intros Hd Hi Hm; try discriminate; auto.
Qed.

(** ** The image factory, call by call *)

Lemma omap_cons_Some {A B} (f : A -> option B) x y l :
  f x = Some y -> omap f (x :: l) = y :: omap f l.
Proof. intros H. simpl. now rewrite H. Qed.

Lemma CreateImage_run (debug_build : bool) (vulkan : VulkanContext) (cmd : Handle)
    (img : VKRImage) (width height numLayers : Z) (format : VkFormat)
    (initialLayout : VkImageLayout) (color : bool) (tag : option string) (w : World)
    (dstAccessMask dstStage : Z) :
  numLayers = 1 \/ numLayers = 2 ->
  succeeds_except vulkan (2 + native_calls w) ->
  (tag = None -> vk_DebugLayerEnabled vulkan = false) ->
  initial_transition_masks initialLayout = Some (dstAccessMask, dstStage) ->
  let reply i := vk_driver vulkan (i + native_calls w) in
  let aspects :=
    if color then VK_IMAGE_ASPECT_COLOR_BIT
    else Z.lor VK_IMAGE_ASPECT_DEPTH_BIT VK_IMAGE_ASPECT_STENCIL_BIT in
  exists evs,
    CreateImage debug_build vulkan cmd img width height numLayers format initialLayout
      color tag w =
    Done {| img_image := reply_handle (reply 0%nat);
            img_rtView := reply_handle (reply 1%nat);
            img_texAllLayersView := reply_handle (reply 2%nat);
            img_texLayerViews :=
              stored_layer_views vulkan w (img_texLayerViews img) numLayers;
            img_alloc := reply_alloc (reply 0%nat);
            img_format := format;
            img_layout := initialLayout;
            img_numLayers := numLayers;
            img_tag := match tag with Some t => t | None => "N/A" end |}
         (extend w (Z.to_nat numLayers + 3) evs) /\
    image_requests evs =
      [({| ici_imageType := VK_IMAGE_TYPE_2D;
           ici_format := format;
           ici_extent := {| ext_width := to_u32 width; ext_height := to_u32 height;
                            ext_depth := 1 |};
           ici_mipLevels := 1;
           ici_arrayLayers := numLayers;
           ici_samples := VK_SAMPLE_COUNT_1_BIT;
           ici_tiling := VK_IMAGE_TILING_OPTIMAL;
           ici_usage := if color then 151 else 39;
           ici_initialLayout := VK_IMAGE_LAYOUT_UNDEFINED |},
        {| aci_usage := VMA_MEMORY_USAGE_GPU_ONLY |})] /\
    created_images evs = [(reply_handle (reply 0%nat), reply_alloc (reply 0%nat))] /\
    created_views evs =
      reply_handle (reply 1%nat) :: reply_handle (reply 2%nat) ::
      map (fun i => reply_handle (reply (3 + i)%nat)) (seq 0 (Z.to_nat numLayers)) /\
    render_pass_requests evs = [] /\
    framebuffer_requests evs = [] /\
    warnings evs = [] /\
    recorded_transitions evs =
      [E_TransitionImageLayout2 cmd (reply_handle (reply 0%nat)) 0 1 numLayers aspects
         VK_IMAGE_LAYOUT_UNDEFINED initialLayout
         VK_PIPELINE_STAGE_TOP_OF_PIPE_BIT dstStage 0 dstAccessMask].
Proof.
  intros Hn Hok Htag Hmasks reply aspects. subst reply aspects.
  assert (Hassert : forall n w0, n <> (2 + native_calls w)%nat ->
             _dbg_assert_ debug_build (reply_res (vk_driver vulkan n) =? VK_SUCCESS) w0
             = Done tt w0).
  { intros n w0 Hne. rewrite (Hok n Hne). destruct debug_build; reflexivity. }
  unfold CreateImage, vmaCreateImage, vkCreateImageView, SetDebugName. cbv zeta.
  erewrite bind_run
    by (destruct Hn as [-> | ->]; destruct debug_build; reflexivity).
  step native_run. erewrite bind_run by (apply Hassert; cbn; lia).
  step native_run. step emit_run. erewrite bind_run by (apply Hassert; cbn; lia).
  step native_run. step emit_run.
  unfold CreateImage_transition. rewrite Hmasks. unfold TransitionImageLayout2.
  destruct Hn as [-> | ->];
    [change (Z.to_nat 1) with 1%nat | change (Z.to_nat 2) with 2%nat];
    cbn [CreateImage_layers Nat.add];
    cbn [Z.leb Z.ltb Z.compare Pos.compare Pos.compare_cont andb Z.add Pos.add Pos.succ];
    unfold vkCreateImageView.
  - erewrite bind_run.
    2:{ step native_run. erewrite bind_run by (apply layer_label_run; exact Htag).
        erewrite bind_run by (apply Hassert; cbn; lia). reflexivity. }
    step emit_run. unfold ret.
    rewrite !extend_extend. eexists. split; [reflexivity|].
    destruct color, tag, (vk_DebugLayerEnabled vulkan); repeat split; reflexivity.
  - erewrite bind_run.
    2:{ step native_run. erewrite bind_run by (apply layer_label_run; exact Htag).
        erewrite bind_run by (apply Hassert; cbn; lia).
        change (0 + 1) with 1. cbn [Z.leb Z.ltb Z.compare Pos.compare Pos.compare_cont andb].
        step native_run. erewrite bind_run by (apply layer_label_run; exact Htag).
        erewrite bind_run by (apply Hassert; cbn; lia). reflexivity. }
    step emit_run. unfold ret.
    rewrite !extend_extend. eexists. split; [reflexivity|].
    destruct color, tag, (vk_DebugLayerEnabled vulkan); repeat split; reflexivity.
Qed.

Lemma supported_layout_masks initialLayout :
  supported_initial_layout initialLayout ->
  exists dstAccessMask dstStage,
    initial_transition_masks initialLayout = Some (dstAccessMask, dstStage).
Proof. intros [-> | [-> | ->]]; eexists _, _; reflexivity. Qed.

Lemma stored_layer_views_length vulkan w views numLayers :
  length (stored_layer_views vulkan w views numLayers) = length views.
Proof.
  unfold stored_layer_views. generalize (seq 0 (Z.to_nat numLayers)). intros l.
  revert views. induction l as [|i l IH]; intros views; simpl; [reflexivity|].
  now rewrite IH, length_insert.
Qed.

(** X6. The image the factory asks the allocator for is a 2D image with
    one mip level, one sample, optimal tiling, the requested format and
    size, as many array layers as requested, in device-local memory. It
    can always be sampled and be the source and the destination of a
    transfer; a color image can moreover be a color attachment and an
    input attachment but not a depth/stencil attachment, and a
    depth/stencil image the reverse. It is the only image requested. *)
Theorem image_request_of_the_factory (debug_build : bool) (vulkan : VulkanContext)
    (cmd : Handle) (img : VKRImage) (width height numLayers : Z) (format : VkFormat)
    (initialLayout : VkImageLayout) (color : bool) (tag : option string) (w : World) :
  numLayers = 1 \/ numLayers = 2 ->
  driver_succeeds vulkan ->
  (tag = None -> vk_DebugLayerEnabled vulkan = false) ->
  supported_initial_layout initialLayout ->
  exists img' w' evs ici,
    CreateImage debug_build vulkan cmd img width height numLayers format initialLayout
      color tag w = Done img' w' /\
    trace w' = trace w ++ evs /\
    image_requests evs = [(ici, {| aci_usage := VMA_MEMORY_USAGE_GPU_ONLY |})] /\
    ici_imageType ici = VK_IMAGE_TYPE_2D /\
    ici_format ici = format /\
    ici_extent ici = {| ext_width := to_u32 width; ext_height := to_u32 height;
                        ext_depth := 1 |} /\
    ici_mipLevels ici = 1 /\
    ici_arrayLayers ici = numLayers /\
    ici_samples ici = VK_SAMPLE_COUNT_1_BIT /\
    ici_tiling ici = VK_IMAGE_TILING_OPTIMAL /\
    ici_initialLayout ici = VK_IMAGE_LAYOUT_UNDEFINED /\
    has_flag (ici_usage ici) VK_IMAGE_USAGE_SAMPLED_BIT = true /\
    has_flag (ici_usage ici) VK_IMAGE_USAGE_TRANSFER_SRC_BIT = true /\
    has_flag (ici_usage ici) VK_IMAGE_USAGE_TRANSFER_DST_BIT = true /\
    has_flag (ici_usage ici) VK_IMAGE_USAGE_COLOR_ATTACHMENT_BIT = color /\
    has_flag (ici_usage ici) VK_IMAGE_USAGE_INPUT_ATTACHMENT_BIT = color /\
    has_flag (ici_usage ici) VK_IMAGE_USAGE_DEPTH_STENCIL_ATTACHMENT_BIT = negb color.
Proof.
  intros Hn Hok Htag Hlayout.
  destruct (supported_layout_masks _ Hlayout) as (dstAccessMask & dstStage & Hmasks).
  destruct (CreateImage_run debug_build vulkan cmd img width height numLayers format
              initialLayout color tag w dstAccessMask dstStage Hn
              (fun n _ => Hok n) Htag Hmasks)
    as (evs & Hrun & Hreq & _).
  eexists _, _, evs, _. split; [exact Hrun|]. split; [reflexivity|].
  split; [exact Hreq|]. destruct color; repeat split; reflexivity.
Qed.

(** X7. With one or two layers and a supported initial layout, the
    factory returns provided every creation call succeeds, where the
    call that creates the all-layers view need not: its result is never
    checked, in a debug build or otherwise. The image it returns holds
    the image and the allocation the allocator answered, the three kinds
    of views in creation order, the requested format, layout and layer
    count, and the tag, or "N/A" when the tag is null. It has made one
    creation call for the image and one per view. *)
Theorem CreateImage_returns (debug_build : bool) (vulkan : VulkanContext)
    (cmd : Handle) (img : VKRImage) (width height numLayers : Z) (format : VkFormat)
    (initialLayout : VkImageLayout) (color : bool) (tag : option string) (w : World) :
  numLayers = 1 \/ numLayers = 2 ->
  succeeds_except vulkan (2 + native_calls w) ->
  (tag = None -> vk_DebugLayerEnabled vulkan = false) ->
  supported_initial_layout initialLayout ->
  let reply i := vk_driver vulkan (i + native_calls w) in
  exists img' w',
    CreateImage debug_build vulkan cmd img width height numLayers format initialLayout
      color tag w = Done img' w' /\
    native_calls w' = (Z.to_nat numLayers + 3 + native_calls w)%nat /\
    img_image img' = reply_handle (reply 0%nat) /\
    img_alloc img' = reply_alloc (reply 0%nat) /\
    img_rtView img' = reply_handle (reply 1%nat) /\
    img_texAllLayersView img' = reply_handle (reply 2%nat) /\
    (forall i, (i < Z.to_nat numLayers)%nat -> image_wf img ->
               img_texLayerViews img' !! i = Some (reply_handle (reply (3 + i)%nat))) /\
    (image_wf img -> image_wf img') /\
    img_format img' = format /\
    img_layout img' = initialLayout /\
    img_numLayers img' = numLayers /\
    img_tag img' = match tag with Some t => t | None => "N/A" end.
Proof.
  intros Hn Hok Htag Hlayout reply.
  destruct (supported_layout_masks _ Hlayout) as (dstAccessMask & dstStage & Hmasks).
  destruct (CreateImage_run debug_build vulkan cmd img width height numLayers format
              initialLayout color tag w dstAccessMask dstStage Hn Hok Htag Hmasks)
    as (evs & Hrun & _).
  eexists _, _. split; [exact Hrun|]. cbn [native_calls extend img_image img_alloc
    img_rtView img_texAllLayersView img_texLayerViews img_format img_layout
    img_numLayers img_tag].
  split; [lia|]. do 4 (split; [reflexivity|]).
  split; [|split; [|repeat split; reflexivity]].
  - intros i Hi Hwf. unfold image_wf in Hwf. unfold stored_layer_views, reply.
    destruct (img_texLayerViews img) as [|v0 [|v1 [|? ?]]]; try discriminate.
    destruct Hn as [-> | ->].
    + change (Z.to_nat 1) with 1%nat in *. destruct i as [|i]; [reflexivity | lia].
    + change (Z.to_nat 2) with 2%nat in *.
      destruct i as [|[|i]]; [reflexivity | reflexivity | lia].
  - unfold image_wf. cbn [img_texLayerViews]. now rewrite stored_layer_views_length.
Qed.

Lemma bind_abort {A B} (m : M A) (k : A -> M B) w w' :
  m w = Aborted w' -> bind m k w = Aborted w'.
Proof. unfold bind. now intros ->. Qed.

Lemma bind_undefined {A B} (m : M A) (k : A -> M B) w :
  m w = Undefined -> bind m k w = Undefined.
Proof. unfold bind. now intros ->. Qed.

Lemma dbg_assert_ok debug_build res w :
  res = VK_SUCCESS -> _dbg_assert_ debug_build (res =? VK_SUCCESS) w = Done tt w.
Proof. intros ->. destruct debug_build; reflexivity. Qed.

Lemma dbg_assert_fails res w :
  res <> VK_SUCCESS -> _dbg_assert_ true (res =? VK_SUCCESS) w = Aborted w.
Proof. intros H. apply Z.eqb_neq in H. unfold _dbg_assert_, _assert_. now rewrite H. Qed.

(** X8. In a debug build the factory aborts right after the first
    creation call that fails, the all-layers view apart: nothing more is
    requested from the driver, and no layout transition is recorded. *)
Theorem debug_build_aborts_at_failed_call (vulkan : VulkanContext)
    (cmd : Handle) (img : VKRImage) (width height numLayers : Z) (format : VkFormat)
    (initialLayout : VkImageLayout) (color : bool) (tag : option string) (w : World)
    (k : nat) :
  numLayers = 1 \/ numLayers = 2 ->
  (tag = None -> vk_DebugLayerEnabled vulkan = false) ->
  (k < Z.to_nat numLayers + 3)%nat ->
  k <> 2%nat ->
  reply_res (vk_driver vulkan (k + native_calls w)) <> VK_SUCCESS ->
  (forall j, (j < k)%nat -> j <> 2%nat ->
             reply_res (vk_driver vulkan (j + native_calls w)) = VK_SUCCESS) ->
  exists evs,
    CreateImage true vulkan cmd img width height numLayers format initialLayout
      color tag w = Aborted (extend w (S k) evs) /\
    length (image_requests evs) = 1%nat /\
    length (created_views evs) = k /\
    recorded_transitions evs = [].
Proof.
  intros Hn Htag Hk Hk2 Hfail Hprev.
  unfold CreateImage, vmaCreateImage, vkCreateImageView, SetDebugName. cbv zeta.
  erewrite bind_run by (destruct Hn as [-> | ->]; reflexivity).
  step native_run.
  destruct k as [|k].
  { erewrite bind_abort by (apply dbg_assert_fails; exact Hfail).
    eexists. split; [reflexivity|]. repeat split; reflexivity. }
  erewrite bind_run by (apply dbg_assert_ok; apply (Hprev 0%nat); lia).
  step native_run. step emit_run.
  destruct k as [|k].
  { erewrite bind_abort by (apply dbg_assert_fails; exact Hfail).
    rewrite !extend_extend. eexists. split; [reflexivity|]. repeat split; reflexivity. }
  erewrite bind_run by (apply dbg_assert_ok; apply (Hprev 1%nat); lia).
  step native_run. step emit_run.
  destruct k as [|k]; [congruence|].
  destruct Hn as [-> | ->];
    [change (Z.to_nat 1) with 1%nat in * | change (Z.to_nat 2) with 2%nat in *];
    cbn [CreateImage_layers Nat.add];
    cbn [Z.leb Z.ltb Z.compare Pos.compare Pos.compare_cont andb Z.add Pos.add Pos.succ];
    unfold vkCreateImageView.
  - destruct k as [|k]; [|lia].
    erewrite bind_abort.
    2:{ step native_run. erewrite bind_run by (apply layer_label_run; exact Htag).
        erewrite bind_abort by (apply dbg_assert_fails; exact Hfail). reflexivity. }
    rewrite !extend_extend. eexists. split; [reflexivity|].
    destruct tag, (vk_DebugLayerEnabled vulkan); repeat split; reflexivity.
  - destruct k as [|[|k]]; [| |lia].
    + erewrite bind_abort.
      2:{ step native_run. erewrite bind_run by (apply layer_label_run; exact Htag).
          erewrite bind_abort by (apply dbg_assert_fails; exact Hfail). reflexivity. }
      rewrite !extend_extend. eexists. split; [reflexivity|].
      destruct tag, (vk_DebugLayerEnabled vulkan); repeat split; reflexivity.
    + erewrite bind_abort.
      2:{ step native_run. erewrite bind_run by (apply layer_label_run; exact Htag).
          erewrite bind_run by (apply dbg_assert_ok; apply (Hprev 3%nat); lia).
          change (0 + 1) with 1.
          cbn [Z.leb Z.ltb Z.compare Pos.compare Pos.compare_cont andb].
          step native_run. erewrite bind_run by (apply layer_label_run; exact Htag).
          erewrite bind_abort by (apply dbg_assert_fails; exact Hfail). reflexivity. }
      rewrite !extend_extend. eexists. split; [reflexivity|].
      destruct tag, (vk_DebugLayerEnabled vulkan); repeat split; reflexivity.
Qed.

Lemma CreateImage_layers_overflow vulkan tag n i ivci img w :
  0 <= i <= 2 -> 2 < i + Z.of_nat n ->
  CreateImage_layers false vulkan tag n i ivci img w = Undefined.
Proof.
  revert i ivci img w. induction n as [|n IH]; intros i ivci img w Hi Hover; [lia|].
  cbn [CreateImage_layers].
  destruct (Z.ltb_spec i 2) as [Hlt|Hge].
  - replace (0 <=? i) with true by (symmetry; apply Z.leb_le; lia). cbn [andb].
    unfold vkCreateImageView. step native_run.
    destruct (vk_DebugLayerEnabled vulkan), tag as [t|]; cbn [when];
      try (apply bind_undefined; reflexivity).
    + unfold SetDebugName. step emit_run.
      erewrite bind_run by reflexivity. apply IH; lia.
    + erewrite bind_run by reflexivity.
      erewrite bind_run by reflexivity. apply IH; lia.
    + erewrite bind_run by reflexivity.
      erewrite bind_run by reflexivity. apply IH; lia.
  - rewrite andb_false_r. reflexivity.
Qed.

(** X9. The factory handles one or two layers only. With any other
    layer count a debug build aborts before anything is requested from
    the driver; with more than two layers a build without debug
    assertions runs past the end of the two-slot array of per-layer
    views, which has no defined behaviour. *)
Theorem layer_count_guard (vulkan : VulkanContext)
    (cmd : Handle) (img : VKRImage) (width height numLayers : Z) (format : VkFormat)
    (initialLayout : VkImageLayout) (color : bool) (tag : option string) (w : World) :
  (numLayers <> 1 -> numLayers <> 2 ->
   CreateImage true vulkan cmd img width height numLayers format initialLayout
     color tag w = Aborted w) /\
  (2 < numLayers ->
   CreateImage false vulkan cmd img width height numLayers format initialLayout
     color tag w = Undefined).
Proof.
  split.
  - intros H1 H2. unfold CreateImage.
    apply bind_abort. unfold _dbg_assert_, _assert_.
    apply Z.eqb_neq in H1, H2. now rewrite H1, H2.
  - intros Hn. unfold CreateImage, vmaCreateImage, vkCreateImageView, SetDebugName.
    cbv zeta.
    erewrite bind_run by reflexivity. step native_run.
    erewrite bind_run by reflexivity. step native_run. step emit_run.
    erewrite bind_run by reflexivity. step native_run. step emit_run.
    apply bind_undefined. apply CreateImage_layers_overflow; lia.
Qed.

(** ** The caches: what a request changes and what it leaves *)

Lemma slot_insert_ne arr rpType rpType' h x :
  slot arr rpType = Some h -> rpType' <> rpType ->
  slot (<[Z.to_nat rpType := x]> arr) rpType' = slot arr rpType'.
Proof.
  intros Hs Hne. unfold slot in *. rewrite length_insert.
  destruct (0 <=? rpType) eqn:H0; [|discriminate].
  destruct ((0 <=? rpType') && (rpType' <? Z.of_nat (length arr))) eqn:Hb; [|reflexivity].
  apply andb_true_iff in Hb as [Hb _]. apply Z.leb_le in H0, Hb.
  apply list_lookup_insert_ne. lia.
Qed.

Lemma slot_insert_keeps arr rpType rpType' x q :
  slot arr rpType = Some VK_NULL_HANDLE ->
  slot arr rpType' = Some q -> q <> VK_NULL_HANDLE ->
  slot (<[Z.to_nat rpType := x]> arr) rpType' = Some q.
Proof.
  intros Hs Hq Hne.
  destruct (Z.eq_dec rpType' rpType) as [->|Hd]; [congruence|].
  now rewrite (slot_insert_ne _ _ _ _ _ Hs Hd).
Qed.

(** The two ways [VKRRenderPass_Get] returns. *)
Lemma VKRRenderPass_Get_inv cache vulkan rpType w p cache' w' :
  VKRRenderPass_Get cache vulkan rpType w = Done (p, cache') w' ->
  (slot (pass cache) rpType = Some p /\ p <> VK_NULL_HANDLE /\ cache' = cache /\ w' = w) \/
  (slot (pass cache) rpType = Some VK_NULL_HANDLE /\ p <> VK_NULL_HANDLE /\
   p = reply_handle (vk_driver vulkan (native_calls w)) /\
   cache' = {| pass := <[Z.to_nat rpType := p]> (pass cache); key_ := key_ cache |} /\
   w' = extend w 1 [E_vkCreateRenderPass (vk_device vulkan)
                      (RenderPassCreateInfo vulkan (key_ cache) rpType)
                      (vk_driver vulkan (native_calls w))]).
Proof.
  unfold VKRRenderPass_Get.
  destruct (slot (pass cache) rpType) as [cached|] eqn:Hslot; [|discriminate].
  destruct (is_null cached) eqn:Hnull.
  - intros H. right. apply Z.eqb_eq in Hnull. subst cached.
    apply bind_Done in H as (created & w1 & Hc & H).
    unfold ret in H. injection H as <- <- <-.
    pose proof (CreateRenderPass_Done _ _ _ _ _ _ Hc) as Hnn.
    unfold CreateRenderPass, vkCreateRenderPass in Hc.
    erewrite bind_run in Hc by apply native_run.
    apply bind_Done in Hc as (? & w2 & Ha & Hc). apply assert_Done in Ha as [_ ->].
    apply bind_Done in Hc as (? & w3 & Hb & Hc). apply assert_Done in Hb as [_ ->].
    unfold ret in Hc. injection Hc as <- <-.
    repeat split; try reflexivity; assumption.
  - unfold ret. intros [= <- <- <-]. left.
    apply Z.eqb_neq in Hnull. repeat split; assumption.
Qed.

(** X10. A request to the render-pass cache that returns gives a
    non-null handle that is now in the slot of the requested type. It
    leaves the key and every other slot as they were and never replaces
    a handle that was already there. When the slot was filled nothing at
    all happens; when it was empty exactly one render pass is created,
    from the key of the cache. *)
Theorem VKRRenderPass_Get_fills_one_slot (cache : VKRRenderPass) (vulkan : VulkanContext)
    (rpType : RenderPassType) (w : World) (p : Handle) (cache' : VKRRenderPass)
    (w' : World) :
  VKRRenderPass_Get cache vulkan rpType w = Done (p, cache') w' ->
  p <> VK_NULL_HANDLE /\
  slot (pass cache') rpType = Some p /\
  key_ cache' = key_ cache /\
  length (pass cache') = length (pass cache) /\
  (forall rpType', rpType' <> rpType ->
                   slot (pass cache') rpType' = slot (pass cache) rpType') /\
  (forall rpType' q, slot (pass cache) rpType' = Some q -> q <> VK_NULL_HANDLE ->
                     slot (pass cache') rpType' = Some q) /\
  exists evs,
    w' = extend w (length evs) evs /\
    render_pass_requests evs =
      (if decide (slot (pass cache) rpType = Some VK_NULL_HANDLE)
       then [RenderPassCreateInfo vulkan (key_ cache) rpType] else []) /\
    length evs = length (render_pass_requests evs).
Proof.
  intros H. apply VKRRenderPass_Get_inv in H
    as [(Hs & Hp & -> & ->) | (Hs & Hp & Hreply & -> & ->)].
  - do 5 (split; [solve [assumption | reflexivity | tauto]|]).
    split; [tauto|].
    exists []. rewrite extend_nil. split; [reflexivity|].
    destruct (decide _) as [Heq|_]; [congruence|]. split; reflexivity.
  - cbn [pass key_]. split; [assumption|].
    split; [eapply slot_insert; eassumption|]. split; [reflexivity|].
    split; [apply length_insert|].
    split; [intros T' Hne; eapply slot_insert_ne; eassumption|].
    split; [intros T' q Hq Hne; eapply slot_insert_keeps; eassumption|].
    eexists [_]. split; [reflexivity|].
    destruct (decide _) as [_|Hne]; [|congruence]. split; reflexivity.
Qed.

(** The two ways [Get] returns. *)
Lemma Get_inv self rp rpType w h self' rp' w' :
  Get self rp rpType w = Done (h, self', rp') w' ->
  (slot (framebuf self) rpType = Some h /\ h <> VK_NULL_HANDLE /\
   self' = self /\ rp' = rp /\ w' = w) \/
  (slot (framebuf self) rpType = Some VK_NULL_HANDLE /\
   self' = set_framebuf self (<[Z.to_nat rpType := h]> (framebuf self)) /\
   exists w0 p w1 r evs,
     VKRRenderPass_Get rp (vulkan_ self) rpType w0 = Done (p, rp') w1 /\
     native_calls w0 = native_calls w /\
     r = vk_driver (vulkan_ self) (native_calls w1) /\
     reply_res r = VK_SUCCESS /\ reply_handle r = h /\
     w' = extend w1 1 evs).
Proof.
  unfold Get.
  destruct (slot (framebuf self) rpType) as [cached|] eqn:Hslot; [|discriminate].
  destruct (is_null cached) eqn:Hnull; simpl.
  - intros H. right. apply Z.eqb_eq in Hnull. subst cached.
    apply bind_Done in H as (? & w0 & Hwarn & H).
    apply bind_Done in H as ([renderPass rp1] & w1 & Hrp & H).
    unfold vkCreateFramebuffer in H. erewrite bind_run in H by apply native_run.
    apply bind_Done in H as (? & w4 & Hok & H).
    apply assert_Done in Hok as [Hok ->]. apply Z.eqb_eq in Hok.
    unfold SetDebugName in H. erewrite bind_run in H by apply when_emit_run.
    unfold ret in H. injection H as <- <- <- <-.
    split; [reflexivity|]. split; [reflexivity|].
    exists w0, renderPass, w1. eexists _, _.
    split; [exact Hrp|]. split.
    { unfold WARN_LOG in Hwarn. rewrite when_emit_run in Hwarn.
      injection Hwarn as _ <-. reflexivity. }
    split; [reflexivity|]. split; [exact Hok|]. split; [reflexivity|].
    rewrite extend_extend. reflexivity.
  - unfold ret. intros [= <- <- <- <-]. left.
    apply Z.eqb_neq in Hnull. repeat split; assumption.
Qed.

(** X11. A request to a framebuffer that returns changes nothing of the
    framebuffer but the cache slot of the requested type: the context,
    the size, the images and the tag are the same, the other slots are
    the same, and a slot that was filled keeps its handle, so that a
    framebuffer object once built is never rebuilt. The sizes of both
    caches and the key of the pass cache are preserved. *)
Theorem Get_changes_one_slot (self : VKRFramebuffer) (rp : VKRRenderPass)
    (rpType : RenderPassType) (w : World) (h : Handle) (self' : VKRFramebuffer)
    (rp' : VKRRenderPass) (w' : World) :
  Get self rp rpType w = Done (h, self', rp') w' ->
  vulkan_ self' = vulkan_ self /\
  (width self', height self', numLayers self') = (width self, height self, numLayers self) /\
  color self' = color self /\
  depth self' = depth self /\
  tag_ self' = tag_ self /\
  (framebuffer_wf self -> framebuffer_wf self') /\
  (render_pass_wf rp -> render_pass_wf rp') /\
  key_ rp' = key_ rp /\
  (forall rpType', rpType' <> rpType ->
     slot (framebuf self') rpType' = slot (framebuf self) rpType' /\
     slot (pass rp') rpType' = slot (pass rp) rpType') /\
  (forall rpType' q, slot (framebuf self) rpType' = Some q -> q <> VK_NULL_HANDLE ->
                     slot (framebuf self') rpType' = Some q).
Proof.
  intros H. apply Get_inv in H
    as [(Hs & Hh & -> & -> & ->) | (Hs & -> & w0 & p & w1 & r & evs & Hrp & _)].
  - repeat split;
      solve [auto | intros; split; reflexivity | unfold framebuffer_wf in *; tauto].
  - apply VKRRenderPass_Get_inv in Hrp
      as [(Hp & _ & -> & _) | (Hp & _ & _ & -> & _)]; cbn [set_framebuf vulkan_ width
        height numLayers color depth tag_ framebuf pass key_];
      repeat split; try reflexivity; try tauto;
      try (cbn [set_framebuf framebuf color depth]; rewrite ?length_insert;
           unfold framebuffer_wf in *; tauto);
      try (unfold render_pass_wf; cbn [pass]; rewrite length_insert; tauto);
      try (eapply slot_insert_ne; eassumption);
      try (intros; eapply slot_insert_keeps; eassumption).
Qed.

(** X12. A handle that [Get] has returned for a type stays the answer
    for that type after a request for any type, in any world: the later
    request returns the same handle and changes nothing. The driver is
    assumed to store a non-null handle when it reports success. *)
Theorem handle_survives_other_requests (self : VKRFramebuffer) (rp : VKRRenderPass)
    (rpType rpType' : RenderPassType) (w w' w'' : World) (h h' : Handle)
    (self1 self2 : VKRFramebuffer) (rp1 rp2 : VKRRenderPass) (w1 w2 : World) :
  driver_conformant (vulkan_ self) ->
  Get self rp rpType w = Done (h, self1, rp1) w1 ->
  Get self1 rp1 rpType' w' = Done (h', self2, rp2) w2 ->
  Get self2 rp2 rpType w'' = Done (h, self2, rp2) w''.
Proof.
  intros Hconf H1 H2.
  apply Get_Done in H1 as [Hs Hh]; [|assumption].
  apply Get_hit; [|assumption].
  apply Get_inv in H2 as [(_ & _ & -> & _) | (Hs' & -> & _)]; [assumption|].
  cbn [set_framebuf framebuf]. eapply slot_insert_keeps; eassumption.
Qed.

Lemma VKRRenderPass_Get_run cache vulkan rpType w :
  driver_succeeds vulkan -> driver_conformant vulkan ->
  render_pass_wf cache -> rp_valid rpType ->
  exists q,
    slot (pass cache) rpType = Some q /\
    VKRRenderPass_Get cache vulkan rpType w =
      if is_null q then
        Done (reply_handle (vk_driver vulkan (native_calls w)),
              {| pass := <[Z.to_nat rpType := reply_handle (vk_driver vulkan (native_calls w))]>
                           (pass cache);
                 key_ := key_ cache |})
             (extend w 1 [E_vkCreateRenderPass (vk_device vulkan)
                            (RenderPassCreateInfo vulkan (key_ cache) rpType)
                            (vk_driver vulkan (native_calls w))])
      else Done (q, cache) w.
Proof.
  intros Hok Hconf Hwf Hv.
  destruct (slot_valid _ _ Hwf Hv) as [q Hslot]. exists q. split; [assumption|].
  unfold VKRRenderPass_Get. rewrite Hslot.
  destruct (is_null q); [|reflexivity].
  specialize (Hok (native_calls w)). specialize (Hconf (native_calls w) Hok).
  apply Z.eqb_neq in Hconf.
  unfold CreateRenderPass, vkCreateRenderPass, bind, native, _assert_.
  rewrite Hok, Hconf. reflexivity.
Qed.

(** X13. The first request of a valid type on a framebuffer (its cache
    slot is empty), with a driver that answers success: the warning
    about a missing depth buffer is logged exactly when the type has
    depth and the framebuffer has no depth view; a render pass is
    created exactly when the pass cache had none for the type, from the
    key of the cache; then one framebuffer object is created, against
    the pass the cache now holds for this very type, with as many
    attachments as that pass declares, the color view first and the
    depth view second, the stored width and height and one layer. The
    handle the driver answers to that request, its reply to the call
    that follows the render-pass creation if there was one, is the
    handle returned and stored. The request is the last creation call
    of the run; nothing is labelled before it, and after it the only
    event is the debug-name call, made when the tag is not empty and
    debug names are available: it labels that very handle, as an object
    of type framebuffer, with "fb_" followed by the tag. *)
Theorem Get_first_request (self : VKRFramebuffer) (rp : VKRRenderPass)
    (rpType : RenderPassType) (w : World) :
  rp_valid rpType ->
  slot (framebuf self) rpType = Some VK_NULL_HANDLE ->
  render_pass_wf rp ->
  driver_succeeds (vulkan_ self) ->
  driver_conformant (vulkan_ self) ->
  exists h self' rp' w' evs fbci q pre r,
    Get self rp rpType w = Done (h, self', rp') w' /\
    trace w' = trace w ++ evs /\
    length (warnings evs) =
      (if RenderPassTypeHasDepth rpType && is_null (img_rtView (depth self))
       then 1 else 0)%nat /\
    slot (pass rp) rpType = Some q /\
    render_pass_requests evs =
      (if is_null q then [RenderPassCreateInfo (vulkan_ self) (key_ rp) rpType] else []) /\
    framebuffer_requests evs = [fbci] /\
    slot (pass rp') rpType = Some (fbci_renderPass fbci) /\
    fbci_attachmentCount fbci =
      rp_attachmentCount (RenderPassCreateInfo (vulkan_ self) (key_ rp) rpType) /\
    fbci_pAttachments fbci =
      [img_rtView (color self);
       if RenderPassTypeHasDepth rpType then img_rtView (depth self) else VK_NULL_HANDLE] /\
    fbci_width fbci = to_u32 (width self) /\
    fbci_height fbci = to_u32 (height self) /\
    fbci_layers fbci = 1 /\
    h <> VK_NULL_HANDLE /\
    slot (framebuf self') rpType = Some h /\
    debug_names evs =
      (if negb (String.eqb (tag_ self) "") && vk_EXT_debug_utils (vulkan_ self)
       then ["fb_" +:+ tag_ self] else []) /\
    evs = pre ++
          [E_vkCreateFramebuffer (vk_device (vulkan_ self)) fbci r] ++
          (if negb (String.eqb (tag_ self) "") && vk_EXT_debug_utils (vulkan_ self)
           then [E_SetDebugName h VK_OBJECT_TYPE_FRAMEBUFFER (Some ("fb_" +:+ tag_ self))]
           else []) /\
    debug_name_calls pre = [] /\
    framebuffer_requests pre = [] /\
    r = vk_driver (vulkan_ self)
          ((if is_null q then 1 else 0) + native_calls w)%nat /\
    reply_res r = VK_SUCCESS /\
    reply_handle r = h /\
    framebuffer_replies evs = [r] /\
    debug_name_calls evs =
      (if negb (String.eqb (tag_ self) "") && vk_EXT_debug_utils (vulkan_ self)
       then [(h, VK_OBJECT_TYPE_FRAMEBUFFER, Some ("fb_" +:+ tag_ self))] else []).
Proof.
  intros Hv Hslot Hwf Hok Hconf.
  set (warn := if RenderPassTypeHasDepth rpType && is_null (img_rtView (depth self))
               then [E_WARN_LOG "depth render type to non-depth fb: %p %p fmt=%d (%s %dx%d)"
                 [LogPtr (img_image (depth self)); LogPtr (img_texAllLayersView (depth self));
                  LogInt (img_format (depth self)); LogStr (tag_ self);
                  LogInt (width self); LogInt (height self)]] else []).
  destruct (VKRRenderPass_Get_run rp (vulkan_ self) rpType (extend w 0 warn)
              Hok Hconf Hwf Hv) as (q & Hq & Hrp).
  unfold Get. rewrite Hslot. cbn [is_null negb Z.eqb VK_NULL_HANDLE]. cbv zeta.
  unfold WARN_LOG. erewrite bind_run by apply when_emit_run. fold warn.
  destruct (is_null q) eqn:Hnull; erewrite bind_run by exact Hrp; clear Hrp.
  - unfold vkCreateFramebuffer. step native_run.
    cbn [native_calls extend reply_res]. rewrite Hok.
    erewrite bind_run by reflexivity.
    unfold SetDebugName. erewrite bind_run by apply when_emit_run.
    unfold ret. rewrite !extend_extend.
    eexists _, _, _, _, _, _, q,
      (warn ++ [E_vkCreateRenderPass (vk_device (vulkan_ self))
                  (RenderPassCreateInfo (vulkan_ self) (key_ rp) rpType)
                  (vk_driver (vulkan_ self) (native_calls w))]), _.
    rewrite ?Hnull. split; [reflexivity|].
    split; [reflexivity|].
    cbn [set_framebuf tag_ vulkan_ framebuf pass].
    split; [subst warn; destruct (_ && is_null _), (negb _ && _); reflexivity|].
    split; [assumption|].
    split; [subst warn; destruct (_ && is_null _), (negb _ && _); reflexivity|].
    split; [subst warn; destruct (_ && is_null _), (negb _ && _); reflexivity|].
    split; [cbn [fbci_renderPass]; eapply slot_insert; eassumption|].
    split; [unfold RenderPassCreateInfo; reflexivity|].
    do 4 (split; [reflexivity|]).
    split; [apply Hconf, Hok|].
    split; [eapply slot_insert; eassumption|].
    split; [subst warn; destruct (_ && is_null _), (negb _ && _); reflexivity|].
    split; [rewrite <- ?app_assoc; reflexivity|].
    split; [subst warn; destruct (_ && is_null _); reflexivity|].
    split; [subst warn; destruct (_ && is_null _); reflexivity|].
    split; [reflexivity|].
    split; [apply Hok|].
    split; [reflexivity|].
    subst warn; destruct (_ && is_null _), (negb _ && _); split; reflexivity.
  - unfold vkCreateFramebuffer. step native_run.
    cbn [native_calls extend reply_res]. rewrite Hok.
    erewrite bind_run by reflexivity.
    unfold SetDebugName. erewrite bind_run by apply when_emit_run.
    unfold ret. rewrite !extend_extend.
    eexists _, _, _, _, _, _, q, warn, _.
    rewrite ?Hnull. split; [reflexivity|].
    split; [reflexivity|].
    cbn [set_framebuf tag_ vulkan_ framebuf pass].
    split; [subst warn; destruct (_ && is_null _), (negb _ && _); reflexivity|].
    split; [assumption|].
    split; [subst warn; destruct (_ && is_null _), (negb _ && _); reflexivity|].
    split; [subst warn; destruct (_ && is_null _), (negb _ && _); reflexivity|].
    split; [cbn [fbci_renderPass]; assumption|].
    split; [unfold RenderPassCreateInfo; reflexivity|].
    do 4 (split; [reflexivity|]).
    split; [apply Hconf, Hok|].
    split; [eapply slot_insert; eassumption|].
    split; [subst warn; destruct (_ && is_null _), (negb _ && _); reflexivity|].
    split; [rewrite <- ?app_assoc; reflexivity|].
    split; [subst warn; destruct (_ && is_null _); reflexivity|].
    split; [subst warn; destruct (_ && is_null _); reflexivity|].
    split; [reflexivity|].
    split; [apply Hok|].
    split; [reflexivity|].
    subst warn; destruct (_ && is_null _), (negb _ && _); split; reflexivity.
Qed.

(** X14. When a creation call fails during a first request, [Get]
    aborts the process right after that call: after the render-pass
    request when the pass cache had no pass for the type, and otherwise
    after the framebuffer request. Nothing is labelled and no handle is
    returned. *)
Theorem Get_aborts_at_failed_creation (self : VKRFramebuffer) (rp : VKRRenderPass)
    (rpType : RenderPassType) (w : World) (q : Handle) :
  slot (framebuf self) rpType = Some VK_NULL_HANDLE ->
  slot (pass rp) rpType = Some q ->
  reply_res (vk_driver (vulkan_ self) (native_calls w)) <> VK_SUCCESS ->
  exists evs,
    Get self rp rpType w = Aborted (extend w 1 evs) /\
    length (render_pass_requests evs) = (if is_null q then 1 else 0)%nat /\
    length (framebuffer_requests evs) = (if is_null q then 0 else 1)%nat /\
    debug_names evs = [].
Proof.
  intros Hslot Hq Hfail. apply Z.eqb_neq in Hfail.
  unfold Get. rewrite Hslot. cbn [is_null negb Z.eqb VK_NULL_HANDLE]. cbv zeta.
  unfold WARN_LOG. erewrite bind_run by apply when_emit_run.
  unfold VKRRenderPass_Get. rewrite Hq. destruct (is_null q) eqn:Hnull.
  - erewrite bind_abort.
    2:{ apply bind_abort. unfold CreateRenderPass, vkCreateRenderPass.
        step native_run. apply bind_abort.
        cbn [native_calls extend Nat.add]. rewrite Hfail. reflexivity. }
    rewrite extend_extend. eexists. split; [reflexivity|].
    destruct (_ && is_null _); repeat split; reflexivity.
  - erewrite bind_run by reflexivity.
    unfold vkCreateFramebuffer. step native_run.
    erewrite bind_abort.
    2:{ cbn [native_calls extend Nat.add]. rewrite Hfail. reflexivity. }
    rewrite extend_extend. eexists. split; [reflexivity|].
    destruct (_ && is_null _); repeat split; reflexivity.
Qed.

(** ** Teardown of the caches *)

Lemma Destroy_passes_run slots w :
  Destroy_passes slots w =
  Done tt (extend w 0 (map E_QueueDeleteRenderPass (List.filter nonnull slots))).
Proof.
  revert w. induction slots as [|p rest IH]; intros w.
  - simpl. unfold ret. now rewrite extend_nil.
  - cbn [Destroy_passes]. unfold QueueDeleteRenderPass.
    erewrite bind_run by apply when_emit_run.
    rewrite IH, extend_extend, filter_cons_singleton, map_app, map_if_singleton.
    reflexivity.
Qed.

Lemma slot_In arr rpType h : slot arr rpType = Some h -> In h arr.
Proof.
  unfold slot. destruct (_ && _); [|discriminate].
  intros H. apply list_elem_of_In. eapply list_elem_of_lookup_2. exact H.
Qed.

(** X15. Destroying a render-pass cache queues one deletion request for
    each pass it holds, in slot order, and does nothing else; for a
    cache from which nothing was requested it does nothing at all. Every
    handle the cache has returned is among the requests, so no render
    pass it created is left behind. *)
Theorem VKRRenderPass_Destroy_queues_every_pass :
  (forall cache vulkan w,
      VKRRenderPass_Destroy cache vulkan w =
      Done tt (extend w 0 (map E_QueueDeleteRenderPass (List.filter nonnull (pass cache))))) /\
  (forall key vulkan w, VKRRenderPass_Destroy (VKRRenderPass_new key) vulkan w = Done tt w) /\
  (forall cache vulkan rpType w p cache' w',
      VKRRenderPass_Get cache vulkan rpType w = Done (p, cache') w' ->
      In (E_QueueDeleteRenderPass p)
         (map E_QueueDeleteRenderPass (List.filter nonnull (pass cache')))).
Proof.
  split; [|split].
  - intros cache vulkan w. apply Destroy_passes_run.
  - intros key vulkan w. unfold VKRRenderPass_Destroy. rewrite Destroy_passes_run.
    cbn. now rewrite extend_nil.
  - intros cache vulkan rpType w p cache' w' H.
    apply VKRRenderPass_Get_Done in H as (Hs & Hp & _).
    apply in_map, filter_In. split; [eapply slot_In; eassumption|].
    unfold nonnull, is_null. apply negb_true_iff, Z.eqb_neq. exact Hp.
Qed.

(** What the destructor queues, in order. *)
Lemma VKRFramebuffer_destroy_run debug_build self w c0 c1 d0 d1 :
  img_texLayerViews (color self) = [c0; c1] ->
  img_texLayerViews (depth self) = [d0; d1] ->
  allocation_present (color self) ->
  allocation_present (depth self) ->
  VKRFramebuffer_destroy debug_build self w =
  Done tt (extend w 0
    (map E_QueueDeleteImageView
       (List.filter nonnull
          [img_rtView (color self); img_rtView (depth self);
           img_texAllLayersView (color self); img_texAllLayersView (depth self);
           c0; d0; c1; d1]) ++
     map (fun p => E_QueueDeleteImageAllocation (fst p) (snd p)) (owned_images self) ++
     map E_QueueDeleteFramebuffer (owned_framebuffers self))).
Proof.
  intros Hc Hd Hac Had.
  unfold VKRFramebuffer_destroy, owned_images, owned_framebuffers.
  rewrite Hc, Hd. cbn [destroy_layer_views]. unfold QueueDeleteImageView.
  do 4 (erewrite bind_run by apply when_emit_run).
  erewrite bind_run.
  2:{ do 4 (erewrite bind_run by apply when_emit_run). reflexivity. }
  erewrite bind_run by (apply image_deletion_run; assumption).
  erewrite bind_run by (apply image_deletion_run; assumption).
  rewrite destroy_framebufs_run, !extend_extend.
  rewrite !filter_cons_singleton. cbn [List.filter].
  rewrite !map_app, !map_if_singleton. cbn [map fst snd app].
  rewrite !app_nil_r, <- !app_assoc. reflexivity.
Qed.

Lemma wf_layer_views img : image_wf img -> exists v0 v1, img_texLayerViews img = [v0; v1].
Proof.
  unfold image_wf. destruct (img_texLayerViews img) as [|v0 [|v1 [|? ?]]]; try discriminate.
  eauto.
Qed.

(** X16. The destructor queues its requests in three runs: first the
    image views, then the images with their allocations (color before
    depth), then the framebuffer objects in slot order. Views are thus
    always queued before the image they show. *)
Theorem destroy_queues_views_then_images_then_framebuffers (debug_build : bool)
    (self : VKRFramebuffer) (w : World) :
  framebuffer_wf self ->
  allocation_present (color self) ->
  allocation_present (depth self) ->
  exists views images fbs,
    VKRFramebuffer_destroy debug_build self w =
      Done tt (extend w 0 (views ++ images ++ fbs)) /\
    forallb is_view_deletion views = true /\
    images = map (fun p => E_QueueDeleteImageAllocation (fst p) (snd p))
                 (owned_images self) /\
    fbs = map E_QueueDeleteFramebuffer (owned_framebuffers self).
Proof.
  intros (_ & Hc & Hd) Hac Had.
  destruct (wf_layer_views _ Hc) as (c0 & c1 & Hcv).
  destruct (wf_layer_views _ Hd) as (d0 & d1 & Hdv).
  eexists _, _, _. split; [eapply VKRFramebuffer_destroy_run; eassumption|].
  split; [|split; reflexivity].
  apply forallb_forall. intros e He. apply in_map_iff in He as (h & <- & _). reflexivity.
Qed.

(** X17. A framebuffer object that [Get] has returned is deleted with
    its framebuffer: the destructor of the framebuffer that [Get] left
    queues a deletion request for the returned handle. *)
Theorem returned_framebuffer_is_queued_on_destroy (debug_build : bool)
    (self : VKRFramebuffer) (rp : VKRRenderPass) (rpType : RenderPassType)
    (w w2 : World) (h : Handle) (self' : VKRFramebuffer) (rp' : VKRRenderPass)
    (w' : World) :
  driver_conformant (vulkan_ self) ->
  framebuffer_wf self ->
  allocation_present (color self) ->
  allocation_present (depth self) ->
  Get self rp rpType w = Done (h, self', rp') w' ->
  exists evs,
    VKRFramebuffer_destroy debug_build self' w2 = Done tt (extend w2 0 evs) /\
    In (E_QueueDeleteFramebuffer h) evs.
Proof.
  intros Hconf (Hlen & Hc & Hd) Hac Had Hget.
  pose proof (Get_Done _ _ _ _ _ _ _ _ Hconf Hget) as [Hs Hh].
  assert (Himg : color self' = color self /\ depth self' = depth self).
  { apply Get_inv in Hget as [(_ & _ & -> & _) | (_ & -> & _)]; split; reflexivity. }
  destruct Himg as [Hcs Hds].
  destruct (wf_layer_views _ Hc) as (c0 & c1 & Hcv).
  destruct (wf_layer_views _ Hd) as (d0 & d1 & Hdv).
  eexists. split.
  - eapply VKRFramebuffer_destroy_run; rewrite ?Hcs, ?Hds; eassumption.
  - rewrite !in_app_iff. right. right.
    apply in_map, filter_In. split; [eapply slot_In; eassumption|].
    unfold nonnull, is_null. apply negb_true_iff, Z.eqb_neq. exact Hh.
Qed.

(** ** The constructor *)

Lemma CreateImage_layers_Done debug_build vulkan tag n i ivci img w img' w' :
  CreateImage_layers debug_build vulkan tag n i ivci img w = Done img' w' ->
  length (img_texLayerViews img') = length (img_texLayerViews img).
Proof.
  revert i ivci img w. induction n as [|n IH]; intros i ivci img w.
  - cbn [CreateImage_layers]. unfold ret. now intros [= <- _].
  - cbn [CreateImage_layers]. destruct ((0 <=? i) && (i <? 2)); [|discriminate].
    intros H.
    apply bind_Done in H as (r & w1 & _ & H).
    apply bind_Done in H as (? & w2 & _ & H).
    apply bind_Done in H as (? & w3 & _ & H).
    apply IH in H. rewrite H. cbn [set_texLayerView img_texLayerViews].
    apply length_insert.
Qed.

(** What holds of an image whenever the factory returns it. *)
Lemma CreateImage_Done debug_build vulkan cmd img width height numLayers format
    initialLayout color tag w img' w' :
  CreateImage debug_build vulkan cmd img width height numLayers format initialLayout
    color tag w = Done img' w' ->
  img_format img' = format /\
  img_layout img' = initialLayout /\
  img_numLayers img' = numLayers /\
  img_tag img' = match tag with Some t => t | None => "N/A" end /\
  length (img_texLayerViews img') = length (img_texLayerViews img) /\
  supported_initial_layout initialLayout.
Proof.
  unfold CreateImage. intros H.
  apply bind_Done in H as (? & w1 & _ & H).
  apply bind_Done in H as (r0 & w2 & _ & H).
  apply bind_Done in H as (? & w3 & _ & H).
  apply bind_Done in H as (r1 & w4 & _ & H).
  apply bind_Done in H as (? & w5 & _ & H).
  apply bind_Done in H as (? & w6 & _ & H).
  apply bind_Done in H as (r2 & w7 & _ & H).
  apply bind_Done in H as (? & w8 & _ & H).
  apply bind_Done in H as (img1 & w9 & Hlayers & H).
  apply CreateImage_layers_Done in Hlayers. cbn in Hlayers.
  unfold CreateImage_transition in H.
  assert (Hsup : supported_initial_layout initialLayout).
  { unfold supported_initial_layout.
    destruct initialLayout; try discriminate H; auto. }
  destruct (initial_transition_masks initialLayout) as [[a s]|]; [|discriminate].
  apply bind_Done in H as (? & w10 & _ & H).
  unfold ret in H. injection H as <- _.
  repeat split; try reflexivity; assumption.
Qed.

(** What holds of a framebuffer whenever the constructor returns it. *)
Lemma VKRFramebuffer_new_Done debug_build vk initCmd rp _width _height _numLayers
    createDepthStencilBuffer tag w self w' :
  VKRFramebuffer_new debug_build vk initCmd rp _width _height _numLayers
    createDepthStencilBuffer tag w = Done self w' ->
  tag = Some (tag_ self) /\
  vulkan_ self = vk /\
  width self = _width /\ height self = _height /\ numLayers self = _numLayers /\
  framebuf self = replicate (Z.to_nat TYPE_COUNT) VK_NULL_HANDLE /\
  (exists w0 w1,
      CreateImage debug_build vk initCmd VKRImage_zero _width _height _numLayers
        VK_FORMAT_R8G8B8A8_UNORM VK_IMAGE_LAYOUT_COLOR_ATTACHMENT_OPTIMAL true tag w0
      = Done (color self) w1) /\
  (if createDepthStencilBuffer then
     exists w0 w1,
       CreateImage debug_build vk initCmd VKRImage_zero _width _height _numLayers
         (vk_preferredDepthStencilFormat vk)
         VK_IMAGE_LAYOUT_DEPTH_STENCIL_ATTACHMENT_OPTIMAL false tag w0
       = Done (depth self) w1
   else depth self = VKRImage_zero).
Proof.
  unfold VKRFramebuffer_new. destruct tag as [t|]; [|discriminate].
  intros H.
  apply bind_Done in H as (? & w2 & Hw & H).
  apply bind_Done in H as (img & w3 & Hcolor & H).
  apply bind_Done in H as (self' & w4 & Hself & H).
  apply bind_Done in H as (? & w5 & _ & H).
  unfold ret in H. injection H as <- _.
  destruct createDepthStencilBuffer.
  - apply bind_Done in Hself as (dimg & w6 & Hdepth & Hself).
    unfold ret in Hself. injection Hself as <- _.
    cbn in *. repeat split; try reflexivity; eauto.
  - unfold ret in Hself. injection Hself as <- _.
    cbn in *. repeat split; try reflexivity; eauto.
Qed.

(** X18. Whenever the constructor returns a framebuffer, the
    framebuffer has the context, width, height, layer count and tag it
    was given (the tag was not null), and an empty cache of nine slots.
    Its color image has the RGBA8 format and is in the color-attachment
    layout; its depth/stencil image, when one was asked for, has the
    preferred depth/stencil format of the device and is in the
    depth-stencil-attachment layout, and is otherwise all null. Both
    images carry the layer count and the tag, and the arrays have their
    declared sizes. *)
Theorem constructor_result (debug_build : bool) (vk : VulkanContext) (initCmd : Handle)
    (rp : VKRRenderPass) (_width _height _numLayers : Z)
    (createDepthStencilBuffer : bool) (tag : option string) (w : World)
    (self : VKRFramebuffer) (w' : World) :
  VKRFramebuffer_new debug_build vk initCmd rp _width _height _numLayers
    createDepthStencilBuffer tag w = Done self w' ->
  tag = Some (tag_ self) /\
  vulkan_ self = vk /\
  (width self, height self, numLayers self) = (_width, _height, _numLayers) /\
  framebuf self = replicate 9 VK_NULL_HANDLE /\
  framebuffer_wf self /\
  img_format (color self) = VK_FORMAT_R8G8B8A8_UNORM /\
  img_layout (color self) = VK_IMAGE_LAYOUT_COLOR_ATTACHMENT_OPTIMAL /\
  img_numLayers (color self) = _numLayers /\
  img_tag (color self) = tag_ self /\
  (if createDepthStencilBuffer then
     img_format (depth self) = vk_preferredDepthStencilFormat vk /\
     img_layout (depth self) = VK_IMAGE_LAYOUT_DEPTH_STENCIL_ATTACHMENT_OPTIMAL /\
     img_numLayers (depth self) = _numLayers /\
     img_tag (depth self) = tag_ self
   else depth self = VKRImage_zero /\ HasDepth self = false).
Proof.
  intros H. apply VKRFramebuffer_new_Done in H
    as (Htag & Hvk & Hw & Hh & Hn & Hfb & (w0 & w1 & Hcolor) & Hdepth).
  apply CreateImage_Done in Hcolor as (Hf & Hl & Hnl & Ht & Hlen & _).
  rewrite Htag in Ht.
  split; [assumption|]. split; [assumption|].
  split; [now rewrite Hw, Hh, Hn|]. split; [assumption|].
  assert (Hwf : framebuffer_wf self).
  { split; [now rewrite Hfb|]. split; [exact Hlen|].
    destruct createDepthStencilBuffer.
    - destruct Hdepth as (w2 & w3 & Hdepth).
      now apply CreateImage_Done in Hdepth as (_ & _ & _ & _ & Hlen' & _).
    - now rewrite Hdepth. }
  split; [assumption|]. do 4 (split; [assumption|]).
  destruct createDepthStencilBuffer.
  - destruct Hdepth as (w2 & w3 & Hdepth).
    apply CreateImage_Done in Hdepth as (Hf' & Hl' & Hnl' & Ht' & _).
    rewrite Htag in Ht'. repeat split; assumption.
  - split; [assumption|]. unfold HasDepth. now rewrite Hdepth.
Qed.

(** X19. A framebuffer the constructor has returned suits every
    off-screen render pass this code describes, whatever the key: for a
    type other than the backbuffer, the color attachment of the pass has
    the format of the color image and expects and leaves it in the layout
    the image was created in; and when the framebuffer was built with a
    depth/stencil buffer and the type has depth, the same holds of the
    depth/stencil attachment and the depth image. *)
Theorem constructed_images_match_pass_attachments (debug_build : bool)
    (vk : VulkanContext) (initCmd : Handle) (rp : VKRRenderPass)
    (_width _height _numLayers : Z) (tag : option string) (w : World)
    (self : VKRFramebuffer) (w' : World) (key : RPKey) (rpType : RenderPassType)
    (createDepthStencilBuffer : bool) :
  VKRFramebuffer_new debug_build vk initCmd rp _width _height _numLayers
    createDepthStencilBuffer tag w = Done self w' ->
  rpType <> BACKBUFFER ->
  exists color_att rest,
    attachments (RenderPassCreateInfo (vulkan_ self) key rpType) = color_att :: rest /\
    att_format color_att = img_format (color self) /\
    att_initialLayout color_att = img_layout (color self) /\
    att_finalLayout color_att = img_layout (color self) /\
    (createDepthStencilBuffer = true -> RenderPassTypeHasDepth rpType = true ->
     exists depth_att,
       rest = [depth_att] /\
       att_format depth_att = img_format (depth self) /\
       att_initialLayout depth_att = img_layout (depth self) /\
       att_finalLayout depth_att = img_layout (depth self)).
Proof.
  intros H Hnb. apply VKRFramebuffer_new_Done in H
    as (_ & Hvk & _ & _ & _ & _ & (w0 & w1 & Hcolor) & Hdepth).
  apply CreateImage_Done in Hcolor as (Hf & Hl & _).
  rewrite render_pass_attachment_descriptions.
  apply Z.eqb_neq in Hnb. rewrite Hnb, Hf, Hl.
  eexists _, _. split; [reflexivity|]. do 3 (split; [reflexivity|]).
  intros -> Hd. rewrite Hd. destruct Hdepth as (w2 & w3 & Hdepth).
  apply CreateImage_Done in Hdepth as (Hf' & Hl' & _).
  rewrite Hf', Hl', Hvk. eexists. repeat split; reflexivity.
Qed.

Lemma created_views_app evs1 evs2 :
  created_views (evs1 ++ evs2) = created_views evs1 ++ created_views evs2.
Proof. apply omap_app. Qed.

Lemma created_images_app evs1 evs2 :
  created_images (evs1 ++ evs2) = created_images evs1 ++ created_images evs2.
Proof. apply omap_app. Qed.

Lemma framebuffer_requests_app evs1 evs2 :
  framebuffer_requests (evs1 ++ evs2) = framebuffer_requests evs1 ++ framebuffer_requests evs2.
Proof. apply omap_app. Qed.

Lemma render_pass_requests_app evs1 evs2 :
  render_pass_requests (evs1 ++ evs2) = render_pass_requests evs1 ++ render_pass_requests evs2.
Proof. apply omap_app. Qed.

(** The constructor with a driver that answers success. *)
Lemma VKRFramebuffer_new_run (debug_build : bool) (vk : VulkanContext) (initCmd : Handle)
    (rp : VKRRenderPass) (_width _height _numLayers : Z)
    (createDepthStencilBuffer : bool) (t : string) (w : World) :
  _numLayers = 1 \/ _numLayers = 2 ->
  driver_succeeds vk ->
  exists self evs,
    VKRFramebuffer_new debug_build vk initCmd rp _width _height _numLayers
      createDepthStencilBuffer (Some t) w =
    Done self (extend w ((if createDepthStencilBuffer then 2 else 1) *
                         (Z.to_nat _numLayers + 3)) evs) /\
    (driver_conformant vk ->
     owned_views self = created_views evs /\
     owned_images self = created_images evs /\
     HasDepth self = createDepthStencilBuffer) /\
    (driver_allocates vk ->
     allocation_present (color self) /\ allocation_present (depth self)) /\
    owned_framebuffers self = [] /\
    framebuffer_requests evs = [] /\
    render_pass_requests evs = [] /\
    length (created_images evs) = (if createDepthStencilBuffer then 2 else 1)%nat /\
    length (created_views evs) =
      ((if createDepthStencilBuffer then 2 else 1) * (Z.to_nat _numLayers + 2))%nat.
Proof.
  intros Hn Hok.
  unfold VKRFramebuffer_new. cbv zeta.
  cbn [vulkan_ color depth width height numLayers].
  erewrite bind_run by (destruct debug_build; reflexivity).
  destruct (CreateImage_run debug_build vk initCmd VKRImage_zero _width _height _numLayers
              VK_FORMAT_R8G8B8A8_UNORM VK_IMAGE_LAYOUT_COLOR_ATTACHMENT_OPTIMAL true
              (Some t) w _ _ Hn (fun n _ => Hok n) (fun H => ltac:(discriminate H)) eq_refl)
    as (evs1 & Hrun1 & _ & Himg1 & Hviews1 & Hrp1 & Hfb1 & _).
  erewrite bind_run by exact Hrun1. clear Hrun1.
  destruct createDepthStencilBuffer.
  - destruct (CreateImage_run debug_build vk initCmd VKRImage_zero _width _height _numLayers
                (vk_preferredDepthStencilFormat vk)
                VK_IMAGE_LAYOUT_DEPTH_STENCIL_ATTACHMENT_OPTIMAL false
                (Some t) (extend w (Z.to_nat _numLayers + 3) evs1) _ _ Hn
                (fun n _ => Hok n) (fun H => ltac:(discriminate H)) eq_refl)
      as (evs2 & Hrun2 & _ & Himg2 & Hviews2 & Hrp2 & Hfb2 & _).
    erewrite bind_run
      by (cbn [set_color vulkan_ color depth width height numLayers];
          erewrite bind_run by exact Hrun2; reflexivity).
    clear Hrun2.
    erewrite bind_run by apply UpdateTag_run.
    unfold ret. rewrite !extend_extend.
    eexists _, _. split; [f_equal; f_equal; lia|].
    cbn [set_depth set_color color depth framebuf tag_ img_image img_rtView img_alloc
         img_texAllLayersView img_texLayerViews].
    rewrite !created_views_app, !created_images_app, !framebuffer_requests_app,
      !render_pass_requests_app, Himg1, Himg2, Hviews1, Hviews2, Hrp1, Hrp2, Hfb1, Hfb2.
    unfold owned_views, owned_images, owned_framebuffers, image_views, HasDepth,
      allocation_present, stored_layer_views.
    cbn [set_depth set_color color depth framebuf tag_ img_image img_rtView img_alloc
         img_texAllLayersView img_texLayerViews VKRImage_zero].
    split; [|split; [|destruct Hn as [-> | ->];
        [change (Z.to_nat 1) with 1%nat in * | change (Z.to_nat 2) with 2%nat in *]; destruct (nonnull _);
                      repeat split; reflexivity]].
    + intros Hconf.
      assert (Hnn : forall k, nonnull (reply_handle (vk_driver vk k)) = true).
      { intros k. unfold nonnull, is_null. apply negb_true_iff, Z.eqb_neq, Hconf, Hok. }
      assert (Hnz : forall k, (reply_handle (vk_driver vk k) =? VK_NULL_HANDLE) = false).
      { intros k. apply Z.eqb_neq, Hconf, Hok. }
      destruct Hn as [-> | ->];
        [change (Z.to_nat 1) with 1%nat in * | change (Z.to_nat 2) with 2%nat in *]; cbn; rewrite ?Hnn, ?Hnz; cbn; rewrite ?Hnn;
        repeat split; reflexivity.
    + intros Halloc. split; intros _; apply Halloc, Hok.
  - cbn [set_color]. erewrite bind_run by reflexivity.
    erewrite bind_run by apply UpdateTag_run.
    unfold ret. rewrite !extend_extend.
    eexists _, _. split; [f_equal; f_equal; lia|].
    cbn [set_depth set_color color depth framebuf tag_ img_image img_rtView img_alloc
         img_texAllLayersView img_texLayerViews].
    rewrite !created_views_app, !created_images_app, !framebuffer_requests_app,
      !render_pass_requests_app, Himg1, Hviews1, Hrp1, Hfb1.
    unfold owned_views, owned_images, owned_framebuffers, image_views, HasDepth,
      allocation_present, stored_layer_views.
    cbn [set_depth set_color color depth framebuf tag_ img_image img_rtView img_alloc
         img_texAllLayersView img_texLayerViews VKRImage_zero].
    split; [|split; [|destruct Hn as [-> | ->];
        [change (Z.to_nat 1) with 1%nat in * | change (Z.to_nat 2) with 2%nat in *]; repeat split; reflexivity]].
    + intros Hconf.
      assert (Hnn : forall k, nonnull (reply_handle (vk_driver vk k)) = true).
      { intros k. unfold nonnull, is_null. apply negb_true_iff, Z.eqb_neq, Hconf, Hok. }
      destruct Hn as [-> | ->];
        [change (Z.to_nat 1) with 1%nat in * | change (Z.to_nat 2) with 2%nat in *]; cbn; rewrite ?Hnn; cbn; rewrite ?Hnn;
        repeat split; reflexivity.
    + intros Halloc. split; [intros _; apply Halloc, Hok | intros H; now elim H].
Qed.

(** X20. With one or two layers, a tag and a driver that answers
    success with non-null handles, the constructor returns. It has made
    one creation call for each image and one per view (the primary view,
    the all-layers view and one view per layer), for the color image and,
    when asked, for the depth/stencil image; the framebuffer has a depth
    image exactly when one was asked for. It creates no render pass and
    no framebuffer object: these are made on demand. *)
Theorem constructor_returns (debug_build : bool) (vk : VulkanContext) (initCmd : Handle)
    (rp : VKRRenderPass) (_width _height _numLayers : Z)
    (createDepthStencilBuffer : bool) (t : string) (w : World) :
  _numLayers = 1 \/ _numLayers = 2 ->
  driver_succeeds vk ->
  driver_conformant vk ->
  exists self w' evs,
    VKRFramebuffer_new debug_build vk initCmd rp _width _height _numLayers
      createDepthStencilBuffer (Some t) w = Done self w' /\
    trace w' = trace w ++ evs /\
    native_calls w' =
      ((if createDepthStencilBuffer then 2 else 1) * (Z.to_nat _numLayers + 3)
       + native_calls w)%nat /\
    HasDepth self = createDepthStencilBuffer /\
    length (created_images evs) = (if createDepthStencilBuffer then 2 else 1)%nat /\
    length (created_views evs) =
      ((if createDepthStencilBuffer then 2 else 1) * (Z.to_nat _numLayers + 2))%nat /\
    render_pass_requests evs = [] /\
    framebuffer_requests evs = [] /\
    owned_framebuffers self = [].
Proof.
  intros Hn Hok Hconf.
  destruct (VKRFramebuffer_new_run debug_build vk initCmd rp _width _height _numLayers
              createDepthStencilBuffer t w Hn Hok)
    as (self & evs & Hrun & Hown & _ & Hfbs & Hfb & Hrp & Himgs & Hviews).
  destruct (Hown Hconf) as (_ & _ & Hdepth).
  eexists _, _, evs. split; [exact Hrun|].
  repeat split; try reflexivity; assumption.
Qed.

Lemma VKRFramebuffer_new_wf debug_build vk initCmd rp _width _height _numLayers
    createDepthStencilBuffer tag w self w' :
  VKRFramebuffer_new debug_build vk initCmd rp _width _height _numLayers
    createDepthStencilBuffer tag w = Done self w' ->
  framebuffer_wf self.
Proof.
  intros H. apply VKRFramebuffer_new_Done in H
    as (_ & _ & _ & _ & _ & Hfb & (w0 & w1 & Hcolor) & Hdepth).
  apply CreateImage_Done in Hcolor as (_ & _ & _ & _ & Hlen & _).
  split; [now rewrite Hfb|]. split; [exact Hlen|].
  destruct createDepthStencilBuffer.
  - destruct Hdepth as (w2 & w3 & Hdepth).
    now apply CreateImage_Done in Hdepth as (_ & _ & _ & _ & Hlen' & _).
  - now rewrite Hdepth.
Qed.

Lemma destroyed_views_permutation (self : VKRFramebuffer) c0 c1 d0 d1 :
  img_texLayerViews (color self) = [c0; c1] ->
  img_texLayerViews (depth self) = [d0; d1] ->
  List.filter nonnull
    [img_rtView (color self); img_rtView (depth self);
     img_texAllLayersView (color self); img_texAllLayersView (depth self);
     c0; d0; c1; d1] ≡ₚ owned_views self.
Proof.
  intros Hc Hd. unfold owned_views, image_views. rewrite Hc, Hd. cbn [app].
  rewrite !filter_cons_singleton. cbn [List.filter]. rewrite !app_nil_r.
  solve_Permutation.
Qed.

(** X21. Construction followed by destruction gives back to the
    deferred-deletion queue exactly what the driver gave: the destructor
    of a freshly constructed framebuffer queues, up to order, one view
    deletion for every view handle and one image deletion for every
    image and allocation the driver answered during construction, and
    nothing else. The driver is assumed to answer success with non-null
    handles and allocations. *)
Theorem construct_then_destroy_returns_everything (debug_build : bool)
    (vk : VulkanContext) (initCmd : Handle) (rp : VKRRenderPass)
    (_width _height _numLayers : Z) (createDepthStencilBuffer : bool) (t : string)
    (w w2 : World) :
  _numLayers = 1 \/ _numLayers = 2 ->
  driver_succeeds vk ->
  driver_conformant vk ->
  driver_allocates vk ->
  exists self w' created queued,
    VKRFramebuffer_new debug_build vk initCmd rp _width _height _numLayers
      createDepthStencilBuffer (Some t) w = Done self w' /\
    trace w' = trace w ++ created /\
    VKRFramebuffer_destroy debug_build self w2 = Done tt (extend w2 0 queued) /\
    queued ≡ₚ map E_QueueDeleteImageView (created_views created) ++
              map (fun p => E_QueueDeleteImageAllocation (fst p) (snd p))
                  (created_images created).
Proof.
  intros Hn Hok Hconf Halloc.
  destruct (VKRFramebuffer_new_run debug_build vk initCmd rp _width _height _numLayers
              createDepthStencilBuffer t w Hn Hok)
    as (self & evs & Hrun & Hown & Hpresent & Hfbs & _).
  destruct (Hown Hconf) as (Hviews & Himgs & _).
  destruct (Hpresent Halloc) as (Hac & Had).
  pose proof (VKRFramebuffer_new_wf _ _ _ _ _ _ _ _ _ _ _ _ Hrun) as (_ & Hc & Hd).
  destruct (wf_layer_views _ Hc) as (c0 & c1 & Hcv).
  destruct (wf_layer_views _ Hd) as (d0 & d1 & Hdv).
  eexists self, _, evs, _. split; [exact Hrun|]. split; [reflexivity|].
  split; [eapply VKRFramebuffer_destroy_run; eassumption|].
  rewrite Hfbs, <- Hviews, <- Himgs. cbn [map]. rewrite app_nil_r.
  apply Permutation_app; [|reflexivity].
  apply Permutation_map. eapply destroyed_views_permutation; eassumption.
Qed.

(** ** Debug labels are cut to 127 characters *)

Lemma substring_0_length m s :
  String.length (String.substring 0 m s) = Nat.min m (String.length s).
Proof.
  revert s. induction m as [|m IH]; intros s.
  - destruct s; reflexivity.
  - destruct s as [|c s]; [reflexivity|]. simpl. now rewrite IH.
Qed.

Lemma substring_0_all m s :
  (String.length s <= m)%nat -> String.substring 0 m s = s.
Proof.
  revert s. induction m as [|m IH]; intros s Hlen.
  - destruct s; [reflexivity | simpl in Hlen; lia].
  - destruct s as [|c s]; [reflexivity|]. simpl in *. rewrite IH; [reflexivity | lia].
Qed.

Lemma length_append s1 s2 :
  String.length (s1 +:+ s2) = (String.length s1 + String.length s2)%nat.
Proof. induction s1 as [|c s1 IH]; simpl; [reflexivity | now rewrite IH]. Qed.

Lemma debug_names_app evs1 evs2 :
  debug_names (evs1 ++ evs2) = debug_names evs1 ++ debug_names evs2.
Proof. apply omap_app. Qed.

Lemma debug_names_map (name : string) (ty : VkObjectType) (l : list Handle) :
  debug_names (map (fun h => E_SetDebugName h ty (Some name)) l) = map (fun _ => name) l.
Proof. induction l as [|h l IH]; simpl; [reflexivity | now f_equal]. Qed.

(** X22. Every call [UpdateTag] makes sets a debug name, and every name
    it sets is at most 127 characters long: a longer name is cut. When
    the tag of the framebuffer has at most 118 characters nothing is cut,
    and each name is "fb_color_", "fb_depth_" or "fb_" followed by the
    tag. *)
Theorem UpdateTag_names_are_cut_to_127 (self : VKRFramebuffer) (newTag : option string)
    (w : World) :
  exists evs,
    UpdateTag self newTag w = Done tt (extend w 0 evs) /\
    length (debug_names evs) = length evs /\
    Forall (fun name => (String.length name <= 127)%nat) (debug_names evs) /\
    ((String.length (tag_ self) <= 118)%nat ->
     Forall (fun name => In name ["fb_color_" +:+ tag_ self; "fb_depth_" +:+ tag_ self;
                                  "fb_" +:+ tag_ self])
            (debug_names evs)).
Proof.
  eexists. split; [apply UpdateTag_run|].
  rewrite !debug_names_app, debug_names_map, !length_app, !length_map.
  assert (Hcut : forall s, (String.length (snprintf128 s) <= 127)%nat).
  { intros s. unfold snprintf128. rewrite substring_0_length. lia. }
  split; [|split].
  - destruct (nonnull _); reflexivity.
  - rewrite !Forall_app. split; [|split].
    + simpl; repeat (apply List.Forall_cons; [apply Hcut|]); apply List.Forall_nil.
    + destruct (nonnull _); simpl; repeat (apply List.Forall_cons; [apply Hcut|]); apply List.Forall_nil.
    + apply Forall_forall. intros name Hin. apply list_elem_of_In in Hin.
      apply in_map_iff in Hin as (? & <- & _). apply Hcut.
  - intros Hlen.
    assert (Hc : snprintf128 ("fb_color_" +:+ tag_ self) = "fb_color_" +:+ tag_ self).
    { apply substring_0_all. rewrite length_append. simpl. lia. }
    assert (Hd : snprintf128 ("fb_depth_" +:+ tag_ self) = "fb_depth_" +:+ tag_ self).
    { apply substring_0_all. rewrite length_append. simpl. lia. }
    assert (Hf : snprintf128 ("fb_" +:+ tag_ self) = "fb_" +:+ tag_ self).
    { apply substring_0_all. rewrite length_append. simpl. lia. }
    rewrite Hc, Hd, Hf. rewrite !Forall_app. split; [|split].
    + simpl debug_names; repeat (apply List.Forall_cons; [simpl; auto|]); apply List.Forall_nil.
    + destruct (nonnull _); simpl debug_names; repeat (apply List.Forall_cons; [simpl; auto|]); apply List.Forall_nil.
    + apply Forall_forall. intros name Hin. apply list_elem_of_In in Hin.
      apply in_map_iff in Hin as (? & <- & _). simpl. auto.
Qed.

(** ** The further properties at concrete inputs *)

Lemma CreateRenderPass_outcome_witness :
  exists w',
    CreateRenderPass example_vulkan example_key HAS_DEPTH start = Done 100 w' /\
    (100 : Handle) <> VK_NULL_HANDLE.
Proof.
  eexists. split; [vm_compute; reflexivity|].
  eapply (proj2 (CreateRenderPass_outcome example_vulkan example_key HAS_DEPTH start) 100).
  vm_compute. reflexivity.
Defined.


Lemma valid_tags_by_their_facets_witness :
  HAS_DEPTH = BACKBUFFER \/
  (HAS_DEPTH = HAS_DEPTH /\ BACKBUFFER = BACKBUFFER) \/
  (HAS_DEPTH = BACKBUFFER /\ BACKBUFFER = HAS_DEPTH).
Proof.
  apply (valid_tags_by_their_facets HAS_DEPTH BACKBUFFER).
  - unfold rp_valid, HAS_DEPTH, TYPE_COUNT, BACKBUFFER. lia.
  - unfold rp_valid, TYPE_COUNT, BACKBUFFER. lia.
  - reflexivity.
  - reflexivity.
  - reflexivity.
Defined.

Lemma image_request_of_the_factory_witness :
  exists img' w' evs ici,
    CreateImage true example_vulkan 7 VKRImage_zero 1920 1080 2 129
      VK_IMAGE_LAYOUT_DEPTH_STENCIL_ATTACHMENT_OPTIMAL false (Some "old") start
      = Done img' w' /\
    trace w' = trace start ++ evs /\
    image_requests evs = [(ici, {| aci_usage := VMA_MEMORY_USAGE_GPU_ONLY |})] /\
    ici_arrayLayers ici = 2 /\
    has_flag (ici_usage ici) VK_IMAGE_USAGE_DEPTH_STENCIL_ATTACHMENT_BIT = true /\
    has_flag (ici_usage ici) VK_IMAGE_USAGE_COLOR_ATTACHMENT_BIT = false.
Proof.
  destruct (image_request_of_the_factory true example_vulkan 7 VKRImage_zero 1920 1080 2 129
              VK_IMAGE_LAYOUT_DEPTH_STENCIL_ATTACHMENT_OPTIMAL false (Some "old") start)
    as (img' & w' & evs & ici & Hrun & Htrace & Hreq & _ & _ & _ & _ & Hlayers & _ & _ &
        _ & _ & _ & _ & Hc & _ & Hd).
  - right. reflexivity.
  - intros n. reflexivity.
  - intros H. discriminate H.
  - right. right. reflexivity.
  - exists img', w', evs, ici. repeat split; assumption.
Defined.

Lemma CreateImage_returns_witness :
  reply_res (vk_driver example_vulkan_failing_third 2) <> VK_SUCCESS /\
  exists img' w',
    CreateImage true example_vulkan_failing_third 7 VKRImage_zero 1920 1080 1
      VK_FORMAT_R8G8B8A8_UNORM VK_IMAGE_LAYOUT_COLOR_ATTACHMENT_OPTIMAL true (Some "old")
      start = Done img' w' /\
    img_texAllLayersView img' = 102 /\
    img_tag img' = "old".
Proof.
  split; [intros H; discriminate H|].
  destruct (CreateImage_returns true example_vulkan_failing_third 7 VKRImage_zero
              1920 1080 1 VK_FORMAT_R8G8B8A8_UNORM
              VK_IMAGE_LAYOUT_COLOR_ATTACHMENT_OPTIMAL true (Some "old") start)
    as (img' & w' & Hrun & _ & _ & _ & _ & Hall & _ & _ & _ & _ & _ & Htag).
  - left. reflexivity.
  - intros n Hne. simpl. destruct (Nat.eqb_spec n 2) as [->|_]; [|reflexivity].
    now elim Hne.
  - intros H. discriminate H.
  - left. reflexivity.
  - exists img', w'. repeat split; assumption.
Defined.

Lemma debug_build_aborts_at_failed_call_witness :
  exists evs,
    CreateImage true example_vulkan_failing 7 VKRImage_zero 1920 1080 1
      VK_FORMAT_R8G8B8A8_UNORM VK_IMAGE_LAYOUT_COLOR_ATTACHMENT_OPTIMAL true (Some "old")
      start = Aborted (extend start 1 evs) /\
    length (image_requests evs) = 1%nat /\
    length (created_views evs) = 0%nat /\
    recorded_transitions evs = [].
Proof.
  apply (debug_build_aborts_at_failed_call example_vulkan_failing 7 VKRImage_zero
           1920 1080 1 VK_FORMAT_R8G8B8A8_UNORM VK_IMAGE_LAYOUT_COLOR_ATTACHMENT_OPTIMAL
           true (Some "old") start 0).
  - left. reflexivity.
  - intros H. discriminate H.
  - simpl. lia.
  - lia.
  - intros H. discriminate H.
  - intros j Hj. lia.
Defined.

Lemma layer_count_guard_witness :
  CreateImage true example_vulkan 7 VKRImage_zero 1920 1080 3
    VK_FORMAT_R8G8B8A8_UNORM VK_IMAGE_LAYOUT_COLOR_ATTACHMENT_OPTIMAL true (Some "old")
    start = Aborted start /\
  CreateImage false example_vulkan 7 VKRImage_zero 1920 1080 3
    VK_FORMAT_R8G8B8A8_UNORM VK_IMAGE_LAYOUT_COLOR_ATTACHMENT_OPTIMAL true (Some "old")
    start = Undefined.
Proof.
  split.
  - apply (proj1 (layer_count_guard example_vulkan 7 VKRImage_zero 1920 1080 3
                    VK_FORMAT_R8G8B8A8_UNORM VK_IMAGE_LAYOUT_COLOR_ATTACHMENT_OPTIMAL
                    true (Some "old") start)); lia.
  - apply (proj2 (layer_count_guard example_vulkan 7 VKRImage_zero 1920 1080 3
                    VK_FORMAT_R8G8B8A8_UNORM VK_IMAGE_LAYOUT_COLOR_ATTACHMENT_OPTIMAL
                    true (Some "old") start)); lia.
Defined.

Lemma VKRRenderPass_Get_fills_one_slot_witness :
  exists w',
    VKRRenderPass_Get (VKRRenderPass_new example_key) example_vulkan HAS_DEPTH
      (extend start 10 []) = Done (110, example_pass_cached) w' /\
    slot (pass example_pass_cached) HAS_DEPTH = Some 110 /\
    key_ example_pass_cached = key_ (VKRRenderPass_new example_key).
Proof.
  eexists. split; [vm_compute; reflexivity|].
  destruct (VKRRenderPass_Get_fills_one_slot (VKRRenderPass_new example_key) example_vulkan
              HAS_DEPTH (extend start 10 []) 110 example_pass_cached
              (extend (extend start 10 []) 1
                 [E_vkCreateRenderPass 1
                    (RenderPassCreateInfo example_vulkan example_key HAS_DEPTH)
                    (example_driver 10)]))
    as (_ & Hs & Hk & _); [reflexivity|].
  split; assumption.
Defined.

Lemma Get_changes_one_slot_witness :
  exists w',
    Get example_fb_depth (VKRRenderPass_new example_key) HAS_DEPTH (extend start 10 []) =
      Done (111, example_fb_cached, example_pass_cached) w' /\
    color example_fb_cached = color example_fb_depth /\
    depth example_fb_cached = depth example_fb_depth.
Proof.
  eexists. split; [vm_compute; reflexivity|].
  edestruct (Get_changes_one_slot example_fb_depth (VKRRenderPass_new example_key)
               HAS_DEPTH (extend start 10 []) 111 example_fb_cached example_pass_cached)
    as (_ & _ & Hc & Hd & _); [vm_compute; reflexivity|].
  split; assumption.
Defined.

Lemma handle_survives_other_requests_witness :
  exists w1 h' self2 rp2 w2,
    Get example_fb_depth (VKRRenderPass_new example_key) HAS_DEPTH (extend start 10 []) =
      Done (111, example_fb_cached, example_pass_cached) w1 /\
    Get example_fb_cached example_pass_cached DEFAULT (extend start 12 []) =
      Done (h', self2, rp2) w2 /\
    Get self2 rp2 HAS_DEPTH start = Done (111, self2, rp2) start.
Proof.
  eexists _, _, _, _, _.
  split; [vm_compute; reflexivity|].
  split; [vm_compute; reflexivity|].
  eapply (handle_survives_other_requests example_fb_depth (VKRRenderPass_new example_key)
            HAS_DEPTH DEFAULT (extend start 10 []) (extend start 12 []) start).
  - intros n _. simpl. unfold VK_NULL_HANDLE. lia.
  - vm_compute. reflexivity.
  - vm_compute. reflexivity.
Defined.

Lemma Get_first_request_witness :
  exists h self' rp' w',
    Get example_fb_depth (VKRRenderPass_new example_key) HAS_DEPTH (extend start 10 []) =
      Done (h, self', rp') w' /\
    h <> VK_NULL_HANDLE /\
    slot (framebuf self') HAS_DEPTH = Some h.
Proof.
  destruct (Get_first_request example_fb_depth (VKRRenderPass_new example_key) HAS_DEPTH
              (extend start 10 []))
    as (h & self' & rp' & w' & evs & fbci & q & pre & r & Hget & _ & _ & _ & _ & _ & _ &
        _ & _ & _ & _ & _ & Hh & Hs & _).
  - unfold rp_valid, HAS_DEPTH, TYPE_COUNT, BACKBUFFER. lia.
  - reflexivity.
  - reflexivity.
  - intros n. reflexivity.
  - intros n _. simpl. unfold VK_NULL_HANDLE. lia.
  - exists h, self', rp', w'. repeat split; assumption.
Defined.

Lemma Get_aborts_at_failed_creation_witness :
  exists evs,
    Get example_fb_failing (VKRRenderPass_new example_key) HAS_DEPTH start =
      Aborted (extend start 1 evs) /\
    length (render_pass_requests evs) = 1%nat /\
    length (framebuffer_requests evs) = 0%nat /\
    debug_names evs = [].
Proof.
  apply (Get_aborts_at_failed_creation example_fb_failing (VKRRenderPass_new example_key)
           HAS_DEPTH start 0).
  - reflexivity.
  - reflexivity.
  - intros H. discriminate H.
Defined.

Lemma VKRRenderPass_Destroy_queues_every_pass_witness :
  exists w',
    VKRRenderPass_Get (VKRRenderPass_new example_key) example_vulkan HAS_DEPTH
      (extend start 10 []) = Done (110, example_pass_cached) w' /\
    In (E_QueueDeleteRenderPass 110)
       (map E_QueueDeleteRenderPass (List.filter nonnull (pass example_pass_cached))).
Proof.
  eexists. split; [vm_compute; reflexivity|].
  eapply (proj2 (proj2 VKRRenderPass_Destroy_queues_every_pass)
            (VKRRenderPass_new example_key) example_vulkan HAS_DEPTH (extend start 10 [])).
  vm_compute. reflexivity.
Defined.

Lemma destroy_queues_views_then_images_then_framebuffers_witness :
  exists views images fbs,
    VKRFramebuffer_destroy true example_fb_cached start =
      Done tt (extend start 0 (views ++ images ++ fbs)) /\
    forallb is_view_deletion views = true /\
    images = [E_QueueDeleteImageAllocation 100 500; E_QueueDeleteImageAllocation 105 505] /\
    fbs = [E_QueueDeleteFramebuffer 111].
Proof.
  apply (destroy_queues_views_then_images_then_framebuffers true example_fb_cached start).
  - repeat split; reflexivity.
  - intros _ H. discriminate H.
  - intros _ H. discriminate H.
Defined.

Lemma returned_framebuffer_is_queued_on_destroy_witness :
  exists evs,
    VKRFramebuffer_destroy true example_fb_cached start = Done tt (extend start 0 evs) /\
    In (E_QueueDeleteFramebuffer 111) evs.
Proof.
  eapply (returned_framebuffer_is_queued_on_destroy true example_fb_depth
            (VKRRenderPass_new example_key) HAS_DEPTH (extend start 10 []) start 111
            example_fb_cached example_pass_cached).
  - intros n _. simpl. unfold VK_NULL_HANDLE. lia.
  - repeat split; reflexivity.
  - intros _ H. discriminate H.
  - intros _ H. discriminate H.
  - vm_compute. reflexivity.
Defined.

Lemma constructor_result_witness :
  exists w',
    VKRFramebuffer_new true example_vulkan 7 (VKRRenderPass_new example_key)
      1920 1080 1 false (Some "old") start = Done example_fb_nodepth w' /\
    framebuffer_wf example_fb_nodepth /\
    img_layout (color example_fb_nodepth) = VK_IMAGE_LAYOUT_COLOR_ATTACHMENT_OPTIMAL /\
    HasDepth example_fb_nodepth = false.
Proof.
  eexists. split; [vm_compute; reflexivity|].
  edestruct (constructor_result true example_vulkan 7 (VKRRenderPass_new example_key)
               1920 1080 1 false (Some "old") start example_fb_nodepth)
    as (_ & _ & _ & _ & Hwf & _ & Hl & _ & _ & _ & Hd); [vm_compute; reflexivity|].
  repeat split; solve [apply Hwf | assumption].
Defined.

Lemma constructed_images_match_pass_attachments_witness :
  exists w' color_att rest,
    VKRFramebuffer_new true example_vulkan 7 (VKRRenderPass_new example_key)
      1920 1080 2 true (Some "old") start = Done example_fb_depth w' /\
    attachments (RenderPassCreateInfo example_vulkan example_key HAS_DEPTH) =
      color_att :: rest /\
    att_format color_att = img_format (color example_fb_depth) /\
    att_initialLayout color_att = img_layout (color example_fb_depth).
Proof.
  assert (Hnew : { w' | VKRFramebuffer_new true example_vulkan 7
                          (VKRRenderPass_new example_key) 1920 1080 2 true (Some "old")
                          start = Done example_fb_depth w' })
    by (eexists; vm_compute; reflexivity).
  destruct Hnew as [w' Hnew].
  destruct (constructed_images_match_pass_attachments true example_vulkan 7
              (VKRRenderPass_new example_key) 1920 1080 2 (Some "old") start
              example_fb_depth w' example_key HAS_DEPTH true Hnew)
    as (color_att & rest & Hatt & Hf & Hl & _).
  - discriminate.
  - exists w', color_att, rest. repeat split; assumption.
Defined.

Lemma constructor_returns_witness :
  exists self w' evs,
    VKRFramebuffer_new true example_vulkan 7 (VKRRenderPass_new example_key)
      1920 1080 2 true (Some "old") start = Done self w' /\
    trace w' = trace start ++ evs /\
    native_calls w' = 10%nat /\
    HasDepth self = true /\
    length (created_views evs) = 8%nat.
Proof.
  destruct (constructor_returns true example_vulkan 7 (VKRRenderPass_new example_key)
              1920 1080 2 true "old" start)
    as (self & w' & evs & Hrun & Htrace & Hcalls & Hdepth & _ & Hviews & _).
  - right. reflexivity.
  - intros n. reflexivity.
  - intros n _. simpl. unfold VK_NULL_HANDLE. lia.
  - exists self, w', evs. repeat split; assumption.
Defined.

Lemma construct_then_destroy_returns_everything_witness :
  exists self w' created queued,
    VKRFramebuffer_new true example_vulkan 7 (VKRRenderPass_new example_key)
      1920 1080 2 true (Some "old") start = Done self w' /\
    trace w' = trace start ++ created /\
    VKRFramebuffer_destroy true self start = Done tt (extend start 0 queued) /\
    queued ≡ₚ map E_QueueDeleteImageView (created_views created) ++
              map (fun p => E_QueueDeleteImageAllocation (fst p) (snd p))
                  (created_images created).
Proof.
  apply (construct_then_destroy_returns_everything true example_vulkan 7
           (VKRRenderPass_new example_key) 1920 1080 2 true "old" start start).
  - right. reflexivity.
  - intros n. reflexivity.
  - intros n _. simpl. unfold VK_NULL_HANDLE. lia.
  - intros n _. simpl. unfold VK_NULL_HANDLE. lia.
Defined.

Lemma UpdateTag_names_are_cut_to_127_witness :
  exists evs,
    UpdateTag example_fb_cached (Some "new") start = Done tt (extend start 0 evs) /\
    Forall (fun name => In name ["fb_color_old"; "fb_depth_old"; "fb_old"])
           (debug_names evs).
Proof.
  destruct (UpdateTag_names_are_cut_to_127 example_fb_cached (Some "new") start)
    as (evs & Hrun & _ & _ & Hnames).
  exists evs. split; [exact Hrun|]. apply Hnames. simpl. lia.
Defined.
